(** * Sleep-cycle temperature controller (temperatureCron/route.ts)

    A shallow embedding of the four copies of the cron route kept in the
    repository (the route itself and three sibling copies, here [Part000],
    [Part001] and [Part002]), and the properties of the boundary
    calculator, stage classifier, setpoint resolver, actuation engine and
    run orchestrator that the specification states about them.

    Conventions of the embedding.
    - A JavaScript [Date] is its time value: milliseconds since the epoch,
      an integer ([Z]).  The fields of a date are read in the local zone of
      the server, taken to be at a fixed offset [tz] (milliseconds east of
      UTC) from universal time: no daylight-saving transition is modelled,
      and neither is the range limit of [Date] (8.64e15 ms either side of
      the epoch).
    - A JavaScript number obtained from [Number(string)] is [NaN] or an
      integer.  [Number] is modelled on strings made of white space, a
      sign and decimal digits, which is the notation of clock strings.
    - A promise that rejects is a computation that throws: [Throw e]. *)

From Stdlib Require Import ZArith List String Ascii Bool Lia.
Import ListNotations.

Open Scope string_scope.
Open Scope list_scope.
Open Scope Z_scope.

(** ** Values thrown and results *)

Inductive Err : Type :=
| InvalidTimeString (timeString : string)   (* new Error(`Invalid time string: ...`) *)
| RetryFailed                               (* new Error("Retry failed") *)
| External (what : string).                 (* whatever a collaborator rejects with *)

Inductive result (A : Type) : Type :=
| Ok (a : A)
| Throw (e : Err).
Arguments Ok {A} a.
Arguments Throw {A} e.

Definition isOk {A} (r : result A) : bool :=
  match r with Ok _ => true | Throw _ => false end.

(** Sequencing of synchronous code that may throw. *)
Definition andThen {A B} (r : result A) (k : A -> result B) : result B :=
  match r with
  | Ok a => k a
  | Throw e => Throw e
  end.

(** ** The fragment of JavaScript the route relies on *)

Module Js.

(** The result of [Number(s)]. *)
Inductive JsNumber : Type :=
| NaN
| Int (z : Z).

Definition isStrWhiteSpaceChar (c : ascii) : bool :=
  match nat_of_ascii c with
  | 9%nat | 10%nat | 11%nat | 12%nat | 13%nat | 32%nat => true
  | _ => false
  end.

Definition digitOf (c : ascii) : option Z :=
  let n := Z.of_nat (nat_of_ascii c) in
  if (48 <=? n) && (n <=? 57) then Some (n - 48) else None.

Fixpoint dropWhite (cs : list ascii) : list ascii :=
  match cs with
  | c :: r => if isStrWhiteSpaceChar c then dropWhite r else cs
  | [] => []
  end.

(** [String.prototype.trim], as [StringToNumber] applies it. *)
Definition trim (cs : list ascii) : list ascii :=
  rev (dropWhite (rev (dropWhite cs))).

Fixpoint decimalDigits (acc : Z) (cs : list ascii) : JsNumber :=
  match cs with
  | [] => Int acc
  | c :: r =>
      match digitOf c with
      | Some d => decimalDigits (10 * acc + d) r
      | None => NaN
      end
  end.

Definition unsignedDecimal (cs : list ascii) : JsNumber :=
  match cs with
  | [] => NaN
  | _ :: _ => decimalDigits 0 cs
  end.

Definition negate (n : JsNumber) : JsNumber :=
  match n with
  | NaN => NaN
  | Int z => Int (- z)
  end.

(** [Number(s)] for a string [s]: the empty or all-blank string is 0,
    an optionally signed run of decimal digits is its value, and any
    other text of the modelled notation is [NaN]. *)
Definition Number (s : string) : JsNumber :=
  match trim (list_ascii_of_string s) with
  | [] => Int 0
  | "+"%char :: ds => unsignedDecimal ds
  | "-"%char :: ds => negate (unsignedDecimal ds)
  | ds => unsignedDecimal ds
  end.

(** [s.split(sep)] for a one-character separator. *)
Fixpoint split (sep : ascii) (s : string) : list string :=
  match s with
  | EmptyString => [EmptyString]
  | String c r =>
      if Ascii.eqb c sep then EmptyString :: split sep r
      else match split sep r with
           | f :: fs => String c f :: fs
           | [] => [String c EmptyString]
           end
  end.

(** Time values (ECMA-262, "Time Values and Time Range"). *)
Definition msPerMinute : Z := 60000.
Definition msPerHour : Z := 3600000.
Definition msPerDay : Z := 86400000.

Definition Day (t : Z) : Z := t / msPerDay.
Definition TimeWithinDay (t : Z) : Z := t mod msPerDay.
Definition HourFromTime (t : Z) : Z := (t / msPerHour) mod 24.
Definition MakeTime (hour min sec ms : Z) : Z :=
  hour * msPerHour + min * msPerMinute + sec * 1000 + ms.
Definition MakeDate (day time : Z) : Z := day * msPerDay + time.

Section LocalZone.
(** Offset of the server's local zone, in milliseconds. *)
Variable tz : Z.

Definition LocalTime (t : Z) : Z := t + tz.
Definition UTC (t : Z) : Z := t - tz.

(** [d.getHours()]. *)
Definition getHours (d : Z) : Z := HourFromTime (LocalTime d).

(** [d.setHours(hour, min, sec, ms)]. *)
Definition setHours4 (d hour min sec ms : Z) : Z :=
  UTC (MakeDate (Day (LocalTime d)) (MakeTime hour min sec ms)).

(** [d.setHours(hour)]: minutes, seconds and milliseconds are kept. *)
Definition setHours1 (d hour : Z) : Z :=
  let t := LocalTime d in
  UTC (MakeDate (Day t) (hour * msPerHour + t mod msPerHour)).

(** [d.setDate(d.getDate() + days)]: the day number moves by [days]
    (a day of the month past either end of the month carries into
    the neighbouring months) and the time within the day is kept. *)
Definition setDateRelative (d days : Z) : Z :=
  let t := LocalTime d in
  UTC (MakeDate (Day t + days) (TimeWithinDay t)).
End LocalZone.

End Js.

(** ** Rows of the persistence collaborator and device values *)

Module Db.

(** A row of [users]. *)
Record UserRow : Type := {
  email : string;
  eightAccessToken : string;
  eightRefreshToken : string;
  eightTokenExpiresAt : Z;
  eightUserId : string
}.

(** A row of [userTemperatureProfile]. *)
Record TemperatureProfileRow : Type := {
  bedTime : string;
  wakeupTime : string;
  timezoneTZ : string;
  initialSleepLevel : Z;
  midStageSleepLevel : Z;
  finalSleepLevel : Z
}.

(** A row of the inner join the run iterates over. *)
Record ProfileRow : Type := {
  users : UserRow;
  userTemperatureProfiles : TemperatureProfileRow
}.

End Db.

(** [Token] of ~/server/eight/types. *)
Record Token : Type := {
  eightAccessToken : string;
  eightRefreshToken : string;
  eightExpiresAtPosix : Z;
  eightUserId : string
}.

(** What [getCurrentHeatingStatus] resolves to. *)
Record HeatingStatus : Type := {
  isHeating : bool;
  heatingLevel : Z
}.

(** The optional argument of [adjustTemperature]. *)
Record TestMode : Type := {
  enabled : bool;
  currentTime : Z
}.

(** [testMode?.enabled]. *)
Definition testEnabled (testMode : option TestMode) : bool :=
  match testMode with
  | Some t => enabled t
  | None => false
  end.

(** The strings the copies use to name a stage.  The labels
    "warming-alarm" and "WARMING-SPIKE" that two copies log for the
    wake-up spike are [Warming] as well. *)
Inductive StageTag : Type :=
| OutsideSleepCycle
| PreHeating
| Initial
| Mid
| Final
| Warming.

(** What the endpoint answers. *)
Inductive Response : Type :=
| Unauthorized401
| SuccessJson
| InternalServerError500.

(** ** Collaborators, the trace of calls, and the computation monad *)

(** One entry per call that leaves the process, and per back-off wait. *)
Inductive Event : Type :=
| DbSelectProfiles
| ObtainFreshAccessToken (refreshToken userId : string)
| DbUpdateUser (userEmail : string) (token : Token)
| GetCurrentHeatingStatus (token : Token)
| TurnOnSide (token : Token) (userId : string)
| TurnOffSide (token : Token) (userId : string)
| SetHeatingLevel (token : Token) (userId : string) (level : Z)
| SetTimeout (ms : Z).

(** The device writes among the events. *)
Definition isDeviceWrite (ev : Event) : bool :=
  match ev with
  | TurnOnSide _ _ | TurnOffSide _ _ | SetHeatingLevel _ _ _ => true
  | _ => false
  end.

Definition isTurnOff (ev : Event) : bool :=
  match ev with
  | TurnOffSide _ _ => true
  | _ => false
  end.

(** The imported collaborators, as functions of an environment state
    [Env] that they may change, together with what the runtime supplies:
    the wall clock, the server's zone offset and the zone database behind
    [new Date(now.toLocaleString("en-US", { timeZone }))]. *)
Record Collab (Env : Type) : Type := {
  co_select : Env -> result (list Db.ProfileRow) * Env;
  co_refresh : string -> string -> Env -> result Token * Env;
  co_update : string -> Token -> Env -> result unit * Env;
  co_status : Token -> Env -> result HeatingStatus * Env;
  co_turnOn : Token -> string -> Env -> result unit * Env;
  co_turnOff : Token -> string -> Env -> result unit * Env;
  co_setLevel : Token -> string -> Z -> Env -> result unit * Env;
  co_clock : Env -> Z;
  co_zone : Z;
  co_userLocal : Z -> string -> result Z
}.
Arguments co_select {Env}.
Arguments co_refresh {Env}.
Arguments co_update {Env}.
Arguments co_status {Env}.
Arguments co_turnOn {Env}.
Arguments co_turnOff {Env}.
Arguments co_setLevel {Env}.
Arguments co_clock {Env}.
Arguments co_zone {Env}.
Arguments co_userLocal {Env}.

Record World (Env : Type) : Type := mkWorld {
  env : Env;
  trace : list Event
}.
Arguments mkWorld {Env}.
Arguments env {Env}.
Arguments trace {Env}.

(** An asynchronous computation: it changes the world and either
    resolves to a value or rejects. *)
Definition M (Env A : Type) : Type := World Env -> result A * World Env.

Section Monad.
Context {Env : Type}.

Definition ret {A} (a : A) : M Env A := fun w => (Ok a, w).

Definition throw {A} (e : Err) : M Env A := fun w => (Throw e, w).

Definition bind {A B} (m : M Env A) (k : A -> M Env B) : M Env B :=
  fun w =>
    match m w with
    | (Ok a, w') => k a w'
    | (Throw e, w') => (Throw e, w')
    end.

(** [try { body } catch (error) { handler }]. *)
Definition tryCatch {A} (body : M Env A) (handler : Err -> M Env A) : M Env A :=
  fun w =>
    match body w with
    | (Ok a, w') => (Ok a, w')
    | (Throw e, w') => handler e w'
    end.

(** [if (b) { m }]. *)
Definition when (b : bool) (m : M Env unit) : M Env unit :=
  if b then m else ret tt.

(** A value computed by synchronous code that may throw. *)
Definition lift {A} (r : result A) : M Env A := fun w => (r, w).

(** A call to a collaborator: logged, then answered by the environment. *)
Definition perform {A} (ev : Event) (h : Env -> result A * Env) : M Env A :=
  fun w =>
    let (r, e') := h (env w) in
    (r, mkWorld e' (trace w ++ [ev])).

(** [await new Promise(resolve => setTimeout(resolve, ms))]. *)
Definition sleep (ms : Z) : M Env unit :=
  fun w => (Ok tt, mkWorld (env w) (trace w ++ [SetTimeout ms])).
End Monad.

Declare Scope m_scope.
Delimit Scope m_scope with m.
Notation "x <- m ;; k" := (bind m (fun x => k))
  (at level 61, m at next level, right associativity) : m_scope.
Notation "m ;; k" := (bind m (fun _ => k))
  (at level 61, right associativity) : m_scope.
Open Scope m_scope.

(** ** Helpers that read the same in every copy that has them *)

Module Shared.

(** [addDays(date, days)]. *)
Definition addDays (tz : Z) (date days : Z) : Z :=
  Js.setDateRelative tz date days.

(** [isWithinTimeRange(current, target, rangeMinutes)]. *)
Definition isWithinTimeRange (current target rangeMinutes : Z) : bool :=
  let diffMs := Z.abs (current - target) in
  diffMs <=? rangeMinutes * 60 * 1000.

(** [adjustTimeToCurrentCycle(cycleStart, currentTime, timeInCycle)]. *)
Definition adjustTimeToCurrentCycle (tz : Z) (cycleStart currentTime timeInCycle : Z) : Z :=
  let adjustedTime := timeInCycle in
  let adjustedTime :=
    if timeInCycle <? cycleStart then addDays tz adjustedTime 1 else adjustedTime in
  let adjustedTime :=
    if (adjustedTime >? currentTime)
       && (adjustedTime - currentTime >? 12 * 60 * 60 * 1000)
    then addDays tz adjustedTime (-1) else adjustedTime in
  adjustedTime.

(** [interface SleepCycle] of the copies that have a warming stage. *)
Record SleepCycle : Type := {
  preHeatingTime : Z;
  bedTime : Z;
  midStageTime : Z;
  finalStageTime : Z;
  warmingTime : Z;
  wakeupTime : Z
}.

(** The [adjustedCycle] object literal of those copies. *)
Definition adjustCycle (tz userNow : Z) (sleepCycle : SleepCycle) : SleepCycle :=
  let cycleStart := preHeatingTime sleepCycle in
  {| preHeatingTime := adjustTimeToCurrentCycle tz cycleStart userNow (preHeatingTime sleepCycle);
     bedTime := adjustTimeToCurrentCycle tz cycleStart userNow (bedTime sleepCycle);
     midStageTime := adjustTimeToCurrentCycle tz cycleStart userNow (midStageTime sleepCycle);
     finalStageTime := adjustTimeToCurrentCycle tz cycleStart userNow (finalStageTime sleepCycle);
     warmingTime := adjustTimeToCurrentCycle tz cycleStart userNow (warmingTime sleepCycle);
     wakeupTime := adjustTimeToCurrentCycle tz cycleStart userNow (wakeupTime sleepCycle) |}.

Section Calls.
Context {Env : Type} (io : Collab Env).

Definition getCurrentHeatingStatus (token : Token) : M Env HeatingStatus :=
  perform (GetCurrentHeatingStatus token) (co_status io token).

Definition turnOnSide (token : Token) (userId : string) : M Env unit :=
  perform (TurnOnSide token userId) (co_turnOn io token userId).

Definition turnOffSide (token : Token) (userId : string) : M Env unit :=
  perform (TurnOffSide token userId) (co_turnOff io token userId).

Definition setHeatingLevel (token : Token) (userId : string) (level : Z) : M Env unit :=
  perform (SetHeatingLevel token userId level) (co_setLevel io token userId level).

Definition obtainFreshAccessToken (refreshToken userId : string) : M Env Token :=
  perform (ObtainFreshAccessToken refreshToken userId) (co_refresh io refreshToken userId).

(** [db.update(users).set({...}).where(eq(users.email, email))]. *)
Definition dbUpdateUser (userEmail : string) (token : Token) : M Env unit :=
  perform (DbUpdateUser userEmail token) (co_update io userEmail token).

(** [db.select().from(userTemperatureProfile).innerJoin(users, ...)]. *)
Definition dbSelectProfiles : M Env (list Db.ProfileRow) :=
  perform DbSelectProfiles (co_select io).

(** [new Date()]. *)
Definition newDate : M Env Z := fun w => (Ok (co_clock io (env w)), w).

(** The token built from the user's row at the top of the loop body. *)
Definition tokenOfRow (u : Db.UserRow) : Token :=
  {| eightAccessToken := Db.eightAccessToken u;
     eightRefreshToken := Db.eightRefreshToken u;
     eightExpiresAtPosix := Db.eightTokenExpiresAt u;
     eightUserId := Db.eightUserId u |}.

(** [testMode?.enabled ? testMode.currentTime : new Date()]. *)
Definition nowOf (testMode : option TestMode) : M Env Z :=
  match testMode with
  | Some t => if enabled t then ret (currentTime t) else newDate
  | None => newDate
  end.

(** [new Date(now.toLocaleString("en-US", { timeZone }))]. *)
Definition userLocal (now : Z) (timeZone : string) : M Env Z :=
  lift (co_userLocal io now timeZone).
End Calls.

Section Retry.
Context {Env : Type} {T : Type}.

(** The loop of [retryApiCall], from iteration [i], with [iters]
    iterations left before [i < retries] fails. *)
Fixpoint retryLoop (apiCall : M Env T) (retries : Z) (iters : nat) (i : Z) : M Env T :=
  match iters with
  | O => throw RetryFailed
  | S k =>
      tryCatch apiCall
        (fun error =>
           if i =? retries - 1 then throw error
           else sleep (1000 * 2 ^ i) ;; retryLoop apiCall retries k (i + 1))
  end.

Definition retryApiCallN (apiCall : M Env T) (retries : Z) : M Env T :=
  retryLoop apiCall retries (Z.to_nat retries) 0.

(** [retryApiCall(apiCall)], with the default [retries = 3]. *)
Definition retryApiCall (apiCall : M Env T) : M Env T :=
  retryApiCallN apiCall 3.
End Retry.

End Shared.

(** ** First sibling copy: proximity-triggered, one-hour lead, warming spike *)

Module Part000.
Import Shared.

Definition createDateWithTime (tz baseDate : Z) (timeString : string) : result Z :=
  let fields := map Js.Number (Js.split ":" timeString) in
  match nth_error fields 0, nth_error fields 1 with
  | Some (Js.Int hours), Some (Js.Int minutes) =>
      if (hours <? 0) || (hours >? 23) || (minutes <? 0) || (minutes >? 59)
      then Throw (InvalidTimeString timeString)
      else Ok (Js.setHours4 tz baseDate hours minutes 0 0)
  | _, _ => Throw (InvalidTimeString timeString)
  end.

Definition createSleepCycle (tz baseDate : Z) (bedTimeStr wakeupTimeStr : string)
  : result SleepCycle :=
  andThen (createDateWithTime tz baseDate bedTimeStr) (fun preHeatingTime =>
  let preHeatingTime := Js.setHours1 tz preHeatingTime (Js.getHours tz preHeatingTime - 1) in
  andThen (createDateWithTime tz baseDate bedTimeStr) (fun bedTime =>
  andThen (createDateWithTime tz baseDate wakeupTimeStr) (fun wakeupTime =>
  let wakeupTime :=
    if wakeupTime <=? bedTime then addDays tz wakeupTime 1 else wakeupTime in
  let midStageTime := bedTime + 60 * 60 * 1000 in
  let finalStageTime := wakeupTime - 2 * 60 * 60 * 1000 in
  let warmingTime := wakeupTime - 30 * 60 * 1000 in
  Ok {| preHeatingTime := preHeatingTime; bedTime := bedTime;
        midStageTime := midStageTime; finalStageTime := finalStageTime;
        warmingTime := warmingTime; wakeupTime := wakeupTime |}))).

(** The chain that sets [currentSleepStage]. *)
Definition currentSleepStage (adjustedCycle : SleepCycle) (userNow : Z) : StageTag :=
  if (userNow >=? preHeatingTime adjustedCycle) && (userNow <? bedTime adjustedCycle)
  then PreHeating
  else if (userNow >=? bedTime adjustedCycle) && (userNow <? midStageTime adjustedCycle)
  then Initial
  else if (userNow >=? midStageTime adjustedCycle) && (userNow <? finalStageTime adjustedCycle)
  then Mid
  else if (userNow >=? finalStageTime adjustedCycle) && (userNow <? warmingTime adjustedCycle)
  then Final
  else if (userNow >=? warmingTime adjustedCycle) && (userNow <? wakeupTime adjustedCycle)
  then Warming
  else OutsideSleepCycle.

(** The block that picks [targetLevel] and [sleepStage]; [None] when
    the instant is near no boundary and the block is not entered. *)
Definition target (userTempProfile : Db.TemperatureProfileRow)
    (adjustedCycle : SleepCycle) (userNow : Z) : option (Z * StageTag) :=
  let isNearPreHeating := isWithinTimeRange userNow (preHeatingTime adjustedCycle) 15 in
  let isNearBedTime := isWithinTimeRange userNow (bedTime adjustedCycle) 15 in
  let isNearMidStage := isWithinTimeRange userNow (midStageTime adjustedCycle) 15 in
  let isNearFinalStage := isWithinTimeRange userNow (finalStageTime adjustedCycle) 15 in
  let isNearWarming := isWithinTimeRange userNow (warmingTime adjustedCycle) 15 in
  let isNearWakeup := isWithinTimeRange userNow (wakeupTime adjustedCycle) 15 in
  if isNearPreHeating || isNearBedTime || isNearMidStage || isNearFinalStage
     || isNearWarming || isNearWakeup
  then
    Some
      (if isNearWarming then (2, Warming)
       else if isNearPreHeating || (isNearBedTime && (userNow <? bedTime adjustedCycle))
       then (Db.initialSleepLevel userTempProfile, PreHeating)
       else if isNearBedTime || (isNearMidStage && (userNow <? midStageTime adjustedCycle))
       then (Db.initialSleepLevel userTempProfile, Initial)
       else if isNearMidStage || (isNearFinalStage && (userNow <? finalStageTime adjustedCycle))
       then (Db.midStageSleepLevel userTempProfile, Mid)
       else (Db.finalSleepLevel userTempProfile, Final))
  else None.

Section Run.
Context {Env : Type} (io : Collab Env).

(** From the proximity flags to the end of the loop body: the
    commands sent for a device state [heatingStatus]. *)
Definition actuate (testMode : option TestMode) (token : Token) (userId : string)
    (userTempProfile : Db.TemperatureProfileRow) (adjustedCycle : SleepCycle)
    (userNow : Z) (heatingStatus : HeatingStatus) : M Env unit :=
  let isNearWakeup := isWithinTimeRange userNow (wakeupTime adjustedCycle) 15 in
  match target userTempProfile adjustedCycle userNow with
  | Some (targetLevel, _) =>
      when (negb (isHeating heatingStatus))
        (when (negb (testEnabled testMode))
           (retryApiCall (turnOnSide io token userId))) ;;
      when (negb (heatingLevel heatingStatus =? targetLevel))
        (when (negb (testEnabled testMode))
           (retryApiCall (setHeatingLevel io token userId targetLevel)))
  | None =>
      when (isHeating heatingStatus && (userNow >? wakeupTime adjustedCycle)
            && negb isNearWakeup)
        (when (negb (testEnabled testMode))
           (retryApiCall (turnOffSide io token userId)))
  end.

(** The body of the inner [try] for one profile. *)
Definition processProfile (testMode : option TestMode) (profile : Db.ProfileRow)
  : M Env unit :=
  let token := tokenOfRow (Db.users profile) in
  now <- nowOf io testMode ;;
  token <-
    (if negb (testEnabled testMode) && (now >? eightExpiresAtPosix token)
     then
       token <- obtainFreshAccessToken io (eightRefreshToken token) (eightUserId token) ;;
       dbUpdateUser io (Db.email (Db.users profile)) token ;;
       ret token
     else ret token) ;;
  let userTempProfile := Db.userTemperatureProfiles profile in
  userNow <- userLocal io now (Db.timezoneTZ userTempProfile) ;;
  sleepCycle <- lift (createSleepCycle (co_zone io) userNow
                        (Db.bedTime userTempProfile) (Db.wakeupTime userTempProfile)) ;;
  let adjustedCycle := adjustCycle (co_zone io) userNow sleepCycle in
  heatingStatus <-
    (if testEnabled testMode
     then ret {| isHeating := false; heatingLevel := 0 |}
     else retryApiCall (getCurrentHeatingStatus io token)) ;;
  actuate testMode token (Db.eightUserId (Db.users profile)) userTempProfile
    adjustedCycle userNow heatingStatus.

(** [for (const profile of profiles) { try { ... } catch (error) { console.error } }]. *)
Fixpoint forEachProfile (testMode : option TestMode) (profiles : list Db.ProfileRow)
  : M Env unit :=
  match profiles with
  | [] => ret tt
  | profile :: rest =>
      tryCatch (processProfile testMode profile) (fun _ => ret tt) ;;
      forEachProfile testMode rest
  end.

Definition adjustTemperature (testMode : option TestMode) : M Env unit :=
  tryCatch
    (profiles <- dbSelectProfiles io ;;
     forEachProfile testMode profiles)
    (fun error => throw error).

(** The handler.  [authorized] is the outcome of comparing the
    authorization header with the cron secret, [testTimeParam] the
    numeric value of the [testTime] query parameter when present. *)
Definition GET (authorized : bool) (testTimeParam : option Z) : M Env Response :=
  if negb authorized then ret Unauthorized401
  else
    tryCatch
      (match testTimeParam with
       | Some seconds =>
           adjustTemperature (Some {| enabled := true; currentTime := seconds * 1000 |})
       | None => adjustTemperature None
       end ;;
       ret SuccessJson)
      (fun _ => ret InternalServerError500).
End Run.

End Part000.

(** ** The route itself: stage-driven targets behind the proximity gate *)

Module Route.
Import Shared.

Definition createDateWithTime (tz baseDate : Z) (timeString : string) : result Z :=
  let fields := map Js.Number (Js.split ":" timeString) in
  match nth_error fields 0, nth_error fields 1 with
  | Some (Js.Int hours), Some (Js.Int minutes) =>
      Ok (Js.setHours4 tz baseDate hours minutes 0 0)
  | _, _ => Throw (InvalidTimeString timeString)
  end.

Definition createSleepCycle (tz baseDate : Z) (bedTimeStr wakeupTimeStr : string)
  : result SleepCycle :=
  andThen (createDateWithTime tz baseDate bedTimeStr) (fun preHeatingTime =>
  let preHeatingTime := Js.setHours1 tz preHeatingTime (Js.getHours tz preHeatingTime - 1) in
  andThen (createDateWithTime tz baseDate bedTimeStr) (fun bedTime =>
  andThen (createDateWithTime tz baseDate wakeupTimeStr) (fun wakeupTime =>
  let wakeupTime :=
    if wakeupTime <=? bedTime then addDays tz wakeupTime 1 else wakeupTime in
  let midStageTime := bedTime + 60 * 60 * 1000 in
  let finalStageTime := wakeupTime - 120 * 60 * 1000 in
  let warmingTime := wakeupTime - 30 * 60 * 1000 in
  Ok {| preHeatingTime := preHeatingTime; bedTime := bedTime;
        midStageTime := midStageTime; finalStageTime := finalStageTime;
        warmingTime := warmingTime; wakeupTime := wakeupTime |}))).

(** The rewritten detection chain, latest window first. *)
Definition currentSleepStage (adjustedCycle : SleepCycle) (userNow : Z) : StageTag :=
  if (userNow >=? warmingTime adjustedCycle) && (userNow <? wakeupTime adjustedCycle)
  then Warming
  else if (userNow >=? finalStageTime adjustedCycle) && (userNow <? warmingTime adjustedCycle)
  then Final
  else if (userNow >=? midStageTime adjustedCycle) && (userNow <? finalStageTime adjustedCycle)
  then Mid
  else if (userNow >=? bedTime adjustedCycle) && (userNow <? midStageTime adjustedCycle)
  then Initial
  else if (userNow >=? preHeatingTime adjustedCycle) && (userNow <? bedTime adjustedCycle)
  then PreHeating
  else OutsideSleepCycle.

(** The condition of the outer [if]: some boundary is within 15 minutes. *)
Definition nearSomeBoundary (adjustedCycle : SleepCycle) (userNow : Z) : bool :=
  let isNearWarming := isWithinTimeRange userNow (warmingTime adjustedCycle) 15 in
  let isNearFinal := isWithinTimeRange userNow (finalStageTime adjustedCycle) 15 in
  let isNearWakeup := isWithinTimeRange userNow (wakeupTime adjustedCycle) 15 in
  isNearWarming || isNearWakeup || isNearFinal
  || isWithinTimeRange userNow (midStageTime adjustedCycle) 15
  || isWithinTimeRange userNow (bedTime adjustedCycle) 15
  || isWithinTimeRange userNow (preHeatingTime adjustedCycle) 15.

(** The priority assignment: [targetLevel] and [stageName]. *)
Definition target (userTemp : Db.TemperatureProfileRow)
    (adjustedCycle : SleepCycle) (userNow : Z) : option (Z * StageTag) :=
  let isNearWarming := isWithinTimeRange userNow (warmingTime adjustedCycle) 15 in
  let currentSleepStage := currentSleepStage adjustedCycle userNow in
  if nearSomeBoundary adjustedCycle userNow
  then
    let targetLevel := Db.midStageSleepLevel userTemp in
    let stageName := currentSleepStage in
    Some
      (if isNearWarming
          || match currentSleepStage with Warming => true | _ => false end
       then (10, Warming)
       else match currentSleepStage with
            | Final => (Db.finalSleepLevel userTemp, stageName)
            | Initial | PreHeating => (Db.initialSleepLevel userTemp, stageName)
            | _ => (targetLevel, stageName)
            end)
  else None.

Section Run.
Context {Env : Type} (io : Collab Env).

(** From the proximity gate to the end of the loop body. *)
Definition actuate (testMode : option TestMode) (token : Token) (userId : string)
    (userTemp : Db.TemperatureProfileRow) (adjustedCycle : SleepCycle)
    (userNow : Z) : M Env unit :=
  let isNearWakeup := isWithinTimeRange userNow (wakeupTime adjustedCycle) 15 in
  match target userTemp adjustedCycle userNow with
  | Some (targetLevel, _) =>
      when (negb (testEnabled testMode))
        (status <- retryApiCall (getCurrentHeatingStatus io token) ;;
         when (negb (isHeating status)) (turnOnSide io token userId) ;;
         when (negb (heatingLevel status =? targetLevel))
           (setHeatingLevel io token userId targetLevel))
  | None =>
      when ((userNow >? wakeupTime adjustedCycle) && negb isNearWakeup)
        (when (negb (testEnabled testMode)) (turnOffSide io token userId))
  end.

Definition processProfile (testMode : option TestMode) (profile : Db.ProfileRow)
  : M Env unit :=
  let token := tokenOfRow (Db.users profile) in
  now <- nowOf io testMode ;;
  let userTemp := Db.userTemperatureProfiles profile in
  userNow <- userLocal io now (Db.timezoneTZ userTemp) ;;
  sleepCycle <- lift (createSleepCycle (co_zone io) userNow
                        (Db.bedTime userTemp) (Db.wakeupTime userTemp)) ;;
  let adjustedCycle := adjustCycle (co_zone io) userNow sleepCycle in
  actuate testMode token (Db.eightUserId (Db.users profile)) userTemp
    adjustedCycle userNow.

Fixpoint forEachProfile (testMode : option TestMode) (profiles : list Db.ProfileRow)
  : M Env unit :=
  match profiles with
  | [] => ret tt
  | profile :: rest =>
      tryCatch (processProfile testMode profile) (fun _ => ret tt) ;;
      forEachProfile testMode rest
  end.

(** The outer [catch] only logs. *)
Definition adjustTemperature (testMode : option TestMode) : M Env unit :=
  tryCatch
    (profiles <- dbSelectProfiles io ;;
     forEachProfile testMode profiles)
    (fun _ => ret tt).

Definition GET (authorized : bool) (testTimeParam : option Z) : M Env Response :=
  if negb authorized then ret Unauthorized401
  else
    adjustTemperature
      (match testTimeParam with
       | Some seconds => Some {| enabled := true; currentTime := seconds * 1000 |}
       | None => None
       end) ;;
    ret SuccessJson.
End Run.

End Route.

(** ** Second sibling copy: window-based, three-hour lead, no warming stage *)

Module Part001.
Import Shared.

Definition createDateWithTime (tz baseDate : Z) (timeString : string) : result Z :=
  let fields := map Js.Number (Js.split ":" timeString) in
  match nth_error fields 0, nth_error fields 1 with
  | Some (Js.Int hours), Some (Js.Int minutes) =>
      if (hours <? 0) || (hours >? 23) || (minutes <? 0) || (minutes >? 59)
      then Throw (InvalidTimeString timeString)
      else Ok (Js.setHours4 tz baseDate hours minutes 0 0)
  | _, _ => Throw (InvalidTimeString timeString)
  end.

Record SleepCycle : Type := {
  preHeatingTime : Z;
  bedTime : Z;
  midStageTime : Z;
  finalStageTime : Z;
  wakeupTime : Z
}.

Definition createSleepCycle (tz baseDate : Z) (bedTimeStr wakeupTimeStr : string)
  : result SleepCycle :=
  andThen (createDateWithTime tz baseDate bedTimeStr) (fun preHeatingTime =>
  let preHeatingTime := Js.setHours1 tz preHeatingTime (Js.getHours tz preHeatingTime - 3) in
  andThen (createDateWithTime tz baseDate bedTimeStr) (fun bedTime =>
  andThen (createDateWithTime tz baseDate wakeupTimeStr) (fun wakeupTime =>
  let wakeupTime :=
    if wakeupTime <=? bedTime then addDays tz wakeupTime 1 else wakeupTime in
  let midStageTime := bedTime + 60 * 60 * 1000 in
  let finalStageTime := wakeupTime - 2 * 60 * 60 * 1000 in
  Ok {| preHeatingTime := preHeatingTime; bedTime := bedTime;
        midStageTime := midStageTime; finalStageTime := finalStageTime;
        wakeupTime := wakeupTime |}))).

Definition adjustCycle (tz userNow : Z) (sleepCycle : SleepCycle) : SleepCycle :=
  let cycleStart := preHeatingTime sleepCycle in
  {| preHeatingTime := adjustTimeToCurrentCycle tz cycleStart userNow (preHeatingTime sleepCycle);
     bedTime := adjustTimeToCurrentCycle tz cycleStart userNow (bedTime sleepCycle);
     midStageTime := adjustTimeToCurrentCycle tz cycleStart userNow (midStageTime sleepCycle);
     finalStageTime := adjustTimeToCurrentCycle tz cycleStart userNow (finalStageTime sleepCycle);
     wakeupTime := adjustTimeToCurrentCycle tz cycleStart userNow (wakeupTime sleepCycle) |}.

(** The window flags and the chain that sets [targetLevel] and
    [sleepStage]; [None] is the [null] target. *)
Definition target (userTemp : Db.TemperatureProfileRow)
    (adjustedCycle : SleepCycle) (userNow : Z) : option (Z * StageTag) :=
  let isPreHeating :=
    (userNow >=? preHeatingTime adjustedCycle) && (userNow <? bedTime adjustedCycle) in
  let isInitial :=
    (userNow >=? bedTime adjustedCycle) && (userNow <? midStageTime adjustedCycle) in
  let isMid :=
    (userNow >=? midStageTime adjustedCycle) && (userNow <? finalStageTime adjustedCycle) in
  let isFinal :=
    (userNow >=? finalStageTime adjustedCycle) && (userNow <? wakeupTime adjustedCycle) in
  if isPreHeating then Some (Db.initialSleepLevel userTemp, PreHeating)
  else if isInitial then Some (Db.initialSleepLevel userTemp, Initial)
  else if isMid then Some (Db.midStageSleepLevel userTemp, Mid)
  else if isFinal then Some (Db.finalSleepLevel userTemp, Final)
  else None.

Section Run.
Context {Env : Type} (io : Collab Env).

Definition actuate (testMode : option TestMode) (token : Token) (userId : string)
    (userTemp : Db.TemperatureProfileRow) (adjustedCycle : SleepCycle)
    (userNow : Z) (heatingStatus : HeatingStatus) : M Env unit :=
  match target userTemp adjustedCycle userNow with
  | Some (targetLevel, _) =>
      when (negb (isHeating heatingStatus))
        (when (negb (testEnabled testMode))
           (retryApiCall (turnOnSide io token userId))) ;;
      when (negb (heatingLevel heatingStatus =? targetLevel))
        (when (negb (testEnabled testMode))
           (retryApiCall (setHeatingLevel io token userId targetLevel)))
  | None =>
      when (isHeating heatingStatus && (userNow >? wakeupTime adjustedCycle))
        (when (negb (testEnabled testMode))
           (retryApiCall (turnOffSide io token userId)))
  end.

Definition processProfile (testMode : option TestMode) (profile : Db.ProfileRow)
  : M Env unit :=
  let token := tokenOfRow (Db.users profile) in
  now <- nowOf io testMode ;;
  let userTemp := Db.userTemperatureProfiles profile in
  userNow <- userLocal io now (Db.timezoneTZ userTemp) ;;
  sleepCycle <- lift (createSleepCycle (co_zone io) userNow
                        (Db.bedTime userTemp) (Db.wakeupTime userTemp)) ;;
  let adjustedCycle := adjustCycle (co_zone io) userNow sleepCycle in
  heatingStatus <-
    (if testEnabled testMode
     then ret {| isHeating := false; heatingLevel := 0 |}
     else retryApiCall (getCurrentHeatingStatus io token)) ;;
  actuate testMode token (Db.eightUserId (Db.users profile)) userTemp
    adjustedCycle userNow heatingStatus.

Fixpoint forEachProfile (testMode : option TestMode) (profiles : list Db.ProfileRow)
  : M Env unit :=
  match profiles with
  | [] => ret tt
  | profile :: rest =>
      tryCatch (processProfile testMode profile) (fun _ => ret tt) ;;
      forEachProfile testMode rest
  end.

(** The outer [catch] logs "Critical error" and does not rethrow. *)
Definition adjustTemperature (testMode : option TestMode) : M Env unit :=
  tryCatch
    (profiles <- dbSelectProfiles io ;;
     forEachProfile testMode profiles)
    (fun _ => ret tt).

Definition GET (authorized : bool) (testTimeParam : option Z) : M Env Response :=
  if negb authorized then ret Unauthorized401
  else
    tryCatch
      (match testTimeParam with
       | Some seconds =>
           adjustTemperature (Some {| enabled := true; currentTime := seconds * 1000 |})
       | None => adjustTemperature None
       end ;;
       ret SuccessJson)
      (fun _ => ret InternalServerError500).
End Run.

End Part001.

(** ** Third sibling copy: no validation, no normalisation, no status read *)

Module Part002.
Import Shared.

(** A date that may be the invalid date ([None]: its time value is NaN). *)
Definition Date : Type := option Z.

(** [a >= b], [a < b], [a > b] and [a <= b] on time values; a
    comparison with an invalid date is false. *)
Definition geDate (a : Z) (b : Date) : bool :=
  match b with Some t => a >=? t | None => false end.
Definition ltDate (a : Z) (b : Date) : bool :=
  match b with Some t => a <? t | None => false end.
Definition gtDate (a : Z) (b : Date) : bool :=
  match b with Some t => a >? t | None => false end.
Definition leDates (a b : Date) : bool :=
  match a, b with Some x, Some y => x <=? y | _, _ => false end.

(** [x ?? 0] on a destructured field. *)
Definition orZero (x : option Js.JsNumber) : Js.JsNumber :=
  match x with Some n => n | None => Js.Int 0 end.

Definition createDateWithTime (tz baseDate : Z) (timeString : string) : Date :=
  let fields := map Js.Number (Js.split ":" timeString) in
  match orZero (nth_error fields 0), orZero (nth_error fields 1) with
  | Js.Int hours, Js.Int minutes => Some (Js.setHours4 tz baseDate hours minutes 0 0)
  | _, _ => None
  end.

Record SleepCycle : Type := {
  preHeatingTime : Date;
  bedTime : Date;
  midStageTime : Date;
  finalStageTime : Date;
  wakeupTime : Date
}.

Definition createSleepCycle (tz baseDate : Z) (bedTimeStr wakeupTimeStr : string)
  : SleepCycle :=
  let preHeatingTime := createDateWithTime tz baseDate bedTimeStr in
  let preHeatingTime :=
    option_map (fun d => Js.setHours1 tz d (Js.getHours tz d - 3)) preHeatingTime in
  let bedTime := createDateWithTime tz baseDate bedTimeStr in
  let wakeupTime := createDateWithTime tz baseDate wakeupTimeStr in
  let wakeupTime :=
    if leDates wakeupTime bedTime
    then option_map (fun d => addDays tz d 1) wakeupTime else wakeupTime in
  let midStageTime := option_map (fun t => t + 60 * 60 * 1000) bedTime in
  let finalStageTime := option_map (fun t => t - 2 * 60 * 60 * 1000) wakeupTime in
  {| preHeatingTime := preHeatingTime; bedTime := bedTime;
     midStageTime := midStageTime; finalStageTime := finalStageTime;
     wakeupTime := wakeupTime |}.

(** Step 3 of the loop body: the window flags and [targetLevel]. *)
Definition target (userTemp : Db.TemperatureProfileRow)
    (cycle : SleepCycle) (userNow : Z) : option Z :=
  let isPreHeating := geDate userNow (preHeatingTime cycle) && ltDate userNow (bedTime cycle) in
  let isInitial := geDate userNow (bedTime cycle) && ltDate userNow (midStageTime cycle) in
  let isMid := geDate userNow (midStageTime cycle) && ltDate userNow (finalStageTime cycle) in
  let isFinal := geDate userNow (finalStageTime cycle) && ltDate userNow (wakeupTime cycle) in
  if isPreHeating || isInitial then Some (Db.initialSleepLevel userTemp)
  else if isMid then Some (Db.midStageSleepLevel userTemp)
  else if isFinal then Some (Db.finalSleepLevel userTemp)
  else None.

Section Run.
Context {Env : Type} (io : Collab Env).

(** Step 4 of the loop body. *)
Definition actuate (testMode : option TestMode) (token : Token) (userId : string)
    (userTemp : Db.TemperatureProfileRow) (cycle : SleepCycle) (userNow : Z)
  : M Env unit :=
  match target userTemp cycle userNow with
  | Some targetLevel =>
      when (negb (testEnabled testMode))
        (retryApiCall (turnOnSide io token userId) ;;
         retryApiCall (setHeatingLevel io token userId targetLevel))
  | None =>
      when (gtDate userNow (wakeupTime cycle))
        (when (negb (testEnabled testMode))
           (retryApiCall (turnOffSide io token userId)))
  end.

Definition processProfile (testMode : option TestMode) (profile : Db.ProfileRow)
  : M Env unit :=
  let userTemp := Db.userTemperatureProfiles profile in
  now <- nowOf io testMode ;;
  userNow <- userLocal io now (Db.timezoneTZ userTemp) ;;
  let token := tokenOfRow (Db.users profile) in
  token <-
    (if negb (testEnabled testMode) && (now >? eightExpiresAtPosix token)
     then
       token <- obtainFreshAccessToken io (eightRefreshToken token) (eightUserId token) ;;
       dbUpdateUser io (Db.email (Db.users profile)) token ;;
       ret token
     else ret token) ;;
  let cycle := createSleepCycle (co_zone io) userNow
                 (Db.bedTime userTemp) (Db.wakeupTime userTemp) in
  actuate testMode token (Db.eightUserId (Db.users profile)) userTemp cycle userNow.

Fixpoint forEachProfile (testMode : option TestMode) (profiles : list Db.ProfileRow)
  : M Env unit :=
  match profiles with
  | [] => ret tt
  | profile :: rest =>
      tryCatch (processProfile testMode profile) (fun _ => ret tt) ;;
      forEachProfile testMode rest
  end.

(** No outer [try]: a failed fetch rejects the returned promise. *)
Definition adjustTemperature (testMode : option TestMode) : M Env unit :=
  profiles <- dbSelectProfiles io ;;
  forEachProfile testMode profiles.

Definition GET (authorized : bool) (testTimeParam : option Z) : M Env Response :=
  if negb authorized then ret Unauthorized401
  else
    match testTimeParam with
    | Some seconds =>
        adjustTemperature (Some {| enabled := true; currentTime := seconds * 1000 |})
    | None => adjustTemperature None
    end ;;
    ret SuccessJson.
End Run.

End Part002.

(** ** A simulated environment, to run the copies on concrete inputs *)

Module Sim.

(** The bed, the rows the database holds (or the error its query
    rejects with), the wall clock, and a script for the device calls:
    the n-th call to the device rejects when the n-th entry is [true]
    (calls beyond the script succeed). *)
Record State : Type := {
  device : HeatingStatus;
  rows : result (list Db.ProfileRow);
  clock : Z;
  script : list bool
}.

Definition next (s : State) : bool * State :=
  match script s with
  | [] => (false, s)
  | b :: r =>
      (b, {| device := device s; rows := rows s; clock := clock s; script := r |})
  end.

Definition withDevice (s : State) (d : HeatingStatus) : State :=
  {| device := d; rows := rows s; clock := clock s; script := script s |}.

Definition deviceCall {A} (what : string) (f : State -> A * State) (s : State)
  : result A * State :=
  let (fails, s') := next s in
  if fails then (Throw (External what), s')
  else let (a, s'') := f s' in (Ok a, s'').

Definition freshToken (refreshToken userId : string) : Token :=
  {| eightAccessToken := "fresh"; eightRefreshToken := refreshToken;
     eightExpiresAtPosix := 4102444800000; eightUserId := userId |}.

(** The server and every user are on UTC. *)
Definition io : Collab State :=
  {| co_select := fun s => (rows s, s);
     co_refresh := fun r u s => (Ok (freshToken r u), s);
     co_update := fun _ _ s => (Ok tt, s);
     co_status := fun _ => deviceCall "status" (fun s => (device s, s));
     co_turnOn := fun _ _ =>
       deviceCall "turnOn" (fun s =>
         (tt, withDevice s {| isHeating := true; heatingLevel := heatingLevel (device s) |}));
     co_turnOff := fun _ _ =>
       deviceCall "turnOff" (fun s =>
         (tt, withDevice s {| isHeating := false; heatingLevel := heatingLevel (device s) |}));
     co_setLevel := fun _ _ level =>
       deviceCall "setLevel" (fun s =>
         (tt, withDevice s {| isHeating := isHeating (device s); heatingLevel := level |}));
     co_clock := clock;
     co_zone := 0;
     co_userLocal := fun now _ => Ok now |}.

Definition user : Db.UserRow :=
  {| Db.email := "sleeper@example.org";
     Db.eightAccessToken := "access";
     Db.eightRefreshToken := "refresh";
     Db.eightTokenExpiresAt := 4102444800000;
     Db.eightUserId := "u1" |}.

Definition profileOf (bed wake : string) : Db.ProfileRow :=
  {| Db.users := user;
     Db.userTemperatureProfiles :=
       {| Db.bedTime := bed; Db.wakeupTime := wake; Db.timezoneTZ := "UTC";
          Db.initialSleepLevel := -10; Db.midStageSleepLevel := -20;
          Db.finalSleepLevel := 5 |} |}.

(** The profile of the specification's scenarios: 22:00 to 06:00. *)
Definition nightly : Db.ProfileRow := profileOf "22:00" "06:00".

Definition token : Token := Shared.tokenOfRow user.

(** A clock reading: day [d] since the epoch, at [h]:[m]. *)
Definition at_ (d h m : Z) : Z := d * Js.msPerDay + h * Js.msPerHour + m * Js.msPerMinute.

Definition start (dev : HeatingStatus) (rs : result (list Db.ProfileRow))
    (now : Z) (failures : list bool) : World State :=
  mkWorld {| device := dev; rows := rs; clock := now; script := failures |} [].

Definition off : HeatingStatus := {| isHeating := false; heatingLevel := 0 |}.
Definition heatingAt (level : Z) : HeatingStatus :=
  {| isHeating := true; heatingLevel := level |}.

End Sim.

(** ** Notions the statements use *)

(** The events a computation adds to the trace when run from [w]. *)
Definition issued {Env A} (m : M Env A) (w : World Env) : list Event :=
  skipn (List.length (trace w)) (trace (snd (m w))).

(** [t] is on the local calendar date of [base], at [h]:[m] local time. *)
Definition onDateAt (tz base h m t : Z) : Prop :=
  Js.Day (Js.LocalTime tz t) = Js.Day (Js.LocalTime tz base)
  /\ Js.TimeWithinDay (Js.LocalTime tz t) = h * Js.msPerHour + m * Js.msPerMinute.

(** The two decimal digits of a number below 100. *)
Definition twoDigits (n : Z) : string :=
  String (ascii_of_nat (Z.to_nat (48 + n / 10)))
    (String (ascii_of_nat (Z.to_nat (48 + n mod 10))) EmptyString).

(** The clock string "HH:MM" of an hour and a minute below 100. *)
Definition clock (h m : Z) : string :=
  (twoDigits h ++ ":" ++ twoDigits m)%string.

(** The argument [{ enabled: true, currentTime }] the handler passes
    when a test time is supplied. *)
Definition dryRun (testTime : Z) : option TestMode :=
  Some {| enabled := true; currentTime := testTime |}.

(** The boundaries of a cycle are in ascending order. *)
Definition ascending (c : Shared.SleepCycle) : Prop :=
  Shared.preHeatingTime c <= Shared.bedTime c
  /\ Shared.bedTime c <= Shared.midStageTime c
  /\ Shared.midStageTime c <= Shared.finalStageTime c
  /\ Shared.finalStageTime c <= Shared.warmingTime c
  /\ Shared.warmingTime c <= Shared.wakeupTime c.

(** The numeric fields of a time string. *)
Definition fieldsOf (timeString : string) : list Js.JsNumber :=
  map Js.Number (Js.split ":" timeString).

(** The fields of the clock string of [h] and [m] are [h] and [m]. *)
Definition clockFieldsOk (h m : nat) : bool :=
  match fieldsOf (clock (Z.of_nat h) (Z.of_nat m)) with
  | [Js.Int a; Js.Int b] => (a =? Z.of_nat h) && (b =? Z.of_nat m)
  | _ => false
  end.

(** The world after the back-off wait of [ms] milliseconds. *)
Definition afterWait {Env} (ms : Z) (w : World Env) : World Env :=
  mkWorld (env w) (trace w ++ [SetTimeout ms]).

(** The mapping as the specification words it, for a spike level [spike]. *)
Definition setpointOf (userTemp : Db.TemperatureProfileRow) (spike : Z)
    (stage : StageTag) : option Z :=
  match stage with
  | PreHeating | Initial => Some (Db.initialSleepLevel userTemp)
  | Mid => Some (Db.midStageSleepLevel userTemp)
  | Final => Some (Db.finalSleepLevel userTemp)
  | Warming => Some spike
  | OutsideSleepCycle => None
  end.

(** The window the third sibling copy finds an instant in. *)
Definition Part002_stage (c : Part002.SleepCycle) (userNow : Z) : StageTag :=
  if Part002.geDate userNow (Part002.preHeatingTime c)
     && Part002.ltDate userNow (Part002.bedTime c) then PreHeating
  else if Part002.geDate userNow (Part002.bedTime c)
     && Part002.ltDate userNow (Part002.midStageTime c) then Initial
  else if Part002.geDate userNow (Part002.midStageTime c)
     && Part002.ltDate userNow (Part002.finalStageTime c) then Mid
  else if Part002.geDate userNow (Part002.finalStageTime c)
     && Part002.ltDate userNow (Part002.wakeupTime c) then Final
  else OutsideSleepCycle.

(** The boundaries of a cycle without warming stage are in ascending order. *)
Definition ascending5 (c : Part001.SleepCycle) : Prop :=
  Part001.preHeatingTime c <= Part001.bedTime c
  /\ Part001.bedTime c <= Part001.midStageTime c
  /\ Part001.midStageTime c <= Part001.finalStageTime c
  /\ Part001.finalStageTime c <= Part001.wakeupTime c.

(** Every event a computation adds to the trace, from any world,
    satisfies [P]. *)
Definition emits {Env A} (P : Event -> Prop) (m : M Env A) : Prop :=
  forall w, exists evs, trace (snd (m w)) = trace w ++ evs /\ Forall P evs.

Definition isTurnOn (ev : Event) : bool :=
  match ev with
  | TurnOnSide _ _ => true
  | _ => false
  end.

Definition isSetLevel (ev : Event) : bool :=
  match ev with
  | SetHeatingLevel _ _ _ => true
  | _ => false
  end.

(** The calls that reach the bed: the status read and the three writes. *)
Definition isDeviceCall (ev : Event) : bool :=
  match ev with
  | GetCurrentHeatingStatus _ | TurnOnSide _ _ | TurnOffSide _ _
  | SetHeatingLevel _ _ _ => true
  | _ => false
  end.

(** The calls that refresh a credential or write it back. *)
Definition isCredentialCall (ev : Event) : bool :=
  match ev with
  | ObtainFreshAccessToken _ _ | DbUpdateUser _ _ => true
  | _ => false
  end.

(** The token a device call carries. *)
Definition tokenOfEvent (ev : Event) : option Token :=
  match ev with
  | GetCurrentHeatingStatus t | TurnOnSide t _ | TurnOffSide t _
  | SetHeatingLevel t _ _ => Some t
  | _ => None
  end.

(** A cycle moved by [d] milliseconds. *)
Definition shiftCycle (d : Z) (c : Shared.SleepCycle) : Shared.SleepCycle :=
  {| Shared.preHeatingTime := Shared.preHeatingTime c + d;
     Shared.bedTime := Shared.bedTime c + d;
     Shared.midStageTime := Shared.midStageTime c + d;
     Shared.finalStageTime := Shared.finalStageTime c + d;
     Shared.warmingTime := Shared.warmingTime c + d;
     Shared.wakeupTime := Shared.wakeupTime c + d |}.

Definition shiftCycle5 (d : Z) (c : Part001.SleepCycle) : Part001.SleepCycle :=
  {| Part001.preHeatingTime := Part001.preHeatingTime c + d;
     Part001.bedTime := Part001.bedTime c + d;
     Part001.midStageTime := Part001.midStageTime c + d;
     Part001.finalStageTime := Part001.finalStageTime c + d;
     Part001.wakeupTime := Part001.wakeupTime c + d |}.

(** What an event of the processing of the row [p] may be, in a copy
    whose warming spike is [spike] (if it has one), that refreshes
    credentials or not, and that reads the device status or not: a refresh
    with the refresh token and user id of the row, a write-back to the
    email of the row, a status read, a device write addressed to the user
    id of the row -- a set-level carrying one of the three levels of the
    row or the spike --, or a back-off wait of one or two seconds. *)
Definition rowEvent (spike : option Z) (refreshes reads : bool)
    (p : Db.ProfileRow) (ev : Event) : Prop :=
  let u := Db.users p in
  let t := Db.userTemperatureProfiles p in
  match ev with
  | DbSelectProfiles => False
  | ObtainFreshAccessToken refreshToken userId =>
      refreshes = true /\ refreshToken = Db.eightRefreshToken u
      /\ userId = Db.eightUserId u
  | DbUpdateUser userEmail _ => refreshes = true /\ userEmail = Db.email u
  | GetCurrentHeatingStatus _ => reads = true
  | TurnOnSide _ userId | TurnOffSide _ userId => userId = Db.eightUserId u
  | SetHeatingLevel _ userId level =>
      userId = Db.eightUserId u
      /\ (level = Db.initialSleepLevel t \/ level = Db.midStageSleepLevel t
          \/ level = Db.finalSleepLevel t \/ Some level = spike)
  | SetTimeout ms => ms = 1000 \/ ms = 2000
  end.

(** The rows a run fetches from the world [w] (none when the fetch fails). *)
Definition fetched {Env} (io : Collab Env) (w : World Env) : list Db.ProfileRow :=
  match fst (co_select io (env w)) with
  | Ok profiles => profiles
  | Throw _ => []
  end.

(** The loop body of the first sibling copy from the line after the
    credential refresh on, for the instant [now] and the token [token]
    in force. *)
Definition Part000_afterRefresh {Env} (io : Collab Env) (testMode : option TestMode)
    (profile : Db.ProfileRow) (now : Z) (token : Token) : M Env unit :=
  let userTempProfile := Db.userTemperatureProfiles profile in
  userNow <- Shared.userLocal io now (Db.timezoneTZ userTempProfile) ;;
  sleepCycle <- lift (Part000.createSleepCycle (co_zone io) userNow
                        (Db.bedTime userTempProfile) (Db.wakeupTime userTempProfile)) ;;
  let adjustedCycle := Shared.adjustCycle (co_zone io) userNow sleepCycle in
  heatingStatus <-
    (if testEnabled testMode
     then ret {| isHeating := false; heatingLevel := 0 |}
     else Shared.retryApiCall (Shared.getCurrentHeatingStatus io token)) ;;
  Part000.actuate io testMode token (Db.eightUserId (Db.users profile)) userTempProfile
    adjustedCycle userNow heatingStatus.

(** An event is no credential call, and any token it carries is [token]. *)
Definition carries (token : Token) (ev : Event) : Prop :=
  isCredentialCall ev = false
  /\ forall t, tokenOfEvent ev = Some t -> t = token.

(** The simulated collaborators with the vendor's token endpoint down,
    and with the database refusing writes. *)
Definition ioAuthDown : Collab Sim.State :=
  {| co_select := co_select Sim.io;
     co_refresh := fun _ _ s => (Throw (External "auth"), s);
     co_update := co_update Sim.io;
     co_status := co_status Sim.io;
     co_turnOn := co_turnOn Sim.io;
     co_turnOff := co_turnOff Sim.io;
     co_setLevel := co_setLevel Sim.io;
     co_clock := co_clock Sim.io;
     co_zone := co_zone Sim.io;
     co_userLocal := co_userLocal Sim.io |}.

Definition ioDbReadOnly : Collab Sim.State :=
  {| co_select := co_select Sim.io;
     co_refresh := co_refresh Sim.io;
     co_update := fun _ _ s => (Throw (External "db"), s);
     co_status := co_status Sim.io;
     co_turnOn := co_turnOn Sim.io;
     co_turnOff := co_turnOff Sim.io;
     co_setLevel := co_setLevel Sim.io;
     co_clock := co_clock Sim.io;
     co_zone := co_zone Sim.io;
     co_userLocal := co_userLocal Sim.io |}.

(** A row whose token expired at the epoch. *)
Definition expiredRow : Db.ProfileRow :=
  {| Db.users :=
       {| Db.email := "sleeper@example.org";
          Db.eightAccessToken := "access";
          Db.eightRefreshToken := "refresh";
          Db.eightTokenExpiresAt := 0;
          Db.eightUserId := "u1" |};
     Db.userTemperatureProfiles := Db.userTemperatureProfiles Sim.nightly |}.

(** A computation that rejects from every world. *)
Definition rejects {Env A} (m : M Env A) : Prop :=
  forall w, isOk (fst (m w)) = false.

(** A string without a colon. *)
Definition noColon (s : string) : Prop :=
  forall c, In c (list_ascii_of_string s) -> c <> ":"%char.

(** What the actuation step may send for a target [targetLevel] and a
    device state [heatingStatus]: a power-on only when the bed is not
    heating, a set-level only to the target and only when the level
    differs, both addressed to [userId], and back-off waits. *)
Definition convergesTo (userId : string) (targetLevel : Z) (heatingStatus : HeatingStatus)
    (ev : Event) : Prop :=
  match ev with
  | TurnOnSide _ u => u = userId /\ isHeating heatingStatus = false
  | SetHeatingLevel _ u level =>
      u = userId /\ level = targetLevel /\ heatingLevel heatingStatus <> targetLevel
  | SetTimeout ms => ms = 1000 \/ ms = 2000
  | _ => False
  end.

(** The instant is more than 15 minutes away from every boundary. *)
Definition awayFromBoundaries (c : Shared.SleepCycle) (userNow : Z) : Prop :=
  Forall (fun boundary => 15 * Js.msPerMinute < Z.abs (userNow - boundary))
    [Shared.preHeatingTime c; Shared.bedTime c; Shared.midStageTime c;
     Shared.finalStageTime c; Shared.warmingTime c; Shared.wakeupTime c].

(** A status read carrying [token], or a back-off wait. *)
Definition isReadOrWait (token : Token) (ev : Event) : Prop :=
  match ev with
  | GetCurrentHeatingStatus t => t = token
  | SetTimeout ms => ms = 1000 \/ ms = 2000
  | _ => False
  end.

(** The device writes one row may cost the route: none, one power-off,
    or a power-on and a set-level, each at most once and in that order. *)
Definition singleAttempts (token : Token) (userId : string) (writes : list Event) : Prop :=
  writes = []
  \/ writes = [TurnOffSide token userId]
  \/ writes = [TurnOnSide token userId]
  \/ (exists level, writes = [SetHeatingLevel token userId level])
  \/ (exists level, writes = [TurnOnSide token userId; SetHeatingLevel token userId level]).

(** The wake-up string of a row is one the third sibling copy turns
    into the invalid date. *)
Definition wakeUpUnreadable (profile : Db.ProfileRow) : Prop :=
  forall tz baseDate,
    Part002.createDateWithTime tz baseDate
      (Db.wakeupTime (Db.userTemperatureProfiles profile)) = None.

(** Turns every integer comparison in the goal into its two cases. *)
Ltac split_tests :=
  repeat match goal with
  | |- context [?a <? ?b] => destruct (Z.ltb_spec a b)
  | |- context [?a <=? ?b] => destruct (Z.leb_spec a b)
  | |- context [?a >? ?b] => rewrite (Z.gtb_ltb a b)
  | |- context [?a >=? ?b] => rewrite (Z.geb_leb a b)
  | |- context [?a =? ?b] => destruct (Z.eqb_spec a b)
  end; cbn [andb orb negb].

(** ** Date arithmetic at a fixed offset *)

Section DateFacts.
Variable tz : Z.

Lemma addDays_shift (d n : Z) : Shared.addDays tz d n = d + n * Js.msPerDay.
Proof.
  unfold Shared.addDays, Js.setDateRelative, Js.UTC, Js.MakeDate, Js.Day,
    Js.TimeWithinDay, Js.LocalTime.
  pose proof (Z.div_mod (d + tz) Js.msPerDay) as E.
  unfold Js.msPerDay in *. lia.
Qed.

Lemma setHours1_shift (d k : Z) :
  Js.setHours1 tz d (Js.getHours tz d - k) = d - k * Js.msPerHour.
Proof.
  unfold Js.setHours1, Js.getHours, Js.HourFromTime, Js.UTC, Js.MakeDate, Js.Day,
    Js.LocalTime, Js.msPerDay, Js.msPerHour.
  set (t := d + tz).
  assert (Hd : t / 86400000 = t / 3600000 / 24)
    by (rewrite Z.div_div by lia; reflexivity).
  pose proof (Z.div_mod t 3600000) as E1.
  pose proof (Z.div_mod (t / 3600000) 24) as E2.
  rewrite Hd. lia.
Qed.

Lemma setHours4_onDateAt (base h m : Z) :
  0 <= h <= 23 -> 0 <= m <= 59 ->
  onDateAt tz base h m (Js.setHours4 tz base h m 0 0).
Proof.
  intros Hh Hm.
  unfold onDateAt, Js.setHours4, Js.UTC, Js.MakeDate, Js.MakeTime, Js.Day,
    Js.TimeWithinDay, Js.LocalTime, Js.msPerDay, Js.msPerHour, Js.msPerMinute.
  set (q := (base + tz) / 86400000).
  set (r := h * 3600000 + m * 60000).
  assert (Hr : 0 <= r < 86400000) by (unfold r; lia).
  replace (q * 86400000 + (r + 0 * 1000 + 0) - tz + tz) with (r + q * 86400000) by lia.
  split.
  - rewrite Z.div_add by lia. rewrite Z.div_small by lia. lia.
  - rewrite Z.mod_add by lia. rewrite Z.mod_small by lia. reflexivity.
Qed.

(** An instant is determined by its local date and time of day. *)
Lemma onDateAt_unique (base h m t u : Z) :
  onDateAt tz base h m t -> onDateAt tz base h m u -> t = u.
Proof.
  unfold onDateAt, Js.Day, Js.TimeWithinDay, Js.LocalTime, Js.msPerDay.
  intros [Ht1 Ht2] [Hu1 Hu2].
  pose proof (Z.div_mod (t + tz) 86400000).
  pose proof (Z.div_mod (u + tz) 86400000).
  lia.
Qed.

Lemma adjust_unfold (cs now t : Z) :
  Shared.adjustTimeToCurrentCycle tz cs now t =
  let a := if t <? cs then t + 86400000 else t in
  if (a >? now) && (a - now >? 43200000) then a - 86400000 else a.
Proof.
  unfold Shared.adjustTimeToCurrentCycle. cbv zeta.
  rewrite !addDays_shift. unfold Js.msPerDay.
  replace (t + 1 * 86400000) with (t + 86400000) by lia.
  replace (12 * 60 * 60 * 1000) with 43200000 by reflexivity.
  destruct (t <? cs);
    match goal with
    | |- (if ?b then _ else _) = _ => destruct b; lia
    end.
Qed.
End DateFacts.

(** ** Day-rollover normalisation *)

(** The four ways the correction can go. *)
Lemma adjust_cases (tz cs now t : Z) :
  let a := Shared.adjustTimeToCurrentCycle tz cs now t in
  (t < cs /\ now + 43200000 < t + 86400000 /\ a = t)
  \/ (t < cs /\ t + 86400000 <= now + 43200000 /\ a = t + 86400000)
  \/ (cs <= t /\ now + 43200000 < t /\ a = t - 86400000)
  \/ (cs <= t /\ t <= now + 43200000 /\ a = t).
Proof.
  cbv zeta. rewrite adjust_unfold. cbv zeta.
  destruct (Z.ltb_spec t cs); split_tests; lia.
Qed.

(** C5, as the specification states it, fails: with the cycle starting
    on day 3 and the reference instant on day 3, a boundary on day 0 is
    moved to day 1 by one correction and to day 2 by a second one. *)
Lemma adjustTimeToCurrentCycle_not_idempotent :
  let cs := 3 * Js.msPerDay in
  let now := 3 * Js.msPerDay in
  Shared.adjustTimeToCurrentCycle 0 cs now 0 = 1 * Js.msPerDay
  /\ Shared.adjustTimeToCurrentCycle 0 cs now
       (Shared.adjustTimeToCurrentCycle 0 cs now 0) = 2 * Js.msPerDay
  /\ Shared.adjustTimeToCurrentCycle 0 cs now
       (Shared.adjustTimeToCurrentCycle 0 cs now 0)
     <> Shared.adjustTimeToCurrentCycle 0 cs now 0.
Proof. vm_compute. repeat split; congruence. Qed.

(** C5 (amended): the day-rollover correction applied twice gives the
    same instant as applied once exactly when the boundary is in neither
    of two ranges: more than a day before [cycleStart] while two days
    later it is still at most 12 hours ahead of the reference instant; or
    a day or more after [cycleStart] and more than 36 hours ahead of the
    reference instant. *)
Theorem adjustTimeToCurrentCycle_idempotent_iff (tz cycleStart currentTime timeInCycle : Z) :
  Shared.adjustTimeToCurrentCycle tz cycleStart currentTime
    (Shared.adjustTimeToCurrentCycle tz cycleStart currentTime timeInCycle)
  = Shared.adjustTimeToCurrentCycle tz cycleStart currentTime timeInCycle
  <->
  ~ (timeInCycle + Js.msPerDay < cycleStart
     /\ timeInCycle + 2 * Js.msPerDay <= currentTime + 12 * Js.msPerHour)
  /\ ~ (cycleStart + Js.msPerDay <= timeInCycle
        /\ currentTime + 36 * Js.msPerHour < timeInCycle).
Proof.
  pose proof (adjust_cases tz cycleStart currentTime timeInCycle) as H1.
  cbv zeta in H1.
  set (a := Shared.adjustTimeToCurrentCycle tz cycleStart currentTime timeInCycle) in *.
  pose proof (adjust_cases tz cycleStart currentTime a) as H2.
  cbv zeta in H2.
  set (b := Shared.adjustTimeToCurrentCycle tz cycleStart currentTime a) in *.
  clearbody a b. unfold Js.msPerDay, Js.msPerHour. lia.
Qed.

(** In particular the correction is idempotent on every boundary less
    than a day away from [cycleStart]. *)
Lemma adjustTimeToCurrentCycle_idempotent_near (tz cycleStart currentTime timeInCycle : Z) :
  cycleStart - Js.msPerDay <= timeInCycle < cycleStart + Js.msPerDay ->
  Shared.adjustTimeToCurrentCycle tz cycleStart currentTime
    (Shared.adjustTimeToCurrentCycle tz cycleStart currentTime timeInCycle)
  = Shared.adjustTimeToCurrentCycle tz cycleStart currentTime timeInCycle.
Proof.
  intros H.
  pose proof (adjust_cases tz cycleStart currentTime timeInCycle) as H1.
  cbv zeta in H1.
  set (a := Shared.adjustTimeToCurrentCycle tz cycleStart currentTime timeInCycle) in *.
  pose proof (adjust_cases tz cycleStart currentTime a) as H2.
  cbv zeta in H2. clearbody a. unfold Js.msPerDay in H. lia.
Qed.

(** A boundary the calculator really produces can be in range (b): for
    the 24-hour cycle 22:00 / 22:00 evaluated at 05:00, the wake-up
    boundary (22:00 on the next day) goes to 22:00 of the same day after
    one correction and to 22:00 of the day before after two. *)
Example adjustTimeToCurrentCycle_twice_on_a_cycle :
  let now := Sim.at_ 100 5 0 in
  exists c,
    Part000.createSleepCycle 0 now "22:00" "22:00" = Ok c
    /\ Shared.wakeupTime c = Sim.at_ 101 22 0
    /\ Shared.adjustTimeToCurrentCycle 0 (Shared.preHeatingTime c) now (Shared.wakeupTime c)
       = Sim.at_ 100 22 0
    /\ Shared.adjustTimeToCurrentCycle 0 (Shared.preHeatingTime c) now
         (Shared.adjustTimeToCurrentCycle 0 (Shared.preHeatingTime c) now
            (Shared.wakeupTime c))
       = Sim.at_ 99 22 0.
Proof.
  eexists. split; [vm_compute; reflexivity|].
  vm_compute. repeat split; reflexivity.
Qed.

(** The corrected instant is the boundary moved by a whole number of
    days, at most one either way, and is never more than 12 hours ahead
    of the reference instant unless a day was already added. *)
Lemma adjustTimeToCurrentCycle_range (tz cycleStart currentTime timeInCycle : Z) :
  let a := Shared.adjustTimeToCurrentCycle tz cycleStart currentTime timeInCycle in
  a = timeInCycle - Js.msPerDay \/ a = timeInCycle \/ a = timeInCycle + Js.msPerDay.
Proof.
  cbv zeta. pose proof (adjust_cases tz cycleStart currentTime timeInCycle) as H.
  unfold Js.msPerDay. cbv zeta in H. lia.
Qed.

(** ** Stage classifier *)

(** C1, as the specification states it, fails: for the valid pair
    13:00 / 15:00 and the reference instant 13:30, the normalised cycle
    has the instant both in the initial window [bedTime, midStageTime)
    and in the final window [finalStageTime, warmingTime); the first
    sibling copy answers "initial", the route answers "final". *)
Lemma stage_windows_overlap :
  let now := Sim.at_ 100 13 30 in
  exists c,
    Part000.createSleepCycle 0 now "13:00" "15:00" = Ok c
    /\ Route.createSleepCycle 0 now "13:00" "15:00" = Ok c
    /\ (let a := Shared.adjustCycle 0 now c in
        (Shared.bedTime a <= now < Shared.midStageTime a)
        /\ (Shared.finalStageTime a <= now < Shared.warmingTime a)
        /\ Part000.currentSleepStage a now = Initial
        /\ Route.currentSleepStage a now = Final).
Proof.
  eexists. split; [vm_compute; reflexivity|].
  split; [vm_compute; reflexivity|].
  vm_compute. repeat split; congruence.
Qed.

(** The nominal boundaries being in order is not enough: for 22:00 /
    21:50 they are, yet at 21:30 the normalisation moves the end of the
    cycle back by a day and not its start, and the instant is both in the
    pre-heating and in the warming window. *)
Lemma stage_windows_overlap_after_normalisation :
  let now := Sim.at_ 100 21 30 in
  exists c,
    Part000.createSleepCycle 0 now "22:00" "21:50" = Ok c
    /\ ascending c
    /\ (let a := Shared.adjustCycle 0 now c in
        (Shared.preHeatingTime a <= now < Shared.bedTime a)
        /\ (Shared.warmingTime a <= now < Shared.wakeupTime a)
        /\ Part000.currentSleepStage a now = PreHeating
        /\ Route.currentSleepStage a now = Warming).
Proof.
  eexists. split; [vm_compute; reflexivity|].
  split; [unfold ascending; vm_compute; repeat split; congruence|].
  vm_compute. repeat split; congruence.
Qed.

(** C1 (amended): the classifier gives every instant one tag, and when
    the boundaries it is handed are in ascending order the tag is decided
    by half-open window membership -- [preHeatingTime, bedTime) is
    pre-heating, [bedTime, midStageTime) initial, [midStageTime,
    finalStageTime) mid, [finalStageTime, warmingTime) final,
    [warmingTime, wakeupTime) warming, and any other instant is outside
    the cycle -- so that the windows are mutually exclusive and cover
    exactly [preHeatingTime, wakeupTime); the chain of the first sibling
    copy and the reversed chain of the route then agree. *)
Theorem currentSleepStage_partition (c : Shared.SleepCycle) (userNow : Z) :
  ascending c ->
  (Part000.currentSleepStage c userNow = PreHeating
     <-> Shared.preHeatingTime c <= userNow < Shared.bedTime c)
  /\ (Part000.currentSleepStage c userNow = Initial
     <-> Shared.bedTime c <= userNow < Shared.midStageTime c)
  /\ (Part000.currentSleepStage c userNow = Mid
     <-> Shared.midStageTime c <= userNow < Shared.finalStageTime c)
  /\ (Part000.currentSleepStage c userNow = Final
     <-> Shared.finalStageTime c <= userNow < Shared.warmingTime c)
  /\ (Part000.currentSleepStage c userNow = Warming
     <-> Shared.warmingTime c <= userNow < Shared.wakeupTime c)
  /\ (Part000.currentSleepStage c userNow = OutsideSleepCycle
     <-> ~ (Shared.preHeatingTime c <= userNow < Shared.wakeupTime c))
  /\ Route.currentSleepStage c userNow = Part000.currentSleepStage c userNow.
Proof.
  unfold ascending, Part000.currentSleepStage, Route.currentSleepStage.
  destruct c as [pre bed mid fin warm wake]; cbn [Shared.preHeatingTime Shared.bedTime
    Shared.midStageTime Shared.finalStageTime Shared.warmingTime Shared.wakeupTime].
  intros (H1 & H2 & H3 & H4 & H5).
  rewrite !Z.geb_leb.
  destruct (Z.leb_spec pre userNow), (Z.ltb_spec userNow bed),
    (Z.leb_spec bed userNow), (Z.ltb_spec userNow mid),
    (Z.leb_spec mid userNow), (Z.ltb_spec userNow fin),
    (Z.leb_spec fin userNow), (Z.ltb_spec userNow warm),
    (Z.leb_spec warm userNow), (Z.ltb_spec userNow wake);
    cbn [andb]; try lia;
    repeat split; intros; try discriminate; try reflexivity; try lia.
Qed.

Lemma currentSleepStage_partition_witness :
  let c := {| Shared.preHeatingTime := Sim.at_ 100 21 0;
              Shared.bedTime := Sim.at_ 100 22 0;
              Shared.midStageTime := Sim.at_ 100 23 0;
              Shared.finalStageTime := Sim.at_ 101 4 0;
              Shared.warmingTime := Sim.at_ 101 5 30;
              Shared.wakeupTime := Sim.at_ 101 6 0 |} in
  Part000.createSleepCycle 0 (Sim.at_ 100 21 5) "22:00" "06:00" = Ok c
  /\ ascending (Shared.adjustCycle 0 (Sim.at_ 100 21 5) c)
  /\ Part000.currentSleepStage (Shared.adjustCycle 0 (Sim.at_ 100 21 5) c)
       (Sim.at_ 100 21 5) = PreHeating
  /\ Route.currentSleepStage (Shared.adjustCycle 0 (Sim.at_ 100 21 5) c)
       (Sim.at_ 100 21 5) = PreHeating.
Proof.
  cbv zeta.
  assert (A : ascending
    (Shared.adjustCycle 0 (Sim.at_ 100 21 5)
       {| Shared.preHeatingTime := Sim.at_ 100 21 0;
          Shared.bedTime := Sim.at_ 100 22 0;
          Shared.midStageTime := Sim.at_ 100 23 0;
          Shared.finalStageTime := Sim.at_ 101 4 0;
          Shared.warmingTime := Sim.at_ 101 5 30;
          Shared.wakeupTime := Sim.at_ 101 6 0 |}))
    by (unfold ascending; vm_compute; repeat split; congruence).
  split; [vm_compute; reflexivity|].
  split; [exact A|].
  destruct (currentSleepStage_partition _ (Sim.at_ 100 21 5) A)
    as (P & _ & _ & _ & _ & _ & R).
  split.
  - apply P. vm_compute. split; congruence.
  - rewrite R. apply P. vm_compute. split; congruence.
Defined.

(** When the cycle is at most 12 hours long and the instant lies in it,
    or in the same cycle a day earlier (the instant is past midnight and
    the boundaries were anchored on the new date), every boundary is moved
    alike and the normalised boundaries are still in order. *)
Lemma adjustCycle_ascending (tz userNow : Z) (c : Shared.SleepCycle) :
  ascending c ->
  Shared.wakeupTime c - Shared.preHeatingTime c <= 12 * Js.msPerHour ->
  Shared.preHeatingTime c <= userNow < Shared.wakeupTime c
  \/ Shared.preHeatingTime c - Js.msPerDay <= userNow < Shared.wakeupTime c - Js.msPerDay ->
  ascending (Shared.adjustCycle tz userNow c).
Proof.
  unfold ascending, Shared.adjustCycle.
  destruct c as [pre bed mid fin warm wake]; cbn [Shared.preHeatingTime Shared.bedTime
    Shared.midStageTime Shared.finalStageTime Shared.warmingTime Shared.wakeupTime].
  unfold Js.msPerHour, Js.msPerDay.
  intros (H1 & H2 & H3 & H4 & H5) Hlen Hnow.
  pose proof (adjust_cases tz pre userNow pre) as A1.
  pose proof (adjust_cases tz pre userNow bed) as A2.
  pose proof (adjust_cases tz pre userNow mid) as A3.
  pose proof (adjust_cases tz pre userNow fin) as A4.
  pose proof (adjust_cases tz pre userNow warm) as A5.
  pose proof (adjust_cases tz pre userNow wake) as A6.
  cbv zeta in *. lia.
Qed.

(** ** Clock strings *)

Lemma clockFieldsOk_all :
  forallb (fun h => forallb (clockFieldsOk h) (seq 0 100)) (seq 0 100) = true.
Proof. vm_compute. reflexivity. Qed.

(** Splitting "HH:MM" at the colon and converting both fields gives
    back the hour and the minute. *)
Lemma fieldsOf_clock (h m : Z) :
  0 <= h < 100 -> 0 <= m < 100 -> fieldsOf (clock h m) = [Js.Int h; Js.Int m].
Proof.
  intros Hh Hm.
  pose proof clockFieldsOk_all as A.
  rewrite forallb_forall in A.
  specialize (A (Z.to_nat h)).
  rewrite forallb_forall in A.
  assert (Ih : In (Z.to_nat h) (seq 0 100)) by (apply in_seq; lia).
  assert (Im : In (Z.to_nat m) (seq 0 100)) by (apply in_seq; lia).
  specialize (A Ih (Z.to_nat m) Im).
  unfold clockFieldsOk in A. rewrite !Z2Nat.id in A by lia.
  destruct (fieldsOf (clock h m)) as [|[|a] [|[|b] [|]]]; try discriminate.
  apply andb_true_iff in A. destruct A as [Ea Eb].
  apply Z.eqb_eq in Ea, Eb. subst. reflexivity.
Qed.

(** A string with no colon has a single field. *)
Lemma split_no_colon (s : string) :
  (forall c, In c (list_ascii_of_string s) -> c <> ":"%char) ->
  Js.split ":" s = [s].
Proof.
  induction s as [|c r IH]; intros H; [reflexivity|].
  cbn [Js.split]. destruct (Ascii.eqb_spec c ":"%char) as [E|_].
  - exfalso. apply (H c); [left; reflexivity | exact E].
  - rewrite IH; [reflexivity|]. intros d Hd. apply H. right. exact Hd.
Qed.

Section ClockParsing.
Variables tz baseDate : Z.

Lemma Part000_createDateWithTime_clock (h m : Z) :
  0 <= h < 100 -> 0 <= m < 100 ->
  Part000.createDateWithTime tz baseDate (clock h m) =
  if (h <=? 23) && (m <=? 59) then Ok (Js.setHours4 tz baseDate h m 0 0)
  else Throw (InvalidTimeString (clock h m)).
Proof.
  intros Hh Hm. unfold Part000.createDateWithTime.
  fold (fieldsOf (clock h m)). rewrite fieldsOf_clock by assumption.
  cbn [nth_error]. split_tests; try reflexivity; lia.
Qed.

Lemma Part001_createDateWithTime_clock (h m : Z) :
  0 <= h < 100 -> 0 <= m < 100 ->
  Part001.createDateWithTime tz baseDate (clock h m) =
  if (h <=? 23) && (m <=? 59) then Ok (Js.setHours4 tz baseDate h m 0 0)
  else Throw (InvalidTimeString (clock h m)).
Proof.
  intros Hh Hm. unfold Part001.createDateWithTime.
  fold (fieldsOf (clock h m)). rewrite fieldsOf_clock by assumption.
  cbn [nth_error]. split_tests; try reflexivity; lia.
Qed.

(** The route accepts any hour and minute. *)
Lemma Route_createDateWithTime_clock (h m : Z) :
  0 <= h < 100 -> 0 <= m < 100 ->
  Route.createDateWithTime tz baseDate (clock h m) =
  Ok (Js.setHours4 tz baseDate h m 0 0).
Proof.
  intros Hh Hm. unfold Route.createDateWithTime.
  fold (fieldsOf (clock h m)). rewrite fieldsOf_clock by assumption.
  reflexivity.
Qed.

Lemma Part002_createDateWithTime_clock (h m : Z) :
  0 <= h < 100 -> 0 <= m < 100 ->
  Part002.createDateWithTime tz baseDate (clock h m) =
  Some (Js.setHours4 tz baseDate h m 0 0).
Proof.
  intros Hh Hm. unfold Part002.createDateWithTime.
  fold (fieldsOf (clock h m)). rewrite fieldsOf_clock by assumption.
  reflexivity.
Qed.
End ClockParsing.

(** ** Cycle boundary calculator *)

Section CycleOfClocks.
Variables tz baseDate hb mb hw mw : Z.
Hypothesis Hhb : 0 <= hb <= 23.
Hypothesis Hmb : 0 <= mb <= 59.
Hypothesis Hhw : 0 <= hw <= 23.
Hypothesis Hmw : 0 <= mw <= 59.

Lemma in_range_test (h m : Z) :
  0 <= h <= 23 -> 0 <= m <= 59 -> (h <=? 23) && (m <=? 59) = true.
Proof.
  intros Hh Hm. apply andb_true_iff. split; apply Z.leb_le; lia.
Qed.

(** The cycle of the first sibling copy, in closed form. *)
Lemma Part000_createSleepCycle_clock :
  let bed := Js.setHours4 tz baseDate hb mb 0 0 in
  let wake0 := Js.setHours4 tz baseDate hw mw 0 0 in
  let wake := if wake0 <=? bed then wake0 + 86400000 else wake0 in
  Part000.createSleepCycle tz baseDate (clock hb mb) (clock hw mw) =
  Ok {| Shared.preHeatingTime := bed - 3600000;
        Shared.bedTime := bed;
        Shared.midStageTime := bed + 3600000;
        Shared.finalStageTime := wake - 7200000;
        Shared.warmingTime := wake - 1800000;
        Shared.wakeupTime := wake |}.
Proof.
  cbv zeta. unfold Part000.createSleepCycle.
  rewrite !Part000_createDateWithTime_clock by lia.
  rewrite !in_range_test by assumption.
  cbn [andThen]. rewrite setHours1_shift, addDays_shift.
  unfold Js.msPerDay, Js.msPerHour.
  destruct (Js.setHours4 tz baseDate hw mw 0 0 <=? Js.setHours4 tz baseDate hb mb 0 0);
    repeat f_equal; lia.
Qed.

(** The cycle of the second sibling copy, in closed form. *)
Lemma Part001_createSleepCycle_clock :
  let bed := Js.setHours4 tz baseDate hb mb 0 0 in
  let wake0 := Js.setHours4 tz baseDate hw mw 0 0 in
  let wake := if wake0 <=? bed then wake0 + 86400000 else wake0 in
  Part001.createSleepCycle tz baseDate (clock hb mb) (clock hw mw) =
  Ok {| Part001.preHeatingTime := bed - 10800000;
        Part001.bedTime := bed;
        Part001.midStageTime := bed + 3600000;
        Part001.finalStageTime := wake - 7200000;
        Part001.wakeupTime := wake |}.
Proof.
  cbv zeta. unfold Part001.createSleepCycle.
  rewrite !Part001_createDateWithTime_clock by lia.
  rewrite !in_range_test by assumption.
  cbn [andThen]. rewrite setHours1_shift, addDays_shift.
  unfold Js.msPerDay, Js.msPerHour.
  destruct (Js.setHours4 tz baseDate hw mw 0 0 <=? Js.setHours4 tz baseDate hb mb 0 0);
    repeat f_equal; lia.
Qed.

(** The nominal boundaries are in ascending order exactly when wake-up
    is at least three hours after bedtime: with less, the final stage
    would start before the mid stage. *)
Lemma createSleepCycle_ascending_iff (c : Shared.SleepCycle) :
  Part000.createSleepCycle tz baseDate (clock hb mb) (clock hw mw) = Ok c ->
  (ascending c <-> Shared.bedTime c + 3 * Js.msPerHour <= Shared.wakeupTime c).
Proof.
  rewrite Part000_createSleepCycle_clock. cbv zeta. intros E. injection E as <-.
  unfold ascending, Js.msPerHour.
  cbn [Shared.preHeatingTime Shared.bedTime Shared.midStageTime Shared.finalStageTime
       Shared.warmingTime Shared.wakeupTime].
  lia.
Qed.
End CycleOfClocks.

(** C4: for every reference instant and valid clock strings, both copies
    of the calculator put bedTime and wakeTime on the reference instant's
    calendar date, move wakeTime one day later exactly when it is not
    after bedTime, and set midStageTime = bedTime + 1 h, finalStageTime =
    wakeTime - 2 h, warmingTime = wakeTime - 30 min (in the copy with a
    warming stage) and preHeatingTime = bedTime minus the lead time, which
    is 1 h in the first sibling copy and 3 h in the second. *)
Theorem createSleepCycle_boundaries (tz baseDate hb mb hw mw : Z) :
  0 <= hb <= 23 -> 0 <= mb <= 59 -> 0 <= hw <= 23 -> 0 <= mw <= 59 ->
  exists bed wake0 wake,
    onDateAt tz baseDate hb mb bed
    /\ onDateAt tz baseDate hw mw wake0
    /\ wake = (if wake0 <=? bed then wake0 + Js.msPerDay else wake0)
    /\ Part000.createSleepCycle tz baseDate (clock hb mb) (clock hw mw) =
       Ok {| Shared.preHeatingTime := bed - 1 * Js.msPerHour;
             Shared.bedTime := bed;
             Shared.midStageTime := bed + 1 * Js.msPerHour;
             Shared.finalStageTime := wake - 2 * Js.msPerHour;
             Shared.warmingTime := wake - 30 * Js.msPerMinute;
             Shared.wakeupTime := wake |}
    /\ Part001.createSleepCycle tz baseDate (clock hb mb) (clock hw mw) =
       Ok {| Part001.preHeatingTime := bed - 3 * Js.msPerHour;
             Part001.bedTime := bed;
             Part001.midStageTime := bed + 1 * Js.msPerHour;
             Part001.finalStageTime := wake - 2 * Js.msPerHour;
             Part001.wakeupTime := wake |}.
Proof.
  intros Hhb Hmb Hhw Hmw.
  exists (Js.setHours4 tz baseDate hb mb 0 0), (Js.setHours4 tz baseDate hw mw 0 0).
  eexists. split; [apply setHours4_onDateAt; assumption|].
  split; [apply setHours4_onDateAt; assumption|].
  split; [reflexivity|].
  split.
  - rewrite Part000_createSleepCycle_clock by assumption. reflexivity.
  - rewrite Part001_createSleepCycle_clock by assumption. reflexivity.
Qed.

Lemma createSleepCycle_boundaries_witness :
  exists bed wake0 wake,
    onDateAt 0 (Sim.at_ 100 21 5) 22 0 bed
    /\ onDateAt 0 (Sim.at_ 100 21 5) 6 0 wake0
    /\ wake = (if wake0 <=? bed then wake0 + Js.msPerDay else wake0)
    /\ Part000.createSleepCycle 0 (Sim.at_ 100 21 5) (clock 22 0) (clock 6 0) =
       Ok {| Shared.preHeatingTime := bed - 1 * Js.msPerHour;
             Shared.bedTime := bed;
             Shared.midStageTime := bed + 1 * Js.msPerHour;
             Shared.finalStageTime := wake - 2 * Js.msPerHour;
             Shared.warmingTime := wake - 30 * Js.msPerMinute;
             Shared.wakeupTime := wake |}
    /\ Part001.createSleepCycle 0 (Sim.at_ 100 21 5) (clock 22 0) (clock 6 0) =
       Ok {| Part001.preHeatingTime := bed - 3 * Js.msPerHour;
             Part001.bedTime := bed;
             Part001.midStageTime := bed + 1 * Js.msPerHour;
             Part001.finalStageTime := wake - 2 * Js.msPerHour;
             Part001.wakeupTime := wake |}.
Proof.
  apply (createSleepCycle_boundaries 0 (Sim.at_ 100 21 5) 22 0 6 0); lia.
Defined.

(** The clock strings of the specification's scenarios. *)
Example clock_22_00 : clock 22 0 = "22:00".
Proof. reflexivity. Qed.

Example clock_06_00 : clock 6 0 = "06:00".
Proof. reflexivity. Qed.

(** ** Parsing of clock strings *)

(** C9, as the specification states it, fails: the third sibling copy
    has no validation, and for "25:00", whose hour is outside [0,23], it
    returns a valid date, 01:00 on the day after the base date. *)
Lemma createDateWithTime_accepts_hour_25 :
  Part002.createDateWithTime 0 (Sim.at_ 100 6 10) "25:00" = Some (Sim.at_ 101 1 0).
Proof. vm_compute. reflexivity. Qed.

(** The same copy turns a string that is not a clock time into the
    invalid date and a missing minute into 0, without throwing. *)
Example Part002_createDateWithTime_malformed :
  Part002.createDateWithTime 0 (Sim.at_ 100 6 10) "ab:cd" = None
  /\ Part002.createDateWithTime 0 (Sim.at_ 100 6 10) "22" = Some (Sim.at_ 100 22 0).
Proof. vm_compute. split; reflexivity. Qed.

(** The route keeps the check for a missing or non-numeric field and
    has lost the range check of the first two sibling copies. *)
Example Route_createDateWithTime_hour_25 :
  Route.createDateWithTime 0 (Sim.at_ 100 6 10) "25:00" = Ok (Sim.at_ 101 1 0)
  /\ Part000.createDateWithTime 0 (Sim.at_ 100 6 10) "25:00"
     = Throw (InvalidTimeString "25:00")
  /\ Part001.createDateWithTime 0 (Sim.at_ 100 6 10) "25:00"
     = Throw (InvalidTimeString "25:00").
Proof. vm_compute. repeat split; reflexivity. Qed.

(** C9 (amended): in the two copies that validate (the first and second
    sibling copies), parsing an "HH:MM" string of digits fails with the
    invalid-time error exactly when the hour is above 23 or the minute
    above 59, and otherwise succeeds with that hour and minute on the base
    date; the third sibling copy validates nothing and never fails. *)
Theorem createDateWithTime_clock_validation (tz baseDate h m : Z) :
  0 <= h < 100 -> 0 <= m < 100 ->
  (Part000.createDateWithTime tz baseDate (clock h m)
     = Throw (InvalidTimeString (clock h m)) <-> 23 < h \/ 59 < m)
  /\ (Part001.createDateWithTime tz baseDate (clock h m)
     = Throw (InvalidTimeString (clock h m)) <-> 23 < h \/ 59 < m)
  /\ (h <= 23 -> m <= 59 ->
      exists t, onDateAt tz baseDate h m t
        /\ Part000.createDateWithTime tz baseDate (clock h m) = Ok t
        /\ Part001.createDateWithTime tz baseDate (clock h m) = Ok t)
  /\ (exists t, Part002.createDateWithTime tz baseDate (clock h m) = Some t).
Proof.
  intros Hh Hm.
  rewrite Part000_createDateWithTime_clock, Part001_createDateWithTime_clock,
    Part002_createDateWithTime_clock by assumption.
  repeat split.
  - destruct (Z.leb_spec h 23), (Z.leb_spec m 59); cbn [andb]; intros; try discriminate; lia.
  - intros Hr. destruct (Z.leb_spec h 23), (Z.leb_spec m 59); cbn [andb];
      try reflexivity; lia.
  - destruct (Z.leb_spec h 23), (Z.leb_spec m 59); cbn [andb]; intros; try discriminate; lia.
  - intros Hr. destruct (Z.leb_spec h 23), (Z.leb_spec m 59); cbn [andb];
      try reflexivity; lia.
  - intros H23 H59. exists (Js.setHours4 tz baseDate h m 0 0).
    split; [apply setHours4_onDateAt; lia|].
    assert (T : (h <=? 23) && (m <=? 59) = true)
      by (apply andb_true_iff; split; apply Z.leb_le; lia).
    rewrite T. split; reflexivity.
  - eexists. reflexivity.
Qed.

Lemma createDateWithTime_clock_validation_witness :
  (Part000.createDateWithTime 0 (Sim.at_ 100 6 10) (clock 22 0)
     = Throw (InvalidTimeString (clock 22 0)) <-> 23 < 22 \/ 59 < 0)
  /\ (Part001.createDateWithTime 0 (Sim.at_ 100 6 10) (clock 22 0)
     = Throw (InvalidTimeString (clock 22 0)) <-> 23 < 22 \/ 59 < 0)
  /\ (22 <= 23 -> 0 <= 59 ->
      exists t, onDateAt 0 (Sim.at_ 100 6 10) 22 0 t
        /\ Part000.createDateWithTime 0 (Sim.at_ 100 6 10) (clock 22 0) = Ok t
        /\ Part001.createDateWithTime 0 (Sim.at_ 100 6 10) (clock 22 0) = Ok t)
  /\ (exists t, Part002.createDateWithTime 0 (Sim.at_ 100 6 10) (clock 22 0) = Some t).
Proof.
  apply (createDateWithTime_clock_validation 0 (Sim.at_ 100 6 10) 22 0); lia.
Defined.

(** In the validating copies a string with no colon, having no minute
    field, is rejected. *)
Lemma createDateWithTime_no_colon (tz baseDate : Z) (s : string) :
  (forall c, In c (list_ascii_of_string s) -> c <> ":"%char) ->
  Part000.createDateWithTime tz baseDate s = Throw (InvalidTimeString s)
  /\ Part001.createDateWithTime tz baseDate s = Throw (InvalidTimeString s).
Proof.
  intros H. unfold Part000.createDateWithTime, Part001.createDateWithTime.
  rewrite (split_no_colon s H). cbn [map nth_error].
  destruct (Js.Number s); split; reflexivity.
Qed.

(** In the validating copies success means that the first two fields
    are numbers within range, whatever follows them. *)
Lemma createDateWithTime_ok_inv (tz baseDate : Z) (s : string) (t : Z) :
  Part000.createDateWithTime tz baseDate s = Ok t ->
  exists h m rest,
    fieldsOf s = Js.Int h :: Js.Int m :: rest
    /\ 0 <= h <= 23 /\ 0 <= m <= 59 /\ onDateAt tz baseDate h m t.
Proof.
  unfold Part000.createDateWithTime. fold (fieldsOf s).
  destruct (fieldsOf s) as [|[|h] [|[|m] rest]]; cbn [nth_error]; try discriminate.
  destruct (Z.ltb_spec h 0), (Z.ltb_spec m 0); rewrite !Z.gtb_ltb;
    destruct (Z.ltb_spec 23 h), (Z.ltb_spec 59 m); cbn [orb]; try discriminate.
  intros E. injection E as <-. exists h, m, rest.
  repeat split; try lia; apply setHours4_onDateAt; lia.
Qed.

(** ** Traces *)

Lemma issued_app {Env A} (m : M Env A) (w : World Env) (evs : list Event) :
  trace (snd (m w)) = trace w ++ evs -> issued m w = evs.
Proof.
  intros H. unfold issued. rewrite H, skipn_app, skipn_all, Nat.sub_diag.
  reflexivity.
Qed.

Lemma issued_nil {Env A} (m : M Env A) (w : World Env) :
  snd (m w) = w -> issued m w = [].
Proof.
  intros H. apply issued_app. rewrite H, app_nil_r. reflexivity.
Qed.

(** ** Retry *)

Section RetryFacts.
Context {Env T : Type}.
Variable apiCall : M Env T.

(** The loop unrolled for the default of three attempts. *)
Lemma retryApiCall_unfold :
  Shared.retryApiCall apiCall =
  tryCatch apiCall (fun _ =>
    sleep 1000 ;;
    tryCatch apiCall (fun _ =>
      sleep 2000 ;;
      tryCatch apiCall (fun error => throw error))).
Proof. reflexivity. Qed.

Lemma retryApiCall_first (w w1 : World Env) (a : T) :
  apiCall w = (Ok a, w1) ->
  Shared.retryApiCall apiCall w = (Ok a, w1).
Proof.
  intros H. rewrite retryApiCall_unfold. unfold tryCatch at 1.
  rewrite H. reflexivity.
Qed.

Lemma retryApiCall_second (w w1 w2 : World Env) (e1 : Err) (a : T) :
  apiCall w = (Throw e1, w1) ->
  apiCall (afterWait 1000 w1) = (Ok a, w2) ->
  Shared.retryApiCall apiCall w = (Ok a, w2).
Proof.
  intros H1 H2. rewrite retryApiCall_unfold. unfold tryCatch at 1.
  rewrite H1. unfold bind at 1, sleep at 1. fold (afterWait 1000 w1).
  unfold tryCatch at 1. rewrite H2. reflexivity.
Qed.

(** A call that fails twice and succeeds on the third attempt resolves,
    after waits of one and two seconds. *)
Lemma retryApiCall_third (w w1 w2 w3 : World Env) (e1 e2 : Err) (a : T) :
  apiCall w = (Throw e1, w1) ->
  apiCall (afterWait 1000 w1) = (Throw e2, w2) ->
  apiCall (afterWait 2000 w2) = (Ok a, w3) ->
  Shared.retryApiCall apiCall w = (Ok a, w3).
Proof.
  intros H1 H2 H3. rewrite retryApiCall_unfold. unfold tryCatch at 1.
  rewrite H1. unfold bind at 1, sleep at 1. fold (afterWait 1000 w1).
  unfold tryCatch at 1. rewrite H2.
  unfold bind at 1, sleep at 1. fold (afterWait 2000 w2).
  unfold tryCatch. rewrite H3. reflexivity.
Qed.

(** A call that fails three times rejects with the third failure and
    is not attempted again. *)
Lemma retryApiCall_exhausted (w w1 w2 w3 : World Env) (e1 e2 e3 : Err) :
  apiCall w = (Throw e1, w1) ->
  apiCall (afterWait 1000 w1) = (Throw e2, w2) ->
  apiCall (afterWait 2000 w2) = (Throw e3, w3) ->
  Shared.retryApiCall apiCall w = (Throw e3, w3).
Proof.
  intros H1 H2 H3. rewrite retryApiCall_unfold. unfold tryCatch at 1.
  rewrite H1. unfold bind at 1, sleep at 1. fold (afterWait 1000 w1).
  unfold tryCatch at 1. rewrite H2.
  unfold bind at 1, sleep at 1. fold (afterWait 2000 w2).
  unfold tryCatch. rewrite H3. reflexivity.
Qed.

(** Those are all the ways a retried call can go. *)
Lemma retryApiCall_cases (w : World Env) :
  let r1 := apiCall w in
  let r2 := apiCall (afterWait 1000 (snd r1)) in
  let r3 := apiCall (afterWait 2000 (snd r2)) in
  Shared.retryApiCall apiCall w =
  match fst r1 with
  | Ok _ => r1
  | Throw _ =>
      match fst r2 with
      | Ok _ => r2
      | Throw _ => r3
      end
  end.
Proof.
  cbv zeta.
  destruct (apiCall w) as [[a1|e1] w1] eqn:E1; cbn [fst snd].
  - apply retryApiCall_first; assumption.
  - destruct (apiCall (afterWait 1000 w1)) as [[a2|e2] w2] eqn:E2; cbn [fst snd].
    + eapply retryApiCall_second; eassumption.
    + destruct (apiCall (afterWait 2000 w2)) as [[a3|e3] w3] eqn:E3.
      * eapply retryApiCall_third; eassumption.
      * eapply retryApiCall_exhausted; eassumption.
Qed.
End RetryFacts.

(** A retried collaborator call is attempted at least once. *)
Lemma retryApiCall_perform_trace {Env A} (ev : Event) (h : Env -> result A * Env)
    (w : World Env) :
  exists rest,
    trace (snd (Shared.retryApiCall (perform ev h) w)) = trace w ++ ev :: rest.
Proof.
  rewrite retryApiCall_cases. cbv zeta. unfold perform, afterWait.
  destruct (h (env w)) as [[a1|e1] s1]; cbn [fst snd env trace].
  - exists []. reflexivity.
  - destruct (h s1) as [[a2|e2] s2]; cbn [fst snd env trace].
    + eexists. rewrite <- !app_assoc. reflexivity.
    + destruct (h s2) as [[a3|e3] s3]; cbn [fst snd env trace];
        eexists; rewrite <- !app_assoc; reflexivity.
Qed.

(** ** Test mode *)

Section TestMode.
Context {Env : Type} (io : Collab Env).
Variable testTime : Z.

(** In test mode the body of the loop leaves the world as it found it. *)
Lemma Part000_processProfile_dry (profile : Db.ProfileRow) (w : World Env) :
  snd (Part000.processProfile io (dryRun testTime) profile w) = w.
Proof.
  unfold Part000.processProfile, dryRun, Shared.nowOf, Shared.userLocal, lift, bind, ret.
  cbn [enabled currentTime testEnabled negb andb].
  destruct (co_userLocal io testTime _) as [userNow|e]; [|reflexivity].
  destruct (Part000.createSleepCycle _ _ _ _) as [c|e]; [|reflexivity].
  unfold Part000.actuate. cbn [testEnabled enabled negb isHeating heatingLevel].
  destruct (Part000.target _ _ _) as [[level st]|]; unfold when, bind, ret;
    cbn [andb]; [destruct (negb (0 =? level))|]; reflexivity.
Qed.

Lemma Part000_forEachProfile_dry (profiles : list Db.ProfileRow) (w : World Env) :
  Part000.forEachProfile io (dryRun testTime) profiles w = (Ok tt, w).
Proof.
  induction profiles as [|p ps IH]; [reflexivity|].
  cbn [Part000.forEachProfile]. unfold bind, tryCatch.
  pose proof (Part000_processProfile_dry p w) as H.
  destruct (Part000.processProfile io (dryRun testTime) p w) as [[u|e] w']; cbn [snd] in H; subst w';
    unfold ret; apply IH.
Qed.

(** C10: with test mode enabled the run of the first sibling copy makes
    one collaborator call, the profile fetch, whatever the profiles, the
    clock, the expiry of the tokens and the behaviour of the
    collaborators: no status read, no device write, no credential refresh
    and no write-back; the environment is left as the fetch left it. *)
Theorem adjustTemperature_test_mode_is_inert (w : World Env) :
  issued (Part000.adjustTemperature io (dryRun testTime)) w = [DbSelectProfiles]
  /\ env (snd (Part000.adjustTemperature io (dryRun testTime) w)) = snd (co_select io (env w)).
Proof.
  assert (H : snd (Part000.adjustTemperature io (dryRun testTime) w)
              = mkWorld (snd (co_select io (env w))) (trace w ++ [DbSelectProfiles])).
  { unfold Part000.adjustTemperature, tryCatch, bind, Shared.dbSelectProfiles, perform.
    destruct (co_select io (env w)) as [[ps|e] s]; cbn [snd].
    - rewrite Part000_forEachProfile_dry. reflexivity.
    - reflexivity. }
  split.
  - apply issued_app. rewrite H. reflexivity.
  - rewrite H. reflexivity.
Qed.
End TestMode.

(** In test mode the status read is replaced by the inert state, which is
    what the actuation step is handed; the token is the one of the row,
    never refreshed. *)
Lemma Part000_processProfile_test_mode {Env : Type} (io : Collab Env) (testTime : Z)
    (profile : Db.ProfileRow) :
  Part000.processProfile io (dryRun testTime) profile =
  (let userTempProfile := Db.userTemperatureProfiles profile in
   userNow <- Shared.userLocal io testTime (Db.timezoneTZ userTempProfile) ;;
   sleepCycle <- lift (Part000.createSleepCycle (co_zone io) userNow
                         (Db.bedTime userTempProfile) (Db.wakeupTime userTempProfile)) ;;
   Part000.actuate io (dryRun testTime) (Shared.tokenOfRow (Db.users profile))
     (Db.eightUserId (Db.users profile)) userTempProfile
     (Shared.adjustCycle (co_zone io) userNow sleepCycle) userNow
     {| isHeating := false; heatingLevel := 0 |}).
Proof. reflexivity. Qed.

(** The inert device state test mode substitutes for the status read. *)
Example test_mode_on_simulated_run :
  let w := Sim.start (Sim.heatingAt 3) (Ok [Sim.nightly]) (Sim.at_ 100 12 0) [] in
  Part000.adjustTemperature Sim.io
    (Some {| enabled := true; currentTime := Sim.at_ 100 21 5 |}) w
  = (Ok tt, mkWorld (env w) [DbSelectProfiles]).
Proof. vm_compute. reflexivity. Qed.

(** ** Actuation engine *)

(** C2, as the specification states it, fails: the third sibling copy
    never reads the device state ("ALWAYS ensure it is ON first").  At
    21:05, in the pre-heating window of the 22:00 / 06:00 profile, with
    the bed already heating at the target level -10, it still issues a
    power-on and a set-level. *)
Lemma Part002_commands_without_change :
  let now := Sim.at_ 100 21 5 in
  let w := Sim.start (Sim.heatingAt (-10)) (Ok [Sim.nightly]) now [] in
  Part002.target (Db.userTemperatureProfiles Sim.nightly)
    (Part002.createSleepCycle 0 now "22:00" "06:00") now = Some (-10)
  /\ Sim.device (env w) = {| isHeating := true; heatingLevel := -10 |}
  /\ issued (Part002.adjustTemperature Sim.io None) w
     = [DbSelectProfiles; TurnOnSide Sim.token "u1"; SetHeatingLevel Sim.token "u1" (-10)]
  /\ Sim.device (env (snd (Part002.adjustTemperature Sim.io None w)))
     = {| isHeating := true; heatingLevel := -10 |}.
Proof. vm_compute. repeat split; reflexivity. Qed.

Section Actuation.
Context {Env : Type} (io : Collab Env).
Variables (testMode : option TestMode) (token : Token) (userId : string).
Variable userTemp : Db.TemperatureProfileRow.
Variables (userNow : Z) (heatingStatus : HeatingStatus).

(** C2 (amended): in the copies that act on the device state read back
    (the first and second sibling copies), when the target level is
    non-null, the bed is heating and its level equals the target, the
    actuation step issues no call at all: no power-on, no set-level, no
    power-off.  (The third sibling copy reads no state and issues
    power-on and set-level for every non-null target.) *)
Theorem actuate_idempotent (targetLevel : Z) :
  isHeating heatingStatus = true ->
  heatingLevel heatingStatus = targetLevel ->
  (forall c sleepStage w,
      Part000.target userTemp c userNow = Some (targetLevel, sleepStage) ->
      Part000.actuate io testMode token userId userTemp c userNow heatingStatus w
      = (Ok tt, w))
  /\ (forall c sleepStage w,
      Part001.target userTemp c userNow = Some (targetLevel, sleepStage) ->
      Part001.actuate io testMode token userId userTemp c userNow heatingStatus w
      = (Ok tt, w)).
Proof.
  intros Hh Hl. split; intros c st w Ht.
  - unfold Part000.actuate. rewrite Ht, Hh, Hl, Z.eqb_refl. reflexivity.
  - unfold Part001.actuate. rewrite Ht, Hh, Hl, Z.eqb_refl. reflexivity.
Qed.

(** Each of the two commands is sent on its own condition: power-on
    when the bed is not heating, set-level when the level differs. *)
Lemma Part000_actuate_target (c : Shared.SleepCycle) (targetLevel : Z)
    (sleepStage : StageTag) :
  Part000.target userTemp c userNow = Some (targetLevel, sleepStage) ->
  testEnabled testMode = false ->
  Part000.actuate io testMode token userId userTemp c userNow heatingStatus =
  (when (negb (isHeating heatingStatus))
     (Shared.retryApiCall (Shared.turnOnSide io token userId)) ;;
   when (negb (heatingLevel heatingStatus =? targetLevel))
     (Shared.retryApiCall (Shared.setHeatingLevel io token userId targetLevel))).
Proof.
  intros Ht Hm. unfold Part000.actuate. rewrite Ht, Hm. reflexivity.
Qed.

(** A null target in the first sibling copy means that no boundary is
    within 15 minutes: the instant is outside the grace window around
    wake-up. *)
Lemma Part000_target_None (c : Shared.SleepCycle) :
  Part000.target userTemp c userNow = None ->
  Shared.isWithinTimeRange userNow (Shared.wakeupTime c) 15 = false.
Proof.
  unfold Part000.target.
  destruct (Shared.isWithinTimeRange userNow (Shared.wakeupTime c) 15); [|reflexivity].
  rewrite !orb_true_r. discriminate.
Qed.

(** C7 (amended): in the copies that act on the device state read back
    (the first and second sibling copies), outside test mode, when the
    target is null and the reference instant is strictly after the
    wake-up time (and, in the first copy, outside the 15-minute grace
    window around it, which a null target implies there), a power-off
    is issued if and only if the bed is heating; when it is not heating
    nothing is issued. *)
Theorem actuate_power_off_iff_heating :
  testEnabled testMode = false ->
  (forall c w,
      Part000.target userTemp c userNow = None ->
      Shared.wakeupTime c < userNow ->
      existsb isTurnOff
        (issued (Part000.actuate io testMode token userId userTemp c userNow
                   heatingStatus) w)
      = isHeating heatingStatus
      /\ (isHeating heatingStatus = false ->
          Part000.actuate io testMode token userId userTemp c userNow heatingStatus w
          = (Ok tt, w)))
  /\ (forall c w,
      Part001.target userTemp c userNow = None ->
      Part001.wakeupTime c < userNow ->
      existsb isTurnOff
        (issued (Part001.actuate io testMode token userId userTemp c userNow
                   heatingStatus) w)
      = isHeating heatingStatus
      /\ (isHeating heatingStatus = false ->
          Part001.actuate io testMode token userId userTemp c userNow heatingStatus w
          = (Ok tt, w))).
Proof.
  intros Hm. split; intros c w Ht Hw.
  - unfold Part000.actuate. rewrite Ht, Hm, (Part000_target_None c Ht).
    assert (G : (userNow >? Shared.wakeupTime c) = true)
      by (rewrite Z.gtb_ltb; apply Z.ltb_lt; exact Hw).
    rewrite G. destruct (isHeating heatingStatus); cbn [andb negb when].
    + split; [|discriminate].
      destruct (retryApiCall_perform_trace (TurnOffSide token userId)
                  (co_turnOff io token userId) w) as [rest E].
      unfold Shared.turnOffSide. rewrite (issued_app _ _ _ E). reflexivity.
    + split; [|reflexivity]. rewrite issued_nil; reflexivity.
  - unfold Part001.actuate. rewrite Ht, Hm.
    assert (G : (userNow >? Part001.wakeupTime c) = true)
      by (rewrite Z.gtb_ltb; apply Z.ltb_lt; exact Hw).
    rewrite G. destruct (isHeating heatingStatus); cbn [andb negb when].
    + split; [|discriminate].
      destruct (retryApiCall_perform_trace (TurnOffSide token userId)
                  (co_turnOff io token userId) w) as [rest E].
      unfold Shared.turnOffSide. rewrite (issued_app _ _ _ E). reflexivity.
    + split; [|reflexivity]. rewrite issued_nil; reflexivity.
Qed.
End Actuation.

Lemma actuate_idempotent_witness :
  let now := Sim.at_ 100 21 5 in
  let userTemp := Db.userTemperatureProfiles Sim.nightly in
  let w := Sim.start (Sim.heatingAt (-10)) (Ok [Sim.nightly]) now [] in
  let c0 := Shared.adjustCycle 0 now
              {| Shared.preHeatingTime := Sim.at_ 100 21 0;
                 Shared.bedTime := Sim.at_ 100 22 0;
                 Shared.midStageTime := Sim.at_ 100 23 0;
                 Shared.finalStageTime := Sim.at_ 101 4 0;
                 Shared.warmingTime := Sim.at_ 101 5 30;
                 Shared.wakeupTime := Sim.at_ 101 6 0 |} in
  let c1 := Part001.adjustCycle 0 now
              {| Part001.preHeatingTime := Sim.at_ 100 19 0;
                 Part001.bedTime := Sim.at_ 100 22 0;
                 Part001.midStageTime := Sim.at_ 100 23 0;
                 Part001.finalStageTime := Sim.at_ 101 4 0;
                 Part001.wakeupTime := Sim.at_ 101 6 0 |} in
  Part000.actuate Sim.io None Sim.token "u1" userTemp c0 now (Sim.heatingAt (-10)) w
  = (Ok tt, w)
  /\ Part001.actuate Sim.io None Sim.token "u1" userTemp c1 now (Sim.heatingAt (-10)) w
     = (Ok tt, w).
Proof.
  cbv zeta.
  destruct (actuate_idempotent Sim.io None Sim.token "u1"
              (Db.userTemperatureProfiles Sim.nightly) (Sim.at_ 100 21 5)
              (Sim.heatingAt (-10)) (-10) eq_refl eq_refl) as [A B].
  split.
  - apply (A _ PreHeating). vm_compute. reflexivity.
  - apply (B _ PreHeating). vm_compute. reflexivity.
Defined.

(** C7, as the specification states it, fails: the third sibling copy
    reads no device state.  For a 13:00 / 15:00 profile at 16:00, an hour
    after wake-up, the target is null and the bed is already off, yet a
    power-off is issued. *)
Lemma Part002_power_off_when_already_off :
  let now := Sim.at_ 100 16 0 in
  let profile := Sim.profileOf "13:00" "15:00" in
  let w := Sim.start Sim.off (Ok [profile]) now [] in
  Part002.target (Db.userTemperatureProfiles profile)
    (Part002.createSleepCycle 0 now "13:00" "15:00") now = None
  /\ Part002.wakeupTime (Part002.createSleepCycle 0 now "13:00" "15:00")
     = Some (Sim.at_ 100 15 0)
  /\ isHeating (Sim.device (env w)) = false
  /\ issued (Part002.adjustTemperature Sim.io None) w
     = [DbSelectProfiles; TurnOffSide Sim.token "u1"].
Proof. vm_compute. repeat split; reflexivity. Qed.

Lemma actuate_power_off_iff_heating_witness :
  let now := Sim.at_ 100 7 0 in
  let userTemp := Db.userTemperatureProfiles Sim.nightly in
  let w := Sim.start (Sim.heatingAt 5) (Ok [Sim.nightly]) now [] in
  let c0 := {| Shared.preHeatingTime := Sim.at_ 99 21 0;
               Shared.bedTime := Sim.at_ 99 22 0;
               Shared.midStageTime := Sim.at_ 99 23 0;
               Shared.finalStageTime := Sim.at_ 100 4 0;
               Shared.warmingTime := Sim.at_ 100 5 30;
               Shared.wakeupTime := Sim.at_ 100 6 0 |} in
  let c1 := {| Part001.preHeatingTime := Sim.at_ 100 19 0;
               Part001.bedTime := Sim.at_ 99 22 0;
               Part001.midStageTime := Sim.at_ 99 23 0;
               Part001.finalStageTime := Sim.at_ 100 4 0;
               Part001.wakeupTime := Sim.at_ 100 6 0 |} in
  existsb isTurnOff
    (issued (Part000.actuate Sim.io None Sim.token "u1" userTemp c0 now (Sim.heatingAt 5)) w)
  = true
  /\ existsb isTurnOff
       (issued (Part001.actuate Sim.io None Sim.token "u1" userTemp c1 now (Sim.heatingAt 5)) w)
     = true.
Proof.
  cbv zeta.
  destruct (actuate_power_off_iff_heating Sim.io None Sim.token "u1"
              (Db.userTemperatureProfiles Sim.nightly) (Sim.at_ 100 7 0)
              (Sim.heatingAt 5) eq_refl) as [A B].
  split.
  - apply A; vm_compute; reflexivity.
  - apply B; vm_compute; reflexivity.
Defined.

(** The cycles of the witness above are the ones the copies compute at
    07:00 for the 22:00 / 06:00 profile. *)
Example cycles_at_07_00 :
  let now := Sim.at_ 100 7 0 in
  andThen (Part000.createSleepCycle 0 now "22:00" "06:00")
    (fun c => Ok (Shared.adjustCycle 0 now c))
  = Ok {| Shared.preHeatingTime := Sim.at_ 99 21 0;
          Shared.bedTime := Sim.at_ 99 22 0;
          Shared.midStageTime := Sim.at_ 99 23 0;
          Shared.finalStageTime := Sim.at_ 100 4 0;
          Shared.warmingTime := Sim.at_ 100 5 30;
          Shared.wakeupTime := Sim.at_ 100 6 0 |}
  /\ andThen (Part001.createSleepCycle 0 now "22:00" "06:00")
       (fun c => Ok (Part001.adjustCycle 0 now c))
     = Ok {| Part001.preHeatingTime := Sim.at_ 100 19 0;
             Part001.bedTime := Sim.at_ 99 22 0;
             Part001.midStageTime := Sim.at_ 99 23 0;
             Part001.finalStageTime := Sim.at_ 100 4 0;
             Part001.wakeupTime := Sim.at_ 100 6 0 |}.
Proof. vm_compute. split; reflexivity. Qed.

(** A supplementary fact on the route: there the status is read inside
    the actuation step, and when the state read back already matches the
    target nothing follows the read. *)
Lemma Route_no_write_when_state_matches {Env : Type} (io : Collab Env)
    (token : Token) (userId : string) (userTemp : Db.TemperatureProfileRow)
    (c : Shared.SleepCycle) (userNow targetLevel : Z) (stageName : StageTag)
    (status : HeatingStatus) (w w' : World Env) :
  Route.target userTemp c userNow = Some (targetLevel, stageName) ->
  Shared.retryApiCall (Shared.getCurrentHeatingStatus io token) w = (Ok status, w') ->
  isHeating status = true ->
  heatingLevel status = targetLevel ->
  Route.actuate io None token userId userTemp c userNow w = (Ok tt, w').
Proof.
  intros Ht Hs Hh Hl. unfold Route.actuate. rewrite Ht.
  cbn [testEnabled negb when]. unfold bind at 1. rewrite Hs, Hh, Hl, Z.eqb_refl.
  reflexivity.
Qed.

(** ** Retry of device calls *)

(** C3 holds of [retryApiCall] (see [retryApiCall_third] and
    [retryApiCall_exhausted]) and of every device call of the three
    sibling copies, which all go through it.  The route wraps only the
    status read: its power-on, set-level and power-off are single
    attempts.  At 21:05 for the 22:00 / 06:00 profile, with the bed off
    and the first power-on failing, the route gives up after that one
    attempt (no wait, no second attempt, no set-level) and leaves the bed
    off, where the first sibling copy waits a second, retries and sets the
    level. *)
Theorem Route_device_write_not_retried :
  let now := Sim.at_ 100 21 5 in
  let w := Sim.start Sim.off (Ok [Sim.nightly]) now [false; true] in
  (fst (Route.adjustTemperature Sim.io None w) = Ok tt
   /\ issued (Route.adjustTemperature Sim.io None) w
      = [DbSelectProfiles; GetCurrentHeatingStatus Sim.token; TurnOnSide Sim.token "u1"]
   /\ Sim.device (env (snd (Route.adjustTemperature Sim.io None w))) = Sim.off)
  /\ (issued (Part000.adjustTemperature Sim.io None) w
      = [DbSelectProfiles; GetCurrentHeatingStatus Sim.token;
         TurnOnSide Sim.token "u1"; SetTimeout 1000; TurnOnSide Sim.token "u1";
         SetHeatingLevel Sim.token "u1" (-10)]
      /\ Sim.device (env (snd (Part000.adjustTemperature Sim.io None w)))
         = Sim.heatingAt (-10)).
Proof. vm_compute. repeat split; reflexivity. Qed.

(** The retry envelope on a simulated device: two failures then a
    success are absorbed, with waits of 1 s and 2 s; three failures
    surface the third one after exactly three attempts. *)
Example retryApiCall_on_simulated_device :
  let w2 := Sim.start Sim.off (Ok []) 0 [true; true; false] in
  let w3 := Sim.start Sim.off (Ok []) 0 [true; true; true; false] in
  let call := Shared.turnOnSide Sim.io Sim.token "u1" in
  (fst (Shared.retryApiCall call w2) = Ok tt
   /\ issued (Shared.retryApiCall call) w2
      = [TurnOnSide Sim.token "u1"; SetTimeout 1000; TurnOnSide Sim.token "u1";
         SetTimeout 2000; TurnOnSide Sim.token "u1"])
  /\ (fst (Shared.retryApiCall call w3) = Throw (External "turnOn")
      /\ issued (Shared.retryApiCall call) w3
         = [TurnOnSide Sim.token "u1"; SetTimeout 1000; TurnOnSide Sim.token "u1";
            SetTimeout 2000; TurnOnSide Sim.token "u1"]).
Proof. vm_compute. repeat split; reflexivity. Qed.

(** ** Setpoint resolver *)

(** In the first sibling copy every target goes with a stage name that
    the mapping sends to it, the spike level being 2. *)
Lemma Part000_target_resolves (userTemp : Db.TemperatureProfileRow)
    (c : Shared.SleepCycle) (userNow targetLevel : Z) (sleepStage : StageTag) :
  Part000.target userTemp c userNow = Some (targetLevel, sleepStage) ->
  setpointOf userTemp 2 sleepStage = Some targetLevel.
Proof.
  unfold Part000.target.
  repeat match goal with
  | |- context [if ?b then _ else _] => destruct b
  end; intros E; inversion E; reflexivity.
Qed.

(** So does every target of the second sibling copy, which has no
    warming stage. *)
Lemma Part001_target_resolves (userTemp : Db.TemperatureProfileRow)
    (c : Part001.SleepCycle) (userNow targetLevel spike : Z) (sleepStage : StageTag) :
  Part001.target userTemp c userNow = Some (targetLevel, sleepStage) ->
  setpointOf userTemp spike sleepStage = Some targetLevel.
Proof.
  unfold Part001.target.
  repeat match goal with
  | |- context [if ?b then _ else _] => destruct b
  end; intros E; inversion E; reflexivity.
Qed.

(** The target of the third sibling copy is the mapping applied to that
    window: null exactly outside the windows. *)
Lemma Part002_target_resolves (userTemp : Db.TemperatureProfileRow)
    (c : Part002.SleepCycle) (userNow spike : Z) :
  Part002.target userTemp c userNow = setpointOf userTemp spike (Part002_stage c userNow).
Proof.
  unfold Part002.target, Part002_stage.
  repeat match goal with
  | |- context [if ?b && ?b' then _ else _] => destruct (b && b'); cbn [orb]
  end; reflexivity.
Qed.

(** C6 holds of the three sibling copies (see the three lemmas above)
    and fails in the route, whose chain has no case for "outside sleep
    cycle" and keeps the default it starts from, the mid level.  At
    06:10, ten minutes after the 06:00 wake-up, the stage is outside the
    cycle, the target is the mid level -20 and not null, and the bed,
    which was off, is powered on and set to it. *)
Theorem Route_target_outside_cycle :
  let now := Sim.at_ 100 6 10 in
  let userTemp := Db.userTemperatureProfiles Sim.nightly in
  let w := Sim.start Sim.off (Ok [Sim.nightly]) now [] in
  exists c,
    Route.createSleepCycle 0 now "22:00" "06:00" = Ok c
    /\ Shared.wakeupTime (Shared.adjustCycle 0 now c) = Sim.at_ 100 6 0
    /\ Route.currentSleepStage (Shared.adjustCycle 0 now c) now = OutsideSleepCycle
    /\ Route.target userTemp (Shared.adjustCycle 0 now c) now
       = Some (Db.midStageSleepLevel userTemp, OutsideSleepCycle)
    /\ setpointOf userTemp 10 OutsideSleepCycle = None
    /\ issued (Route.adjustTemperature Sim.io None) w
       = [DbSelectProfiles; GetCurrentHeatingStatus Sim.token;
          TurnOnSide Sim.token "u1"; SetHeatingLevel Sim.token "u1" (-20)].
Proof.
  eexists. split; [vm_compute; reflexivity|].
  vm_compute. repeat split; reflexivity.
Qed.

(** ** Run orchestrator *)

Section Orchestrator.
Context {Env : Type} (io : Collab Env).
Variable testMode : option TestMode.

(** An error of one profile is caught at that profile: the loop goes
    on with the remaining profiles, from the world the failed one left,
    and resolves. *)
Lemma Part000_forEachProfile_cons (profile : Db.ProfileRow)
    (rest : list Db.ProfileRow) (w : World Env) :
  Part000.forEachProfile io testMode (profile :: rest) w
  = Part000.forEachProfile io testMode rest
      (snd (Part000.processProfile io testMode profile w)).
Proof.
  cbn [Part000.forEachProfile]. unfold bind, tryCatch, ret.
  destruct (Part000.processProfile io testMode profile w) as [[u|e] w']; reflexivity.
Qed.

Lemma Part000_forEachProfile_resolves (profiles : list Db.ProfileRow) (w : World Env) :
  fst (Part000.forEachProfile io testMode profiles w) = Ok tt.
Proof.
  revert w. induction profiles as [|p ps IH]; intros w; [reflexivity|].
  rewrite Part000_forEachProfile_cons. apply IH.
Qed.

Lemma Part001_forEachProfile_cons (profile : Db.ProfileRow)
    (rest : list Db.ProfileRow) (w : World Env) :
  Part001.forEachProfile io testMode (profile :: rest) w
  = Part001.forEachProfile io testMode rest
      (snd (Part001.processProfile io testMode profile w)).
Proof.
  cbn [Part001.forEachProfile]. unfold bind, tryCatch, ret.
  destruct (Part001.processProfile io testMode profile w) as [[u|e] w']; reflexivity.
Qed.

Lemma Route_forEachProfile_cons (profile : Db.ProfileRow)
    (rest : list Db.ProfileRow) (w : World Env) :
  Route.forEachProfile io testMode (profile :: rest) w
  = Route.forEachProfile io testMode rest
      (snd (Route.processProfile io testMode profile w)).
Proof.
  cbn [Route.forEachProfile]. unfold bind, tryCatch, ret.
  destruct (Route.processProfile io testMode profile w) as [[u|e] w']; reflexivity.
Qed.

Lemma Part002_forEachProfile_cons (profile : Db.ProfileRow)
    (rest : list Db.ProfileRow) (w : World Env) :
  Part002.forEachProfile io testMode (profile :: rest) w
  = Part002.forEachProfile io testMode rest
      (snd (Part002.processProfile io testMode profile w)).
Proof.
  cbn [Part002.forEachProfile]. unfold bind, tryCatch, ret.
  destruct (Part002.processProfile io testMode profile w) as [[u|e] w']; reflexivity.
Qed.

(** In the first sibling copy the run rejects exactly when the fetch
    of the profiles does, with the error of the fetch, and then no
    profile is processed. *)
Lemma Part000_adjustTemperature_result (w : World Env) :
  fst (Part000.adjustTemperature io testMode w)
  = match fst (co_select io (env w)) with
    | Ok _ => Ok tt
    | Throw e => Throw e
    end.
Proof.
  unfold Part000.adjustTemperature, tryCatch, bind, Shared.dbSelectProfiles, perform.
  destruct (co_select io (env w)) as [[ps|e] s]; cbn [fst].
  - pose proof (Part000_forEachProfile_resolves ps
                  (mkWorld s (trace w ++ [DbSelectProfiles]))) as H.
    destruct (Part000.forEachProfile io testMode ps _) as [[u|e] w']; cbn [fst] in *.
    + destruct u. reflexivity.
    + discriminate.
  - reflexivity.
Qed.

(** In the second sibling copy and in the route the run resolves even
    when the fetch rejects: the outer handler only logs. *)
Lemma Part001_adjustTemperature_resolves (w : World Env) :
  fst (Part001.adjustTemperature io testMode w) = Ok tt.
Proof.
  unfold Part001.adjustTemperature, tryCatch, bind, Shared.dbSelectProfiles, perform.
  destruct (co_select io (env w)) as [[ps|e] s]; [|reflexivity].
  generalize (mkWorld s (trace w ++ [DbSelectProfiles])). clear w.
  induction ps as [|p ps IH]; intros w; [reflexivity|].
  rewrite Part001_forEachProfile_cons.
  specialize (IH (snd (Part001.processProfile io testMode p w))).
  destruct (Part001.forEachProfile io testMode ps _) as [[u|e] w']; exact IH.
Qed.

Lemma Route_adjustTemperature_resolves (w : World Env) :
  fst (Route.adjustTemperature io testMode w) = Ok tt.
Proof.
  unfold Route.adjustTemperature, tryCatch, bind, Shared.dbSelectProfiles, perform.
  destruct (co_select io (env w)) as [[ps|e] s]; [|reflexivity].
  generalize (mkWorld s (trace w ++ [DbSelectProfiles])). clear w.
  induction ps as [|p ps IH]; intros w; [reflexivity|].
  rewrite Route_forEachProfile_cons.
  specialize (IH (snd (Route.processProfile io testMode p w))).
  destruct (Route.forEachProfile io testMode ps _) as [[u|e] w']; exact IH.
Qed.
End Orchestrator.

(** The endpoint of the first sibling copy reports failure exactly when
    the fetch of the profiles fails. *)
Lemma Part000_GET_reports_fetch_failure {Env : Type} (io : Collab Env)
    (testTimeParam : option Z) (w : World Env) :
  fst (Part000.GET io true testTimeParam w)
  = Ok (if isOk (fst (co_select io (env w))) then SuccessJson
        else InternalServerError500).
Proof.
  unfold Part000.GET. cbn [negb]. unfold tryCatch, bind, ret.
  destruct testTimeParam as [seconds|].
  - pose proof (Part000_adjustTemperature_result io
                  (Some {| enabled := true; currentTime := seconds * 1000 |}) w) as H.
    destruct (Part000.adjustTemperature io _ w) as [[u|e] w']; cbn [fst] in *;
      destruct (fst (co_select io (env w))); cbn [isOk]; congruence.
  - pose proof (Part000_adjustTemperature_result io None w) as H.
    destruct (Part000.adjustTemperature io None w) as [[u|e] w']; cbn [fst] in *;
      destruct (fst (co_select io (env w))); cbn [isOk]; congruence.
Qed.

(** The endpoints of the second sibling copy and of the route report
    success whatever happens to the fetch. *)
Lemma Part001_GET_always_succeeds {Env : Type} (io : Collab Env)
    (testTimeParam : option Z) (w : World Env) :
  fst (Part001.GET io true testTimeParam w) = Ok SuccessJson
  /\ fst (Route.GET io true testTimeParam w) = Ok SuccessJson.
Proof.
  split.
  - unfold Part001.GET. cbn [negb]. unfold tryCatch, bind, ret.
    destruct testTimeParam as [seconds|].
    + pose proof (Part001_adjustTemperature_resolves io
                    (Some {| enabled := true; currentTime := seconds * 1000 |}) w) as H.
      destruct (Part001.adjustTemperature io _ w) as [[u|e] w']; cbn [fst] in *;
        congruence.
    + pose proof (Part001_adjustTemperature_resolves io None w) as H.
      destruct (Part001.adjustTemperature io None w) as [[u|e] w']; cbn [fst] in *;
        congruence.
  - unfold Route.GET. cbn [negb]. unfold bind, ret.
    pose proof (Route_adjustTemperature_resolves io
                  (match testTimeParam with
                   | Some seconds => Some {| enabled := true; currentTime := seconds * 1000 |}
                   | None => None
                   end) w) as H.
    destruct (Route.adjustTemperature io _ w) as [[u|e] w']; cbn [fst] in *; congruence.
Qed.

(** C8: the first half holds of every copy (an error of one profile is
    caught at that profile and the loop goes on, see the lemmas on
    [forEachProfile]); the second half holds of the first sibling copy,
    whose outer handler rethrows, and fails in the second one and in the
    route, whose outer handler only logs.  When the fetch of the profiles
    fails, the run of the second sibling copy resolves and its endpoint
    answers success, although its handler is written to answer 500 on a
    failure; the first sibling copy answers 500. *)
Theorem Part001_fetch_failure_reported_as_success :
  let w := Sim.start Sim.off (Throw (External "db")) (Sim.at_ 100 21 5) [] in
  fst (Sim.io.(co_select) (env w)) = Throw (External "db")
  /\ Part001.adjustTemperature Sim.io None w = (Ok tt, mkWorld (env w) [DbSelectProfiles])
  /\ fst (Part001.GET Sim.io true None w) = Ok SuccessJson
  /\ fst (Route.GET Sim.io true None w) = Ok SuccessJson
  /\ fst (Part000.adjustTemperature Sim.io None w) = Throw (External "db")
  /\ fst (Part000.GET Sim.io true None w) = Ok InternalServerError500.
Proof. vm_compute. repeat split; reflexivity. Qed.

(** Error containment on a simulated run of the first sibling copy: the
    first profile is malformed and throws, the second one is still
    processed. *)
Example one_bad_profile_does_not_stop_the_run :
  let now := Sim.at_ 100 21 5 in
  let w := Sim.start Sim.off (Ok [Sim.profileOf "late" "06:00"; Sim.nightly]) now [] in
  fst (Part000.processProfile Sim.io None (Sim.profileOf "late" "06:00") w)
  = Throw (InvalidTimeString "late")
  /\ fst (Part000.adjustTemperature Sim.io None w) = Ok tt
  /\ issued (Part000.adjustTemperature Sim.io None) w
     = [DbSelectProfiles; GetCurrentHeatingStatus Sim.token;
        TurnOnSide Sim.token "u1"; SetHeatingLevel Sim.token "u1" (-10)].
Proof. vm_compute. repeat split; reflexivity. Qed.

(** ** The scenarios of the specification, on the simulated environment *)

(** 21:05, bed off: pre-heating, the bed is powered on and set to the
    initial level (first sibling copy). *)
Example scenario_pre_heating :
  issued (Part000.adjustTemperature Sim.io None)
    (Sim.start Sim.off (Ok [Sim.nightly]) (Sim.at_ 100 21 5) [])
  = [DbSelectProfiles; GetCurrentHeatingStatus Sim.token;
     TurnOnSide Sim.token "u1"; SetHeatingLevel Sim.token "u1" (-10)].
Proof. vm_compute. reflexivity. Qed.

(** 23:30: the mid stage.  The window-based second sibling copy sets the
    mid level; the proximity-triggered first one, half an hour away from
    any boundary, only reads the status. *)
Example scenario_mid_stage :
  issued (Part001.adjustTemperature Sim.io None)
    (Sim.start Sim.off (Ok [Sim.nightly]) (Sim.at_ 100 23 30) [])
  = [DbSelectProfiles; GetCurrentHeatingStatus Sim.token;
     TurnOnSide Sim.token "u1"; SetHeatingLevel Sim.token "u1" (-20)]
  /\ issued (Part000.adjustTemperature Sim.io None)
       (Sim.start Sim.off (Ok [Sim.nightly]) (Sim.at_ 100 23 30) [])
     = [DbSelectProfiles; GetCurrentHeatingStatus Sim.token].
Proof. vm_compute. split; reflexivity. Qed.

(** 07:00, past the 06:00 wake-up, bed heating: power-off. *)
Example scenario_after_wake :
  issued (Part000.adjustTemperature Sim.io None)
    (Sim.start (Sim.heatingAt 5) (Ok [Sim.nightly]) (Sim.at_ 100 7 0) [])
  = [DbSelectProfiles; GetCurrentHeatingStatus Sim.token; TurnOffSide Sim.token "u1"].
Proof. vm_compute. reflexivity. Qed.

(** 12:00, bed off: outside the cycle, nothing is sent to the bed. *)
Example scenario_midday :
  filter isDeviceWrite
    (issued (Part000.adjustTemperature Sim.io None)
       (Sim.start Sim.off (Ok [Sim.nightly]) (Sim.at_ 100 12 0) []))
  = [].
Proof. vm_compute. reflexivity. Qed.

(** ** Further properties of the normalisation and of the calculator *)

(** X1: a boundary at or after [cycleStart] and at most 36 hours ahead
    of the reference instant is corrected to an instant at most 12 hours
    ahead of it, by moving it back one day exactly when it is more than
    12 hours ahead (it then lands less than 12 hours before to 12 hours
    after the reference instant); otherwise it is left alone. *)
Theorem adjustTimeToCurrentCycle_within_half_day (tz cycleStart currentTime timeInCycle : Z) :
  cycleStart <= timeInCycle ->
  timeInCycle <= currentTime + 36 * Js.msPerHour ->
  let a := Shared.adjustTimeToCurrentCycle tz cycleStart currentTime timeInCycle in
  a <= currentTime + 12 * Js.msPerHour
  /\ (timeInCycle <= currentTime + 12 * Js.msPerHour -> a = timeInCycle)
  /\ (currentTime + 12 * Js.msPerHour < timeInCycle ->
      a = timeInCycle - Js.msPerDay /\ currentTime - 12 * Js.msPerHour < a).
Proof.
  intros H1 H2. cbv zeta.
  pose proof (adjust_cases tz cycleStart currentTime timeInCycle) as A.
  cbv zeta in A. unfold Js.msPerHour, Js.msPerDay in *. lia.
Qed.

Lemma adjustTimeToCurrentCycle_within_half_day_witness :
  let a := Shared.adjustTimeToCurrentCycle 0 (Sim.at_ 100 21 0) (Sim.at_ 100 7 0)
             (Sim.at_ 101 6 0) in
  a <= Sim.at_ 100 7 0 + 12 * Js.msPerHour
  /\ (Sim.at_ 101 6 0 <= Sim.at_ 100 7 0 + 12 * Js.msPerHour -> a = Sim.at_ 101 6 0)
  /\ (Sim.at_ 100 7 0 + 12 * Js.msPerHour < Sim.at_ 101 6 0 ->
      a = Sim.at_ 101 6 0 - Js.msPerDay /\ Sim.at_ 100 7 0 - 12 * Js.msPerHour < a).
Proof.
  apply (adjustTimeToCurrentCycle_within_half_day 0 (Sim.at_ 100 21 0) (Sim.at_ 100 7 0)
           (Sim.at_ 101 6 0)); vm_compute; congruence.
Defined.

Section CycleInvariants.
Variables tz baseDate hb mb hw mw : Z.
Hypothesis Hhb : 0 <= hb <= 23.
Hypothesis Hmb : 0 <= mb <= 59.
Hypothesis Hhw : 0 <= hw <= 23.
Hypothesis Hmw : 0 <= mw <= 59.

(** X2: for valid clock strings the cycle of the first sibling copy
    always has wake-up strictly after bedtime and at most 24 hours after
    it -- exactly 24 hours when the two clock times are equal --, with
    pre-heating before bedtime, bedtime before the mid stage, and the
    final stage before warming before wake-up. *)
Theorem createSleepCycle_wake_after_bed :
  exists c,
    Part000.createSleepCycle tz baseDate (clock hb mb) (clock hw mw) = Ok c
    /\ Shared.bedTime c < Shared.wakeupTime c <= Shared.bedTime c + Js.msPerDay
    /\ (Shared.wakeupTime c = Shared.bedTime c + Js.msPerDay <-> hb = hw /\ mb = mw)
    /\ Shared.preHeatingTime c < Shared.bedTime c < Shared.midStageTime c
    /\ Shared.finalStageTime c < Shared.warmingTime c < Shared.wakeupTime c.
Proof.
  eexists. split; [apply Part000_createSleepCycle_clock; assumption|].
  cbn [Shared.preHeatingTime Shared.bedTime Shared.midStageTime Shared.finalStageTime
       Shared.warmingTime Shared.wakeupTime].
  unfold Js.setHours4, Js.UTC, Js.MakeDate, Js.MakeTime, Js.msPerDay, Js.msPerHour,
    Js.msPerMinute.
  set (d := Js.Day (Js.LocalTime tz baseDate) * 86400000).
  split_tests; lia.
Qed.
End CycleInvariants.

Lemma createSleepCycle_wake_after_bed_witness :
  exists c,
    Part000.createSleepCycle 0 (Sim.at_ 100 21 5) (clock 22 0) (clock 6 0) = Ok c
    /\ Shared.bedTime c < Shared.wakeupTime c <= Shared.bedTime c + Js.msPerDay
    /\ (Shared.wakeupTime c = Shared.bedTime c + Js.msPerDay <-> 22 = 6 /\ 0 = 0)
    /\ Shared.preHeatingTime c < Shared.bedTime c < Shared.midStageTime c
    /\ Shared.finalStageTime c < Shared.warmingTime c < Shared.wakeupTime c.
Proof.
  apply (createSleepCycle_wake_after_bed 0 (Sim.at_ 100 21 5) 22 0 6 0); lia.
Defined.

(** ** The classifier after normalisation *)

(** What the chain of the first sibling copy answers, window by window,
    whatever the order of the boundaries. *)
Lemma Part000_stage_cases (c : Shared.SleepCycle) (x : Z) :
  let w1 := Shared.preHeatingTime c <= x < Shared.bedTime c in
  let w2 := Shared.bedTime c <= x < Shared.midStageTime c in
  let w3 := Shared.midStageTime c <= x < Shared.finalStageTime c in
  let w4 := Shared.finalStageTime c <= x < Shared.warmingTime c in
  let w5 := Shared.warmingTime c <= x < Shared.wakeupTime c in
  (Part000.currentSleepStage c x = PreHeating /\ w1)
  \/ (Part000.currentSleepStage c x = Initial /\ ~ w1 /\ w2)
  \/ (Part000.currentSleepStage c x = Mid /\ ~ w1 /\ ~ w2 /\ w3)
  \/ (Part000.currentSleepStage c x = Final /\ ~ w1 /\ ~ w2 /\ ~ w3 /\ w4)
  \/ (Part000.currentSleepStage c x = Warming /\ ~ w1 /\ ~ w2 /\ ~ w3 /\ ~ w4 /\ w5)
  \/ (Part000.currentSleepStage c x = OutsideSleepCycle
      /\ ~ w1 /\ ~ w2 /\ ~ w3 /\ ~ w4 /\ ~ w5).
Proof.
  cbv zeta. unfold Part000.currentSleepStage.
  destruct c as [pre bed mid fin warm wake]; cbn [Shared.preHeatingTime Shared.bedTime
    Shared.midStageTime Shared.finalStageTime Shared.warmingTime Shared.wakeupTime].
  rewrite !Z.geb_leb.
  destruct (Z.leb_spec pre x), (Z.ltb_spec x bed); cbn [andb];
    [left; (split; [reflexivity | lia]) | | |];
    (destruct (Z.leb_spec bed x), (Z.ltb_spec x mid); cbn [andb];
     [right; left; (split; [reflexivity | lia]) | | |]);
    (destruct (Z.leb_spec mid x), (Z.ltb_spec x fin); cbn [andb];
     [right; right; left; (split; [reflexivity | lia]) | | |]);
    (destruct (Z.leb_spec fin x), (Z.ltb_spec x warm); cbn [andb];
     [right; right; right; left; (split; [reflexivity | lia]) | | |]);
    (destruct (Z.leb_spec warm x), (Z.ltb_spec x wake); cbn [andb];
     [right; right; right; right; left; (split; [reflexivity | lia]) | | |]);
    right; right; right; right; right; (split; [reflexivity | lia]).
Qed.

(** The same for the reversed chain of the route. *)
Lemma Route_stage_cases (c : Shared.SleepCycle) (x : Z) :
  let w1 := Shared.preHeatingTime c <= x < Shared.bedTime c in
  let w2 := Shared.bedTime c <= x < Shared.midStageTime c in
  let w3 := Shared.midStageTime c <= x < Shared.finalStageTime c in
  let w4 := Shared.finalStageTime c <= x < Shared.warmingTime c in
  let w5 := Shared.warmingTime c <= x < Shared.wakeupTime c in
  (Route.currentSleepStage c x = Warming /\ w5)
  \/ (Route.currentSleepStage c x = Final /\ ~ w5 /\ w4)
  \/ (Route.currentSleepStage c x = Mid /\ ~ w5 /\ ~ w4 /\ w3)
  \/ (Route.currentSleepStage c x = Initial /\ ~ w5 /\ ~ w4 /\ ~ w3 /\ w2)
  \/ (Route.currentSleepStage c x = PreHeating /\ ~ w5 /\ ~ w4 /\ ~ w3 /\ ~ w2 /\ w1)
  \/ (Route.currentSleepStage c x = OutsideSleepCycle
      /\ ~ w1 /\ ~ w2 /\ ~ w3 /\ ~ w4 /\ ~ w5).
Proof.
  cbv zeta. unfold Route.currentSleepStage.
  destruct c as [pre bed mid fin warm wake]; cbn [Shared.preHeatingTime Shared.bedTime
    Shared.midStageTime Shared.finalStageTime Shared.warmingTime Shared.wakeupTime].
  rewrite !Z.geb_leb.
  destruct (Z.leb_spec warm x), (Z.ltb_spec x wake); cbn [andb];
    [left; (split; [reflexivity | lia]) | | |];
    (destruct (Z.leb_spec fin x), (Z.ltb_spec x warm); cbn [andb];
     [right; left; (split; [reflexivity | lia]) | | |]);
    (destruct (Z.leb_spec mid x), (Z.ltb_spec x fin); cbn [andb];
     [right; right; left; (split; [reflexivity | lia]) | | |]);
    (destruct (Z.leb_spec bed x), (Z.ltb_spec x mid); cbn [andb];
     [right; right; right; left; (split; [reflexivity | lia]) | | |]);
    (destruct (Z.leb_spec pre x), (Z.ltb_spec x bed); cbn [andb];
     [right; right; right; right; left; (split; [reflexivity | lia]) | | |]);
    right; right; right; right; right; (split; [reflexivity | lia]).
Qed.

(** At or after [cycleStart] the correction is a single test. *)
Lemma adjust_from_start (tz cs now t : Z) :
  cs <= t ->
  Shared.adjustTimeToCurrentCycle tz cs now t =
  if t <=? now + 43200000 then t else t - 86400000.
Proof.
  intros H. pose proof (adjust_cases tz cs now t) as A. cbv zeta in A.
  destruct (Z.leb_spec t (now + 43200000)); lia.
Qed.

(** A stage other than outside means that the instant is in its window. *)
Lemma stage_of_window (c : Shared.SleepCycle) (x : Z) :
  match Part000.currentSleepStage c x with
  | PreHeating => Shared.preHeatingTime c <= x < Shared.bedTime c
  | Initial => Shared.bedTime c <= x < Shared.midStageTime c
  | Mid => Shared.midStageTime c <= x < Shared.finalStageTime c
  | Final => Shared.finalStageTime c <= x < Shared.warmingTime c
  | Warming => Shared.warmingTime c <= x < Shared.wakeupTime c
  | OutsideSleepCycle => True
  end.
Proof.
  pose proof (Part000_stage_cases c x) as A. cbv zeta in A.
  destruct A as [[-> A]|[[-> A]|[[-> A]|[[-> A]|[[-> A]|[-> A]]]]]]; tauto.
Qed.

Lemma Route_stage_of_window (c : Shared.SleepCycle) (x : Z) :
  match Route.currentSleepStage c x with
  | PreHeating => Shared.preHeatingTime c <= x < Shared.bedTime c
  | Initial => Shared.bedTime c <= x < Shared.midStageTime c
  | Mid => Shared.midStageTime c <= x < Shared.finalStageTime c
  | Final => Shared.finalStageTime c <= x < Shared.warmingTime c
  | Warming => Shared.warmingTime c <= x < Shared.wakeupTime c
  | OutsideSleepCycle => True
  end.
Proof.
  pose proof (Route_stage_cases c x) as A. cbv zeta in A.
  destruct A as [[-> A]|[[-> A]|[[-> A]|[[-> A]|[[-> A]|[-> A]]]]]]; tauto.
Qed.

Ltac open_cycle c :=
  destruct c as [pre bed mid fin warm wake];
  cbn [Shared.preHeatingTime Shared.bedTime Shared.midStageTime Shared.finalStageTime
       Shared.warmingTime Shared.wakeupTime] in *.

(** Moving the cycle and the instant together does not change the stage. *)
Lemma stage_shift (d : Z) (c : Shared.SleepCycle) (x : Z) :
  Part000.currentSleepStage (shiftCycle d c) (x + d) = Part000.currentSleepStage c x
  /\ Route.currentSleepStage (shiftCycle d c) (x + d) = Route.currentSleepStage c x.
Proof.
  unfold Part000.currentSleepStage, Route.currentSleepStage, shiftCycle.
  open_cycle c. rewrite !Z.geb_leb.
  assert (L : forall a b, (a + d <=? b + d) = (a <=? b))
    by (intros a b; destruct (Z.leb_spec (a + d) (b + d)), (Z.leb_spec a b); lia).
  assert (T : forall a b, (a + d <? b + d) = (a <? b))
    by (intros a b; destruct (Z.ltb_spec (a + d) (b + d)), (Z.ltb_spec a b); lia).
  rewrite !L, !T. split; reflexivity.
Qed.

(** Before the cycle and from wake-up on, the stage is outside. *)
Lemma stage_outside (c : Shared.SleepCycle) (x : Z) :
  ascending c ->
  x < Shared.preHeatingTime c \/ Shared.wakeupTime c <= x ->
  Part000.currentSleepStage c x = OutsideSleepCycle
  /\ Route.currentSleepStage c x = OutsideSleepCycle.
Proof.
  unfold ascending. intros H Hx.
  pose proof (stage_of_window c x) as W.
  pose proof (Route_stage_of_window c x) as R.
  split.
  - destruct (Part000.currentSleepStage c x); try reflexivity; exfalso; lia.
  - destruct (Route.currentSleepStage c x); try reflexivity; exfalso; lia.
Qed.

(** The three regimes of the normalisation of an ordered cycle. *)
Lemma adjustCycle_unmoved (tz userNow : Z) (c : Shared.SleepCycle) :
  ascending c ->
  Shared.wakeupTime c <= userNow + 43200000 ->
  Shared.adjustCycle tz userNow c = c.
Proof.
  unfold ascending, Shared.adjustCycle. open_cycle c. intros H Hw.
  rewrite !adjust_from_start by lia.
  repeat match goal with
  | |- context [?a <=? ?b] => destruct (Z.leb_spec a b); [|lia]
  end.
  reflexivity.
Qed.

Lemma adjustCycle_moved_back (tz userNow : Z) (c : Shared.SleepCycle) :
  ascending c ->
  userNow + 43200000 < Shared.preHeatingTime c ->
  Shared.adjustCycle tz userNow c = shiftCycle (- Js.msPerDay) c.
Proof.
  unfold ascending, Shared.adjustCycle, shiftCycle, Js.msPerDay. open_cycle c.
  intros H Hw.
  rewrite !adjust_from_start by lia.
  repeat match goal with
  | |- context [?a <=? ?b] => destruct (Z.leb_spec a b); [lia|]
  end.
  reflexivity.
Qed.

(** Between the two, the instant is in the twelve hours before the cycle
    and no window of the normalised cycle holds it. *)
Lemma adjustCycle_mixed_outside (tz userNow : Z) (c : Shared.SleepCycle) :
  ascending c ->
  Shared.preHeatingTime c <= userNow + 43200000 < Shared.wakeupTime c ->
  Shared.wakeupTime c - Shared.preHeatingTime c <= 43200000 ->
  Part000.currentSleepStage (Shared.adjustCycle tz userNow c) userNow = OutsideSleepCycle
  /\ Route.currentSleepStage (Shared.adjustCycle tz userNow c) userNow = OutsideSleepCycle.
Proof.
  unfold ascending. intros H Hm Hlen.
  pose proof (stage_of_window (Shared.adjustCycle tz userNow c) userNow) as W.
  pose proof (Route_stage_of_window (Shared.adjustCycle tz userNow c) userNow) as R.
  unfold Shared.adjustCycle in W, R. open_cycle c.
  rewrite !adjust_from_start in W, R by lia.
  unfold Shared.adjustCycle.
  cbn [Shared.preHeatingTime Shared.bedTime Shared.midStageTime Shared.finalStageTime
       Shared.warmingTime Shared.wakeupTime].
  rewrite !adjust_from_start by lia.
  split.
  - clear R. destruct (Part000.currentSleepStage _ userNow); try reflexivity;
      exfalso; revert W; split_tests; lia.
  - clear W. destruct (Route.currentSleepStage _ userNow); try reflexivity;
      exfalso; revert R; split_tests; lia.
Qed.

(** X3: for a cycle with ordered boundaries that lasts at most 12
    hours from pre-heating to wake-up, normalising the cycle and then
    classifying gives, for every reference instant, the stage of that
    instant in the cycle as anchored, or else the stage of the same clock
    time one day later: an instant past midnight is classified in the
    cycle that began the evening before, and an instant in neither is
    outside the cycle.  Both chains, of the first sibling copy and of the
    route, do so. *)
Theorem stage_after_normalisation (tz userNow : Z) (c : Shared.SleepCycle) :
  ascending c ->
  Shared.wakeupTime c - Shared.preHeatingTime c <= 12 * Js.msPerHour ->
  Part000.currentSleepStage (Shared.adjustCycle tz userNow c) userNow =
    match Part000.currentSleepStage c userNow with
    | OutsideSleepCycle => Part000.currentSleepStage c (userNow + Js.msPerDay)
    | stage => stage
    end
  /\ Route.currentSleepStage (Shared.adjustCycle tz userNow c) userNow =
    match Route.currentSleepStage c userNow with
    | OutsideSleepCycle => Route.currentSleepStage c (userNow + Js.msPerDay)
    | stage => stage
    end.
Proof.
  intros Ha Hlen. unfold Js.msPerHour, Js.msPerDay in *.
  assert (Hp : Shared.preHeatingTime c <= Shared.wakeupTime c)
    by (unfold ascending in Ha; lia).
  destruct (Z.le_gt_cases (Shared.wakeupTime c) (userNow + 43200000)) as [Hw|Hw].
  - rewrite (adjustCycle_unmoved tz userNow c Ha Hw).
    destruct (stage_outside c (userNow + 86400000) Ha) as [O1 O2]; [lia|].
    rewrite O1, O2.
    destruct (Part000.currentSleepStage c userNow), (Route.currentSleepStage c userNow);
      split; reflexivity.
  - destruct (Z.lt_ge_cases (userNow + 43200000) (Shared.preHeatingTime c)) as [Hq|Hq].
    + rewrite (adjustCycle_moved_back tz userNow c Ha Hq).
      destruct (stage_outside c userNow Ha) as [O1 O2]; [lia|].
      rewrite O1, O2.
      destruct (stage_shift (- Js.msPerDay) c (userNow + 86400000)) as [S1 S2].
      unfold Js.msPerDay in S1, S2.
      replace (userNow + 86400000 + - (86400000)) with userNow in S1, S2 by lia.
      unfold Js.msPerDay. split; assumption.
    + destruct (adjustCycle_mixed_outside tz userNow c Ha) as [M1 M2]; [lia|lia|].
      destruct (stage_outside c userNow Ha) as [O1 O2]; [lia|].
      destruct (stage_outside c (userNow + 86400000) Ha) as [P1 P2]; [lia|].
      rewrite M1, M2, O1, O2, P1, P2. split; reflexivity.
Qed.

Lemma stage_after_normalisation_witness :
  let c := {| Shared.preHeatingTime := Sim.at_ 100 21 0;
              Shared.bedTime := Sim.at_ 100 22 0;
              Shared.midStageTime := Sim.at_ 100 23 0;
              Shared.finalStageTime := Sim.at_ 101 4 0;
              Shared.warmingTime := Sim.at_ 101 5 30;
              Shared.wakeupTime := Sim.at_ 101 6 0 |} in
  let userNow := Sim.at_ 100 2 0 in
  Part000.currentSleepStage (Shared.adjustCycle 0 userNow c) userNow =
    match Part000.currentSleepStage c userNow with
    | OutsideSleepCycle => Part000.currentSleepStage c (userNow + Js.msPerDay)
    | stage => stage
    end
  /\ Route.currentSleepStage (Shared.adjustCycle 0 userNow c) userNow =
    match Route.currentSleepStage c userNow with
    | OutsideSleepCycle => Route.currentSleepStage c (userNow + Js.msPerDay)
    | stage => stage
    end.
Proof.
  cbv zeta.
  refine (stage_after_normalisation 0 (Sim.at_ 100 2 0)
            {| Shared.preHeatingTime := Sim.at_ 100 21 0;
               Shared.bedTime := Sim.at_ 100 22 0;
               Shared.midStageTime := Sim.at_ 100 23 0;
               Shared.finalStageTime := Sim.at_ 101 4 0;
               Shared.warmingTime := Sim.at_ 101 5 30;
               Shared.wakeupTime := Sim.at_ 101 6 0 |} _ _).
  - unfold ascending. vm_compute. repeat split; congruence.
  - vm_compute. congruence.
Defined.

(** At 02:00 that is the mid stage of the cycle begun the evening before. *)
Example stage_at_02_00 :
  exists c,
    Part000.createSleepCycle 0 (Sim.at_ 100 2 0) "22:00" "06:00" = Ok c
    /\ Part000.currentSleepStage (Shared.adjustCycle 0 (Sim.at_ 100 2 0) c) (Sim.at_ 100 2 0)
       = Mid.
Proof.
  eexists. split; [vm_compute; reflexivity|].
  vm_compute. reflexivity.
Qed.

(** ** The window-based controller of the second sibling copy *)

Ltac open_cycle5 c :=
  destruct c as [pre bed mid fin wake];
  cbn [Part001.preHeatingTime Part001.bedTime Part001.midStageTime
       Part001.finalStageTime Part001.wakeupTime] in *.

(** What the chain of the second sibling copy answers, window by window. *)
Lemma Part001_target_cases (userTemp : Db.TemperatureProfileRow)
    (c : Part001.SleepCycle) (x : Z) :
  let w1 := Part001.preHeatingTime c <= x < Part001.bedTime c in
  let w2 := Part001.bedTime c <= x < Part001.midStageTime c in
  let w3 := Part001.midStageTime c <= x < Part001.finalStageTime c in
  let w4 := Part001.finalStageTime c <= x < Part001.wakeupTime c in
  (Part001.target userTemp c x = Some (Db.initialSleepLevel userTemp, PreHeating) /\ w1)
  \/ (Part001.target userTemp c x = Some (Db.initialSleepLevel userTemp, Initial)
      /\ ~ w1 /\ w2)
  \/ (Part001.target userTemp c x = Some (Db.midStageSleepLevel userTemp, Mid)
      /\ ~ w1 /\ ~ w2 /\ w3)
  \/ (Part001.target userTemp c x = Some (Db.finalSleepLevel userTemp, Final)
      /\ ~ w1 /\ ~ w2 /\ ~ w3 /\ w4)
  \/ (Part001.target userTemp c x = None /\ ~ w1 /\ ~ w2 /\ ~ w3 /\ ~ w4).
Proof.
  cbv zeta. unfold Part001.target. open_cycle5 c. rewrite !Z.geb_leb.
  destruct (Z.leb_spec pre x), (Z.ltb_spec x bed); cbn [andb];
    [left; (split; [reflexivity | lia]) | | |];
    (destruct (Z.leb_spec bed x), (Z.ltb_spec x mid); cbn [andb];
     [right; left; (split; [reflexivity | lia]) | | |]);
    (destruct (Z.leb_spec mid x), (Z.ltb_spec x fin); cbn [andb];
     [right; right; left; (split; [reflexivity | lia]) | | |]);
    (destruct (Z.leb_spec fin x), (Z.ltb_spec x wake); cbn [andb];
     [right; right; right; left; (split; [reflexivity | lia]) | | |]);
    right; right; right; right; (split; [reflexivity | lia]).
Qed.

(** X4: with ordered boundaries the second sibling copy resolves the
    target by half-open window membership -- the initial level in
    [preHeatingTime, midStageTime), the mid level in [midStageTime,
    finalStageTime), the final level in [finalStageTime, wakeupTime) --
    and the target is null exactly outside [preHeatingTime, wakeupTime). *)
Theorem Part001_target_by_window (userTemp : Db.TemperatureProfileRow)
    (c : Part001.SleepCycle) (x : Z) :
  ascending5 c ->
  (Part001.target userTemp c x = None
     <-> ~ (Part001.preHeatingTime c <= x < Part001.wakeupTime c))
  /\ (Part001.preHeatingTime c <= x < Part001.bedTime c ->
      Part001.target userTemp c x = Some (Db.initialSleepLevel userTemp, PreHeating))
  /\ (Part001.bedTime c <= x < Part001.midStageTime c ->
      Part001.target userTemp c x = Some (Db.initialSleepLevel userTemp, Initial))
  /\ (Part001.midStageTime c <= x < Part001.finalStageTime c ->
      Part001.target userTemp c x = Some (Db.midStageSleepLevel userTemp, Mid))
  /\ (Part001.finalStageTime c <= x < Part001.wakeupTime c ->
      Part001.target userTemp c x = Some (Db.finalSleepLevel userTemp, Final)).
Proof.
  unfold ascending5. intros H.
  pose proof (Part001_target_cases userTemp c x) as A. cbv zeta in A.
  destruct A as [[E A]|[[E A]|[[E A]|[[E A]|[E A]]]]]; rewrite E;
    repeat split; intros; try discriminate; try reflexivity; try (exfalso; lia); lia.
Qed.

Lemma Part001_target_by_window_witness :
  let c := {| Part001.preHeatingTime := Sim.at_ 100 19 0;
              Part001.bedTime := Sim.at_ 100 22 0;
              Part001.midStageTime := Sim.at_ 100 23 0;
              Part001.finalStageTime := Sim.at_ 101 4 0;
              Part001.wakeupTime := Sim.at_ 101 6 0 |} in
  Part001.target (Db.userTemperatureProfiles Sim.nightly) c (Sim.at_ 100 23 30)
  = Some (-20, Mid).
Proof.
  cbv zeta.
  refine (proj1 (proj2 (proj2 (proj2
    (Part001_target_by_window (Db.userTemperatureProfiles Sim.nightly)
       {| Part001.preHeatingTime := Sim.at_ 100 19 0;
          Part001.bedTime := Sim.at_ 100 22 0;
          Part001.midStageTime := Sim.at_ 100 23 0;
          Part001.finalStageTime := Sim.at_ 101 4 0;
          Part001.wakeupTime := Sim.at_ 101 6 0 |} (Sim.at_ 100 23 30) _)))) _).
  - unfold ascending5. vm_compute. repeat split; congruence.
  - vm_compute. split; congruence.
Defined.

Lemma Part001_target_shift (userTemp : Db.TemperatureProfileRow) (d : Z)
    (c : Part001.SleepCycle) (x : Z) :
  Part001.target userTemp (shiftCycle5 d c) (x + d) = Part001.target userTemp c x.
Proof.
  unfold Part001.target, shiftCycle5. open_cycle5 c. rewrite !Z.geb_leb.
  assert (L : forall a b, (a + d <=? b + d) = (a <=? b))
    by (intros a b; destruct (Z.leb_spec (a + d) (b + d)), (Z.leb_spec a b); lia).
  assert (T : forall a b, (a + d <? b + d) = (a <? b))
    by (intros a b; destruct (Z.ltb_spec (a + d) (b + d)), (Z.ltb_spec a b); lia).
  rewrite !L, !T. reflexivity.
Qed.

Lemma Part001_target_outside (userTemp : Db.TemperatureProfileRow)
    (c : Part001.SleepCycle) (x : Z) :
  ascending5 c ->
  x < Part001.preHeatingTime c \/ Part001.wakeupTime c <= x ->
  Part001.target userTemp c x = None.
Proof.
  unfold ascending5. intros H Hx.
  pose proof (Part001_target_cases userTemp c x) as A. cbv zeta in A.
  destruct A as [[E A]|[[E A]|[[E A]|[[E A]|[E A]]]]]; try exact E; exfalso; lia.
Qed.

Lemma Part001_adjustCycle_unmoved (tz userNow : Z) (c : Part001.SleepCycle) :
  ascending5 c ->
  Part001.wakeupTime c <= userNow + 43200000 ->
  Part001.adjustCycle tz userNow c = c.
Proof.
  unfold ascending5, Part001.adjustCycle. open_cycle5 c. intros H Hw.
  rewrite !adjust_from_start by lia.
  repeat match goal with
  | |- context [?a <=? ?b] => destruct (Z.leb_spec a b); [|lia]
  end.
  reflexivity.
Qed.

Lemma Part001_adjustCycle_moved_back (tz userNow : Z) (c : Part001.SleepCycle) :
  ascending5 c ->
  userNow + 43200000 < Part001.preHeatingTime c ->
  Part001.adjustCycle tz userNow c = shiftCycle5 (- (86400000)) c.
Proof.
  unfold ascending5, Part001.adjustCycle, shiftCycle5. open_cycle5 c. intros H Hw.
  rewrite !adjust_from_start by lia.
  repeat match goal with
  | |- context [?a <=? ?b] => destruct (Z.leb_spec a b); [lia|]
  end.
  reflexivity.
Qed.

Lemma Part001_adjustCycle_mixed_outside (userTemp : Db.TemperatureProfileRow)
    (tz userNow : Z) (c : Part001.SleepCycle) :
  ascending5 c ->
  Part001.preHeatingTime c <= userNow + 43200000 < Part001.wakeupTime c ->
  Part001.wakeupTime c - Part001.preHeatingTime c <= 43200000 ->
  Part001.target userTemp (Part001.adjustCycle tz userNow c) userNow = None.
Proof.
  unfold ascending5. intros H Hm Hlen.
  pose proof (Part001_target_cases userTemp (Part001.adjustCycle tz userNow c) userNow) as A.
  cbv zeta in A. unfold Part001.adjustCycle in *. open_cycle5 c.
  rewrite !adjust_from_start in A by lia.
  rewrite !adjust_from_start by lia.
  destruct A as [[E A]|[[E A]|[[E A]|[[E A]|[E A]]]]]; try exact E;
    exfalso; clear E; revert A; split_tests; lia.
Qed.

(** X5: for a cycle with ordered boundaries lasting at most 12 hours
    from pre-heating to wake-up, the target the second sibling copy
    resolves after normalisation is, for every reference instant, the
    target of that instant in the cycle as anchored, or else the target of
    the same clock time a day later: past midnight the levels of the cycle
    begun the evening before keep applying, and the target is null only
    when the instant is in neither. *)
Theorem Part001_target_after_normalisation (userTemp : Db.TemperatureProfileRow)
    (tz userNow : Z) (c : Part001.SleepCycle) :
  ascending5 c ->
  Part001.wakeupTime c - Part001.preHeatingTime c <= 12 * Js.msPerHour ->
  Part001.target userTemp (Part001.adjustCycle tz userNow c) userNow =
  match Part001.target userTemp c userNow with
  | Some t => Some t
  | None => Part001.target userTemp c (userNow + Js.msPerDay)
  end.
Proof.
  intros Ha Hlen. unfold Js.msPerHour, Js.msPerDay in *.
  assert (Hp : Part001.preHeatingTime c <= Part001.wakeupTime c)
    by (unfold ascending5 in Ha; lia).
  destruct (Z.le_gt_cases (Part001.wakeupTime c) (userNow + 43200000)) as [Hw|Hw].
  - rewrite (Part001_adjustCycle_unmoved tz userNow c Ha Hw).
    rewrite (Part001_target_outside userTemp c (userNow + 86400000) Ha) by lia.
    destruct (Part001.target userTemp c userNow); reflexivity.
  - destruct (Z.lt_ge_cases (userNow + 43200000) (Part001.preHeatingTime c)) as [Hq|Hq].
    + rewrite (Part001_adjustCycle_moved_back tz userNow c Ha Hq).
      rewrite (Part001_target_outside userTemp c userNow Ha) by lia.
      pose proof (Part001_target_shift userTemp (- (86400000)) c (userNow + 86400000)) as S.
      replace (userNow + 86400000 + - (86400000)) with userNow in S by lia.
      exact S.
    + rewrite (Part001_adjustCycle_mixed_outside userTemp tz userNow c Ha) by lia.
      rewrite (Part001_target_outside userTemp c userNow Ha) by lia.
      rewrite (Part001_target_outside userTemp c (userNow + 86400000) Ha) by lia.
      reflexivity.
Qed.

Lemma Part001_target_after_normalisation_witness :
  let c := {| Part001.preHeatingTime := Sim.at_ 100 19 0;
              Part001.bedTime := Sim.at_ 100 22 0;
              Part001.midStageTime := Sim.at_ 100 23 0;
              Part001.finalStageTime := Sim.at_ 101 4 0;
              Part001.wakeupTime := Sim.at_ 101 6 0 |} in
  let userTemp := Db.userTemperatureProfiles Sim.nightly in
  Part001.target userTemp (Part001.adjustCycle 0 (Sim.at_ 100 2 0) c) (Sim.at_ 100 2 0) =
  match Part001.target userTemp c (Sim.at_ 100 2 0) with
  | Some t => Some t
  | None => Part001.target userTemp c (Sim.at_ 100 2 0 + Js.msPerDay)
  end.
Proof.
  cbv zeta.
  refine (Part001_target_after_normalisation (Db.userTemperatureProfiles Sim.nightly)
            0 (Sim.at_ 100 2 0)
            {| Part001.preHeatingTime := Sim.at_ 100 19 0;
               Part001.bedTime := Sim.at_ 100 22 0;
               Part001.midStageTime := Sim.at_ 100 23 0;
               Part001.finalStageTime := Sim.at_ 101 4 0;
               Part001.wakeupTime := Sim.at_ 101 6 0 |} _ _).
  - unfold ascending5. vm_compute. repeat split; congruence.
  - vm_compute. congruence.
Defined.

(** ** The third sibling copy, which does not normalise *)

Section Part002Cycle.
Variables tz baseDate hb mb hw mw : Z.
Hypothesis Hhb : 0 <= hb <= 23.
Hypothesis Hmb : 0 <= mb <= 59.
Hypothesis Hhw : 0 <= hw <= 23.
Hypothesis Hmw : 0 <= mw <= 59.

(** The cycle of the third sibling copy, in closed form. *)
Lemma Part002_createSleepCycle_clock :
  let bed := Js.setHours4 tz baseDate hb mb 0 0 in
  let wake0 := Js.setHours4 tz baseDate hw mw 0 0 in
  let wake := if wake0 <=? bed then wake0 + 86400000 else wake0 in
  Part002.createSleepCycle tz baseDate (clock hb mb) (clock hw mw) =
  {| Part002.preHeatingTime := Some (bed - 10800000);
     Part002.bedTime := Some bed;
     Part002.midStageTime := Some (bed + 3600000);
     Part002.finalStageTime := Some (wake - 7200000);
     Part002.wakeupTime := Some wake |}.
Proof.
  cbv zeta. unfold Part002.createSleepCycle.
  rewrite !Part002_createDateWithTime_clock by lia.
  cbn [option_map Part002.leDates]. rewrite setHours1_shift.
  unfold Js.msPerHour.
  destruct (Js.setHours4 tz baseDate hw mw 0 0 <=? Js.setHours4 tz baseDate hb mb 0 0);
    cbn [option_map]; rewrite ?addDays_shift; unfold Js.msPerDay;
    repeat f_equal; lia.
Qed.
End Part002Cycle.

(** X6: the third sibling copy anchors the cycle on the current date
    and never moves it.  For an overnight profile (wake-up clock time not
    after the bedtime clock time), at every instant of the day earlier
    than three hours before bedtime -- in particular from midnight to
    wake-up -- the target is null and the instant is not after the
    wake-up boundary, so nothing is sent to the bed: neither a level of
    the running night nor the power-off after wake-up. *)
Theorem Part002_idle_before_pre_heating {Env : Type} (io : Collab Env)
    (testMode : option TestMode) (token : Token) (userId : string)
    (userTemp : Db.TemperatureProfileRow) (tz userNow hb mb hw mw : Z) :
  0 <= hb <= 23 -> 0 <= mb <= 59 -> 0 <= hw <= 23 -> 0 <= mw <= 59 ->
  hw * 60 + mw <= hb * 60 + mb ->
  Js.TimeWithinDay (Js.LocalTime tz userNow)
    < hb * Js.msPerHour + mb * Js.msPerMinute - 3 * Js.msPerHour ->
  let cycle := Part002.createSleepCycle tz userNow (clock hb mb) (clock hw mw) in
  Part002.target userTemp cycle userNow = None
  /\ Part002.gtDate userNow (Part002.wakeupTime cycle) = false
  /\ forall w, Part002.actuate io testMode token userId userTemp cycle userNow w = (Ok tt, w).
Proof.
  intros Hhb Hmb Hhw Hmw Hnight Hearly. cbv zeta.
  assert (T : Part002.target userTemp
                (Part002.createSleepCycle tz userNow (clock hb mb) (clock hw mw)) userNow
              = None
              /\ Part002.gtDate userNow
                   (Part002.wakeupTime
                      (Part002.createSleepCycle tz userNow (clock hb mb) (clock hw mw)))
                 = false).
  { rewrite Part002_createSleepCycle_clock by assumption. cbv zeta.
    unfold Part002.target, Part002.geDate, Part002.ltDate, Part002.gtDate.
    cbn [Part002.preHeatingTime Part002.bedTime Part002.midStageTime
         Part002.finalStageTime Part002.wakeupTime].
    unfold Js.setHours4, Js.UTC, Js.MakeDate, Js.MakeTime, Js.Day.
    revert Hearly.
    unfold Js.TimeWithinDay, Js.LocalTime, Js.msPerDay, Js.msPerHour, Js.msPerMinute.
    pose proof (Z.div_mod (userNow + tz) 86400000) as E.
    pose proof (Z.mod_pos_bound (userNow + tz) 86400000) as B.
    set (q := (userNow + tz) / 86400000) in *.
    set (r := (userNow + tz) mod 86400000) in *.
    intros Hearly.
    assert (N : userNow = 86400000 * q + r - tz) by lia.
    clearbody q r. subst userNow. clear E.
    split_tests; try lia; split; try reflexivity; lia. }
  destruct T as [T1 T2]. split; [exact T1|]. split; [exact T2|].
  intros w. unfold Part002.actuate. rewrite T1, T2. reflexivity.
Qed.

Lemma Part002_idle_before_pre_heating_witness :
  let cycle := Part002.createSleepCycle 0 (Sim.at_ 100 2 0) (clock 22 0) (clock 6 0) in
  Part002.target (Db.userTemperatureProfiles Sim.nightly) cycle (Sim.at_ 100 2 0) = None
  /\ Part002.gtDate (Sim.at_ 100 2 0) (Part002.wakeupTime cycle) = false
  /\ forall w,
       Part002.actuate Sim.io None Sim.token "u1" (Db.userTemperatureProfiles Sim.nightly)
         cycle (Sim.at_ 100 2 0) w = (Ok tt, w).
Proof.
  refine (Part002_idle_before_pre_heating Sim.io None Sim.token "u1"
            (Db.userTemperatureProfiles Sim.nightly) 0 (Sim.at_ 100 2 0) 22 0 6 0
            _ _ _ _ _ _); try lia.
  vm_compute. reflexivity.
Defined.

(** ** What a run sends, event by event *)

Section Emits.
Context {Env : Type}.
Variable P : Event -> Prop.

Lemma emits_ret {A} (a : A) : emits P (ret a : M Env A).
Proof. intros w. exists []. rewrite app_nil_r. split; [reflexivity | constructor]. Qed.

Lemma emits_throw {A} (e : Err) : emits P (throw e : M Env A).
Proof. intros w. exists []. rewrite app_nil_r. split; [reflexivity | constructor]. Qed.

Lemma emits_lift {A} (r : result A) : emits P (lift r : M Env A).
Proof. intros w. exists []. rewrite app_nil_r. split; [reflexivity | constructor]. Qed.

Lemma emits_perform {A} (ev : Event) (h : Env -> result A * Env) :
  P ev -> emits P (perform ev h).
Proof.
  intros Hev w. exists [ev]. unfold perform.
  destruct (h (env w)) as [r e']. split; [reflexivity | repeat constructor; exact Hev].
Qed.

Lemma emits_sleep (ms : Z) : P (SetTimeout ms) -> emits P (sleep ms : M Env unit).
Proof.
  intros Hev w. exists [SetTimeout ms]. split; [reflexivity | repeat constructor; exact Hev].
Qed.

Lemma emits_bind {A B} (m : M Env A) (k : A -> M Env B) :
  emits P m -> (forall a, emits P (k a)) -> emits P (bind m k).
Proof.
  intros Hm Hk w. unfold bind. destruct (Hm w) as (evs & E & F).
  destruct (m w) as [[a|e] w']; cbn [snd] in E.
  - destruct (Hk a w') as (evs' & E' & F'). exists (evs ++ evs').
    rewrite E', E, app_assoc. split; [reflexivity | apply Forall_app; split; assumption].
  - exists evs. split; assumption.
Qed.

Lemma emits_tryCatch {A} (body : M Env A) (handler : Err -> M Env A) :
  emits P body -> (forall e, emits P (handler e)) -> emits P (tryCatch body handler).
Proof.
  intros Hm Hk w. unfold tryCatch. destruct (Hm w) as (evs & E & F).
  destruct (body w) as [[a|e] w']; cbn [snd] in E.
  - exists evs. split; assumption.
  - destruct (Hk e w') as (evs' & E' & F'). exists (evs ++ evs').
    rewrite E', E, app_assoc. split; [reflexivity | apply Forall_app; split; assumption].
Qed.

Lemma emits_when (b : bool) (m : M Env unit) : emits P m -> emits P (when b m).
Proof. intros H. destruct b; [exact H | apply emits_ret]. Qed.

Lemma emits_if {A} (b : bool) (m1 m2 : M Env A) :
  emits P m1 -> emits P m2 -> emits P (if b then m1 else m2).
Proof. intros H1 H2. destruct b; assumption. Qed.

Lemma emits_retryApiCall {A} (apiCall : M Env A) :
  P (SetTimeout 1000) -> P (SetTimeout 2000) ->
  emits P apiCall -> emits P (Shared.retryApiCall apiCall).
Proof.
  intros H1 H2 Ha. rewrite retryApiCall_unfold.
  apply emits_tryCatch; [exact Ha|]. intros _.
  apply emits_bind; [apply emits_sleep; exact H1|]. intros _.
  apply emits_tryCatch; [exact Ha|]. intros _.
  apply emits_bind; [apply emits_sleep; exact H2|]. intros _.
  apply emits_tryCatch; [exact Ha|]. intros e. apply emits_throw.
Qed.

Lemma emits_nowOf (io : Collab Env) (testMode : option TestMode) :
  emits P (Shared.nowOf io testMode).
Proof.
  assert (N : emits P (Shared.newDate io)).
  { intros w. exists []. rewrite app_nil_r. split; [reflexivity | constructor]. }
  unfold Shared.nowOf. destruct testMode as [t|]; [|exact N].
  destruct (enabled t); [apply emits_ret | exact N].
Qed.

Lemma emits_issued {A} (m : M Env A) (w : World Env) :
  emits P m -> Forall P (issued m w).
Proof.
  intros H. destruct (H w) as (evs & E & F). rewrite (issued_app m w evs E). exact F.
Qed.
End Emits.

Lemma emits_weaken {Env A} (P Q : Event -> Prop) (m : M Env A) :
  (forall ev, P ev -> Q ev) -> emits P m -> emits Q m.
Proof.
  intros H Hm w. destruct (Hm w) as (evs & E & F). exists evs. split; [exact E|].
  eapply Forall_impl; [exact H | exact F].
Qed.

(** The pattern of a run: the fetch, then the loop over what it returned. *)
Lemma run_trace {Env : Type} (io : Collab Env) (P : Db.ProfileRow -> Event -> Prop)
    (forEach : list Db.ProfileRow -> M Env unit) (run : M Env unit) :
  (forall w,
      snd (run w) =
      match co_select io (env w) with
      | (Ok profiles, s) => snd (forEach profiles (mkWorld s (trace w ++ [DbSelectProfiles])))
      | (Throw _, s) => mkWorld s (trace w ++ [DbSelectProfiles])
      end) ->
  (forall profiles, emits (fun ev => exists p, In p profiles /\ P p ev) (forEach profiles)) ->
  forall w, exists evs,
    issued run w = DbSelectProfiles :: evs
    /\ Forall (fun ev => exists p, In p (fetched io w) /\ P p ev) evs.
Proof.
  intros Hrun Hloop w. unfold fetched.
  assert (E : exists evs,
             trace (snd (run w)) = trace w ++ DbSelectProfiles :: evs
             /\ Forall (fun ev => exists p,
                          In p (match fst (co_select io (env w)) with
                                | Ok profiles => profiles
                                | Throw _ => []
                                end) /\ P p ev) evs).
  { rewrite Hrun. destruct (co_select io (env w)) as [[ps|e] s]; cbn [fst].
    - destruct (Hloop ps (mkWorld s (trace w ++ [DbSelectProfiles]))) as (evs & E & F).
      exists evs. rewrite E. cbn [trace]. rewrite <- app_assoc. split; [reflexivity|exact F].
    - exists []. split; [reflexivity | constructor]. }
  destruct E as (evs & E & F). exists evs. split; [|exact F].
  apply issued_app. exact E.
Qed.

(** The loop sends what its rows send. *)
Lemma forEach_events {Env : Type} (P : Db.ProfileRow -> Event -> Prop)
    (process : Db.ProfileRow -> M Env unit)
    (forEach : list Db.ProfileRow -> M Env unit) :
  forEach [] = ret tt ->
  (forall p rest,
      forEach (p :: rest) = (tryCatch (process p) (fun _ => ret tt) ;; forEach rest)) ->
  (forall p, emits (P p) (process p)) ->
  forall profiles, emits (fun ev => exists p, In p profiles /\ P p ev) (forEach profiles).
Proof.
  intros Hnil Hcons Hp profiles.
  induction profiles as [|p ps IH]; [rewrite Hnil; apply emits_ret|].
  rewrite Hcons. apply emits_bind.
  - apply emits_tryCatch.
    + eapply emits_weaken; [|apply Hp]. intros ev H. exists p. split; [left; reflexivity|exact H].
    + intros _. apply emits_ret.
  - intros _. eapply emits_weaken; [|exact IH].
    intros ev (q & Hq & H). exists q. split; [right; exact Hq | exact H].
Qed.

(** The levels a target can be. *)
Lemma Part000_target_level (userTemp : Db.TemperatureProfileRow) (c : Shared.SleepCycle)
    (x level : Z) (stage : StageTag) :
  Part000.target userTemp c x = Some (level, stage) ->
  level = Db.initialSleepLevel userTemp \/ level = Db.midStageSleepLevel userTemp
  \/ level = Db.finalSleepLevel userTemp \/ Some level = Some 2.
Proof.
  unfold Part000.target.
  repeat match goal with
  | |- context [if ?b then _ else _] => destruct b
  end; intros E; inversion E; tauto.
Qed.

Lemma Route_target_level (userTemp : Db.TemperatureProfileRow) (c : Shared.SleepCycle)
    (x level : Z) (stage : StageTag) :
  Route.target userTemp c x = Some (level, stage) ->
  level = Db.initialSleepLevel userTemp \/ level = Db.midStageSleepLevel userTemp
  \/ level = Db.finalSleepLevel userTemp \/ Some level = Some 10.
Proof.
  unfold Route.target.
  destruct (Route.nearSomeBoundary c x); [|discriminate].
  destruct (Shared.isWithinTimeRange x (Shared.warmingTime c) 15);
    destruct (Route.currentSleepStage c x); cbn [orb];
    intros E; inversion E; tauto.
Qed.

Lemma Part001_target_level (userTemp : Db.TemperatureProfileRow) (c : Part001.SleepCycle)
    (x level : Z) (stage : StageTag) :
  Part001.target userTemp c x = Some (level, stage) ->
  level = Db.initialSleepLevel userTemp \/ level = Db.midStageSleepLevel userTemp
  \/ level = Db.finalSleepLevel userTemp \/ Some level = None.
Proof.
  unfold Part001.target.
  repeat match goal with
  | |- context [if ?b then _ else _] => destruct b
  end; intros E; inversion E; tauto.
Qed.

Lemma Part002_target_level (userTemp : Db.TemperatureProfileRow) (c : Part002.SleepCycle)
    (x level : Z) :
  Part002.target userTemp c x = Some level ->
  level = Db.initialSleepLevel userTemp \/ level = Db.midStageSleepLevel userTemp
  \/ level = Db.finalSleepLevel userTemp \/ Some level = None.
Proof.
  unfold Part002.target.
  repeat match goal with
  | |- context [if ?b then _ else _] => destruct b
  end; intros E; inversion E; tauto.
Qed.

(** Walks a computation built from the monad's operations, leaving the
    events of the collaborator calls to be checked. *)
Ltac emits_walk :=
  repeat first
    [ apply emits_ret
    | apply emits_throw
    | apply emits_lift
    | apply emits_nowOf
    | apply emits_when
    | apply emits_retryApiCall
    | apply emits_perform
    | apply emits_sleep
    | apply emits_bind; [|intros ?]
    | apply emits_tryCatch; [|intros ?]
    | apply emits_if ].

Section RowEvents.
Context {Env : Type} (io : Collab Env).
Variables (testMode : option TestMode) (profile : Db.ProfileRow).

Lemma Part000_processProfile_events :
  emits (rowEvent (Some 2) true true profile) (Part000.processProfile io testMode profile).
Proof.
  unfold Part000.processProfile, Shared.userLocal.
  apply emits_bind; [apply emits_nowOf|]. intros now.
  apply emits_bind.
  { apply emits_if; [|apply emits_ret].
    unfold Shared.obtainFreshAccessToken, Shared.dbUpdateUser.
    emits_walk; cbn; tauto. }
  intros token.
  apply emits_bind; [apply emits_lift|]. intros userNow.
  apply emits_bind; [apply emits_lift|]. intros sleepCycle.
  apply emits_bind.
  { apply emits_if; [apply emits_ret|].
    unfold Shared.getCurrentHeatingStatus. emits_walk; cbn; tauto. }
  intros heatingStatus. unfold Part000.actuate.
  destruct (Part000.target _ _ _) as [[level stage]|] eqn:E.
  - pose proof (Part000_target_level _ _ _ _ _ E) as L.
    unfold Shared.turnOnSide, Shared.setHeatingLevel. emits_walk; cbn; tauto.
  - unfold Shared.turnOffSide. emits_walk; cbn; tauto.
Qed.

Lemma Route_processProfile_events :
  emits (rowEvent (Some 10) false true profile) (Route.processProfile io testMode profile).
Proof.
  unfold Route.processProfile, Shared.userLocal.
  apply emits_bind; [apply emits_nowOf|]. intros now.
  apply emits_bind; [apply emits_lift|]. intros userNow.
  apply emits_bind; [apply emits_lift|]. intros sleepCycle.
  unfold Route.actuate.
  destruct (Route.target _ _ _) as [[level stage]|] eqn:E.
  - pose proof (Route_target_level _ _ _ _ _ E) as L.
    unfold Shared.turnOnSide, Shared.setHeatingLevel, Shared.getCurrentHeatingStatus.
    emits_walk; cbn; tauto.
  - unfold Shared.turnOffSide. emits_walk; cbn; tauto.
Qed.

Lemma Part001_processProfile_events :
  emits (rowEvent None false true profile) (Part001.processProfile io testMode profile).
Proof.
  unfold Part001.processProfile, Shared.userLocal.
  apply emits_bind; [apply emits_nowOf|]. intros now.
  apply emits_bind; [apply emits_lift|]. intros userNow.
  apply emits_bind; [apply emits_lift|]. intros sleepCycle.
  apply emits_bind.
  { apply emits_if; [apply emits_ret|].
    unfold Shared.getCurrentHeatingStatus. emits_walk; cbn; tauto. }
  intros heatingStatus. unfold Part001.actuate.
  destruct (Part001.target _ _ _) as [[level stage]|] eqn:E.
  - pose proof (Part001_target_level _ _ _ _ _ E) as L.
    unfold Shared.turnOnSide, Shared.setHeatingLevel. emits_walk; cbn; tauto.
  - unfold Shared.turnOffSide. emits_walk; cbn; tauto.
Qed.

Lemma Part002_processProfile_events :
  emits (rowEvent None true false profile) (Part002.processProfile io testMode profile).
Proof.
  unfold Part002.processProfile, Shared.userLocal.
  apply emits_bind; [apply emits_nowOf|]. intros now.
  apply emits_bind; [apply emits_lift|]. intros userNow.
  apply emits_bind.
  { apply emits_if; [|apply emits_ret].
    unfold Shared.obtainFreshAccessToken, Shared.dbUpdateUser.
    emits_walk; cbn; tauto. }
  intros token. unfold Part002.actuate.
  destruct (Part002.target _ _ _) as [level|] eqn:E.
  - pose proof (Part002_target_level _ _ _ _ E) as L.
    unfold Shared.turnOnSide, Shared.setHeatingLevel. emits_walk; cbn; tauto.
  - unfold Shared.turnOffSide. emits_walk; cbn; tauto.
Qed.
End RowEvents.

Section RunEvents.
Context {Env : Type} (io : Collab Env).
Variable testMode : option TestMode.

(** X7: a run of the first sibling copy begins with the profile fetch,
    fetches once, and every later event belongs to one of the fetched
    rows: a credential refresh
    with that row's refresh token and user id, a write-back to that row's
    email, a status read, a device write addressed to that row's user id
    -- a set-level carrying one of the row's three levels or the spike
    level 2 --, or a back-off wait of 1000 or 2000 ms.  When the fetch
    fails or returns no row, the fetch is the only event. *)
Theorem Part000_run_events (w : World Env) :
  exists evs,
    issued (Part000.adjustTemperature io testMode) w = DbSelectProfiles :: evs
    /\ Forall (fun ev => exists p, In p (fetched io w) /\ rowEvent (Some 2) true true p ev) evs.
Proof.
  apply (run_trace io (rowEvent (Some 2) true true)
           (Part000.forEachProfile io testMode)).
  - intros w0. unfold Part000.adjustTemperature, tryCatch, bind, Shared.dbSelectProfiles,
      perform, throw.
    destruct (co_select io (env w0)) as [[ps|e] s]; [|reflexivity].
    destruct (Part000.forEachProfile io testMode ps _) as [[u|e] w1]; reflexivity.
  - intros ps.
    exact (forEach_events (rowEvent (Some 2) true true) (Part000.processProfile io testMode)
             (Part000.forEachProfile io testMode) eq_refl (fun _ _ => eq_refl)
             (fun p => Part000_processProfile_events io testMode p) ps).
Qed.

(** X8: a run of the route begins with the profile fetch, fetches
    once, and every later event belongs to one of the fetched rows: a
    status read, a device write
    addressed to that row's user id -- a set-level carrying one of the
    row's three levels or the spike level 10 --, or a back-off wait of
    1000 or 2000 ms.  The route never refreshes a credential and never
    writes to the database, whatever the expiry of the token. *)
Theorem Route_run_events (w : World Env) :
  exists evs,
    issued (Route.adjustTemperature io testMode) w = DbSelectProfiles :: evs
    /\ Forall (fun ev => exists p, In p (fetched io w) /\ rowEvent (Some 10) false true p ev) evs.
Proof.
  apply (run_trace io (rowEvent (Some 10) false true)
           (Route.forEachProfile io testMode)).
  - intros w0. unfold Route.adjustTemperature, tryCatch, bind, Shared.dbSelectProfiles,
      perform, ret.
    destruct (co_select io (env w0)) as [[ps|e] s]; [|reflexivity].
    destruct (Route.forEachProfile io testMode ps _) as [[u|e] w1]; reflexivity.
  - intros ps.
    exact (forEach_events (rowEvent (Some 10) false true) (Route.processProfile io testMode)
             (Route.forEachProfile io testMode) eq_refl (fun _ _ => eq_refl)
             (fun p => Route_processProfile_events io testMode p) ps).
Qed.

(** X9: a run of the second sibling copy begins with the profile
    fetch, fetches once, and every later event belongs to one of the
    fetched rows: a status read, a device
    write addressed to that row's user id -- a set-level carrying one of
    the row's three levels, there being no spike --, or a back-off wait of
    1000 or 2000 ms.  This copy never refreshes a credential and never
    writes to the database. *)
Theorem Part001_run_events (w : World Env) :
  exists evs,
    issued (Part001.adjustTemperature io testMode) w = DbSelectProfiles :: evs
    /\ Forall (fun ev => exists p, In p (fetched io w) /\ rowEvent None false true p ev) evs.
Proof.
  apply (run_trace io (rowEvent None false true)
           (Part001.forEachProfile io testMode)).
  - intros w0. unfold Part001.adjustTemperature, tryCatch, bind, Shared.dbSelectProfiles,
      perform, ret.
    destruct (co_select io (env w0)) as [[ps|e] s]; [|reflexivity].
    destruct (Part001.forEachProfile io testMode ps _) as [[u|e] w1]; reflexivity.
  - intros ps.
    exact (forEach_events (rowEvent None false true) (Part001.processProfile io testMode)
             (Part001.forEachProfile io testMode) eq_refl (fun _ _ => eq_refl)
             (fun p => Part001_processProfile_events io testMode p) ps).
Qed.

(** X10: a run of the third sibling copy begins with the profile
    fetch, fetches once, and every later event belongs to one of the
    fetched rows: a credential refresh
    with that row's refresh token and user id, a write-back to that row's
    email, a device write addressed to that row's user id -- a set-level
    carrying one of the row's three levels --, or a back-off wait of 1000
    or 2000 ms.  This copy never reads the device status. *)
Theorem Part002_run_events (w : World Env) :
  exists evs,
    issued (Part002.adjustTemperature io testMode) w = DbSelectProfiles :: evs
    /\ Forall (fun ev => exists p, In p (fetched io w) /\ rowEvent None true false p ev) evs.
Proof.
  apply (run_trace io (rowEvent None true false)
           (Part002.forEachProfile io testMode)).
  - intros w0. unfold Part002.adjustTemperature, bind, Shared.dbSelectProfiles, perform.
    destruct (co_select io (env w0)) as [[ps|e] s]; reflexivity.
  - intros ps.
    exact (forEach_events (rowEvent None true false) (Part002.processProfile io testMode)
             (Part002.forEachProfile io testMode) eq_refl (fun _ _ => eq_refl)
             (fun p => Part002_processProfile_events io testMode p) ps).
Qed.
End RunEvents.

(** On the simulated environment: the run of the third sibling copy at
    21:05 sends two writes and no status read. *)
Example Part002_run_has_no_status_read :
  existsb isDeviceCall
    (issued (Part002.adjustTemperature Sim.io None)
       (Sim.start Sim.off (Ok [Sim.nightly]) (Sim.at_ 100 21 5) []))
  = true
  /\ existsb (fun ev => match ev with GetCurrentHeatingStatus _ => true | _ => false end)
       (issued (Part002.adjustTemperature Sim.io None)
          (Sim.start Sim.off (Ok [Sim.nightly]) (Sim.at_ 100 21 5) []))
     = false.
Proof. vm_compute. split; reflexivity. Qed.

(** ** Test mode in the other copies *)

Section DryRuns.
Context {Env : Type} (io : Collab Env).
Variables (testTime : Z) (profile : Db.ProfileRow).

Lemma Route_processProfile_dry :
  emits (fun _ => False) (Route.processProfile io (dryRun testTime) profile).
Proof.
  unfold Route.processProfile, Shared.userLocal, dryRun.
  apply emits_bind; [apply emits_nowOf|]. intros now.
  apply emits_bind; [apply emits_lift|]. intros userNow.
  apply emits_bind; [apply emits_lift|]. intros sleepCycle.
  unfold Route.actuate. cbn [testEnabled enabled negb].
  destruct (Route.target _ _ _) as [[level stage]|]; cbn [when];
    emits_walk.
Qed.

Lemma Part001_processProfile_dry :
  emits (fun _ => False) (Part001.processProfile io (dryRun testTime) profile).
Proof.
  unfold Part001.processProfile, Shared.userLocal, dryRun.
  apply emits_bind; [apply emits_nowOf|]. intros now.
  apply emits_bind; [apply emits_lift|]. intros userNow.
  apply emits_bind; [apply emits_lift|]. intros sleepCycle.
  cbn [testEnabled enabled].
  apply emits_bind; [apply emits_ret|]. intros heatingStatus.
  unfold Part001.actuate. cbn [testEnabled enabled negb].
  destruct (Part001.target _ _ _) as [[level stage]|]; cbn [when];
    emits_walk.
Qed.

Lemma Part002_processProfile_dry :
  emits (fun _ => False) (Part002.processProfile io (dryRun testTime) profile).
Proof.
  unfold Part002.processProfile, Shared.userLocal, dryRun.
  apply emits_bind; [apply emits_nowOf|]. intros now.
  apply emits_bind; [apply emits_lift|]. intros userNow.
  cbn [testEnabled enabled negb andb].
  apply emits_bind; [apply emits_ret|]. intros token.
  unfold Part002.actuate. cbn [testEnabled enabled negb].
  destruct (Part002.target _ _ _) as [level|]; cbn [when];
    emits_walk.
Qed.
End DryRuns.

Lemma no_event_forall_false (P : Db.ProfileRow -> Prop) (evs : list Event) :
  Forall (fun _ : Event => exists p, P p /\ False) evs -> evs = [].
Proof.
  destruct evs as [|ev evs]; [reflexivity|].
  intros H. inversion H as [|? ? (p & _ & F) _]. destruct F.
Qed.

(** X11: with test mode enabled, the route and the second and third
    sibling copies make one collaborator call, the profile fetch, whatever
    the profiles, the expiry of the tokens and the behaviour of the
    collaborators: no status read, no device write, no credential refresh
    and no write-back. *)
Theorem test_mode_is_inert_in_the_other_copies {Env : Type} (io : Collab Env)
    (testTime : Z) (w : World Env) :
  issued (Route.adjustTemperature io (dryRun testTime)) w = [DbSelectProfiles]
  /\ issued (Part001.adjustTemperature io (dryRun testTime)) w = [DbSelectProfiles]
  /\ issued (Part002.adjustTemperature io (dryRun testTime)) w = [DbSelectProfiles].
Proof.
  split; [|split].
  - destruct (run_trace io (fun _ _ => False) (Route.forEachProfile io (dryRun testTime))
                (Route.adjustTemperature io (dryRun testTime))) with (w := w)
      as (evs & E & F).
    + intros w0. unfold Route.adjustTemperature, tryCatch, bind, Shared.dbSelectProfiles,
        perform, ret.
      destruct (co_select io (env w0)) as [[ps|e] s]; [|reflexivity].
      destruct (Route.forEachProfile io (dryRun testTime) ps _) as [[u|e] w1]; reflexivity.
    + exact (forEach_events (fun _ _ => False) (Route.processProfile io (dryRun testTime))
               (Route.forEachProfile io (dryRun testTime)) eq_refl (fun _ _ => eq_refl)
               (fun p => Route_processProfile_dry io testTime p)).
    + rewrite E. rewrite (no_event_forall_false _ evs F). reflexivity.
  - destruct (run_trace io (fun _ _ => False) (Part001.forEachProfile io (dryRun testTime))
                (Part001.adjustTemperature io (dryRun testTime))) with (w := w)
      as (evs & E & F).
    + intros w0. unfold Part001.adjustTemperature, tryCatch, bind, Shared.dbSelectProfiles,
        perform, ret.
      destruct (co_select io (env w0)) as [[ps|e] s]; [|reflexivity].
      destruct (Part001.forEachProfile io (dryRun testTime) ps _) as [[u|e] w1]; reflexivity.
    + exact (forEach_events (fun _ _ => False) (Part001.processProfile io (dryRun testTime))
               (Part001.forEachProfile io (dryRun testTime)) eq_refl (fun _ _ => eq_refl)
               (fun p => Part001_processProfile_dry io testTime p)).
    + rewrite E. rewrite (no_event_forall_false _ evs F). reflexivity.
  - destruct (run_trace io (fun _ _ => False) (Part002.forEachProfile io (dryRun testTime))
                (Part002.adjustTemperature io (dryRun testTime))) with (w := w)
      as (evs & E & F).
    + intros w0. unfold Part002.adjustTemperature, bind, Shared.dbSelectProfiles, perform.
      destruct (co_select io (env w0)) as [[ps|e] s]; reflexivity.
    + exact (forEach_events (fun _ _ => False) (Part002.processProfile io (dryRun testTime))
               (Part002.forEachProfile io (dryRun testTime)) eq_refl (fun _ _ => eq_refl)
               (fun p => Part002_processProfile_dry io testTime p)).
    + rewrite E. rewrite (no_event_forall_false _ evs F). reflexivity.
Qed.

(** ** The retry loop *)

(** X12: a collaborator call under [retryApiCall] is attempted one to
    three times, the attempts separated by waits of 1000 and then 2000 ms
    and nothing else; it stops at the first attempt that succeeds, and it
    rejects only after a third attempt, with the error of that attempt and
    no wait after it. *)
Theorem retryApiCall_envelope {Env A : Type} (ev : Event) (h : Env -> result A * Env)
    (w : World Env) :
  let r := Shared.retryApiCall (perform ev h) w in
  let evs := issued (Shared.retryApiCall (perform ev h)) w in
  (evs = [ev] /\ isOk (fst r) = true /\ fst r = fst (h (env w)))
  \/ (evs = [ev; SetTimeout 1000; ev] /\ isOk (fst r) = true
      /\ isOk (fst (h (env w))) = false)
  \/ (evs = [ev; SetTimeout 1000; ev; SetTimeout 2000; ev]
      /\ isOk (fst (h (env w))) = false
      /\ exists s1 s2, snd (h (env w)) = s1 /\ isOk (fst (h s1)) = false
                       /\ snd (h s1) = s2 /\ fst r = fst (h s2)).
Proof.
  cbv zeta. unfold issued. rewrite retryApiCall_cases. cbv zeta.
  unfold perform, afterWait.
  destruct (h (env w)) as [[a1|e1] s1] eqn:E1; cbn [fst snd env trace isOk].
  - left. rewrite skipn_app, skipn_all, Nat.sub_diag. repeat split; reflexivity.
  - right. destruct (h s1) as [[a2|e2] s2] eqn:E2; cbn [fst snd env trace isOk].
    + left. rewrite <- !app_assoc, skipn_app, skipn_all, Nat.sub_diag.
      repeat split; reflexivity.
    + right. destruct (h s2) as [[a3|e3] s3] eqn:E3; cbn [fst snd env trace isOk];
        rewrite <- !app_assoc, skipn_app, skipn_all, Nat.sub_diag;
        (split; [reflexivity|]); (split; [reflexivity|]);
        exists s1, s2; rewrite E2, E3; repeat split; reflexivity.
Qed.

Section RetryN.
Context {Env T : Type}.
Variable apiCall : M Env T.

(** As long as iterations are left up to the last index, the loop ends
    with the outcome of an attempt. *)
Lemma retryLoop_outcome (retries : Z) (iters : nat) :
  forall (i : Z) (w : World Env),
    (1 <= iters)%nat ->
    i + Z.of_nat iters = retries ->
    exists w', Shared.retryLoop apiCall retries iters i w = apiCall w'.
Proof.
  induction iters as [|k IH]; intros i w Hk Hi; [lia|].
  cbn [Shared.retryLoop]. unfold tryCatch.
  destruct (apiCall w) as [[a|e] w1] eqn:E.
  - exists w. symmetry. exact E.
  - destruct (Z.eqb_spec i (retries - 1)) as [Hlast|Hmore].
    + exists w. unfold throw. symmetry. exact E.
    + unfold bind, sleep.
      apply IH; lia.
Qed.

(** X13: [retryApiCall] with an explicit number of attempts.  With one
    attempt or more, the outcome is always the outcome of an attempt of
    the call -- the last one made --, so the "Retry failed" error of the
    loop's end is never seen; with zero attempts or fewer, the call is
    never made and that error is thrown at once. *)
Theorem retryApiCallN_outcome (retries : Z) (w : World Env) :
  (1 <= retries -> exists w', Shared.retryApiCallN apiCall retries w = apiCall w')
  /\ (retries <= 0 -> Shared.retryApiCallN apiCall retries w = (Throw RetryFailed, w)).
Proof.
  unfold Shared.retryApiCallN. split; intros H.
  - apply retryLoop_outcome; lia.
  - replace (Z.to_nat retries) with 0%nat by lia. reflexivity.
Qed.
End RetryN.

(** With one attempt a failure is surfaced at once, without a wait; with
    none, nothing is called. *)
Example retryApiCallN_one_and_zero :
  let w := Sim.start Sim.off (Ok []) 0 [true] in
  let call := Shared.turnOnSide Sim.io Sim.token "u1" in
  (fst (Shared.retryApiCallN call 1 w) = Throw (External "turnOn")
   /\ issued (Shared.retryApiCallN call 1) w = [TurnOnSide Sim.token "u1"])
  /\ (fst (Shared.retryApiCallN call 0 w) = Throw RetryFailed
      /\ issued (Shared.retryApiCallN call 0) w = []).
Proof. vm_compute. repeat split; reflexivity. Qed.

(** ** Credential refresh *)

Section Refresh.
Context {Env : Type} (io : Collab Env).
Variables (testMode : option TestMode) (profile : Db.ProfileRow).

(** The loop body is the clock reading, the refresh when due, and the
    rest. *)
Lemma Part000_processProfile_split :
  Part000.processProfile io testMode profile =
  (let token := Shared.tokenOfRow (Db.users profile) in
   now <- Shared.nowOf io testMode ;;
   token <-
     (if negb (testEnabled testMode) && (now >? eightExpiresAtPosix token)
      then
        token <- Shared.obtainFreshAccessToken io (eightRefreshToken token)
                   (eightUserId token) ;;
        Shared.dbUpdateUser io (Db.email (Db.users profile)) token ;;
        ret token
      else ret token) ;;
   Part000_afterRefresh io testMode profile now token).
Proof. reflexivity. Qed.

(** After the refresh every device call carries the token in force. *)
Lemma Part000_afterRefresh_carries (now : Z) (token : Token) :
  emits (carries token) (Part000_afterRefresh io testMode profile now token).
Proof.
  assert (W : forall ms, carries token (SetTimeout ms))
    by (intros ms; split; [reflexivity | discriminate]).
  unfold Part000_afterRefresh, Shared.userLocal.
  apply emits_bind; [apply emits_lift|]. intros userNow.
  apply emits_bind; [apply emits_lift|]. intros sleepCycle.
  apply emits_bind.
  { apply emits_if; [apply emits_ret|].
    unfold Shared.getCurrentHeatingStatus. emits_walk; try apply W.
    split; [reflexivity|]. cbn. intros t E. injection E as <-. reflexivity. }
  intros heatingStatus. unfold Part000.actuate.
  destruct (Part000.target _ _ _) as [[level stage]|];
    unfold Shared.turnOnSide, Shared.setHeatingLevel, Shared.turnOffSide;
    emits_walk; try apply W;
    (split; [reflexivity|]); cbn; intros t E; injection E as <-; reflexivity.
Qed.
End Refresh.

(** X14: outside test mode, when the wall clock is not past the expiry
    of the row's token, the first sibling copy makes no credential call
    for that row and every device call it makes carries the row's token:
    an unexpired token is never refreshed. *)
Theorem Part000_no_refresh_before_expiry {Env : Type} (io : Collab Env)
    (profile : Db.ProfileRow) (w : World Env) :
  co_clock io (env w) <= Db.eightTokenExpiresAt (Db.users profile) ->
  Forall (carries (Shared.tokenOfRow (Db.users profile)))
    (issued (Part000.processProfile io None profile) w).
Proof.
  intros Hfresh.
  destruct (Part000_afterRefresh_carries io None profile (co_clock io (env w))
              (Shared.tokenOfRow (Db.users profile)) w) as (evs & E & F).
  rewrite (issued_app _ w evs); [exact F|].
  rewrite <- E. rewrite Part000_processProfile_split. cbv zeta.
  unfold bind at 1. unfold Shared.nowOf, Shared.newDate.
  unfold bind at 1. cbn [testEnabled negb andb Shared.tokenOfRow eightExpiresAtPosix].
  assert (G : (co_clock io (env w) >? Db.eightTokenExpiresAt (Db.users profile)) = false)
    by (rewrite Z.gtb_ltb; apply Z.ltb_ge; exact Hfresh).
  rewrite G. reflexivity.
Qed.

Lemma Part000_no_refresh_before_expiry_witness :
  Forall (carries Sim.token)
    (issued (Part000.processProfile Sim.io None Sim.nightly)
       (Sim.start Sim.off (Ok [Sim.nightly]) (Sim.at_ 100 21 5) [])).
Proof.
  refine (Part000_no_refresh_before_expiry Sim.io Sim.nightly
            (Sim.start Sim.off (Ok [Sim.nightly]) (Sim.at_ 100 21 5) []) _).
  vm_compute. congruence.
Defined.

(** X15: outside test mode, when the wall clock is past the expiry of
    the row's token and the refresh and the write-back both succeed, the
    first sibling copy refreshes with the refresh token and user id of
    the row, writes the new token back under the row's email, and only
    then turns to the bed: every device call that follows carries the new
    token, never the expired one. *)
Theorem Part000_refresh_then_new_token {Env : Type} (io : Collab Env)
    (profile : Db.ProfileRow) (w : World Env) (fresh : Token) (s1 s2 : Env) :
  Db.eightTokenExpiresAt (Db.users profile) < co_clock io (env w) ->
  co_refresh io (Db.eightRefreshToken (Db.users profile))
    (Db.eightUserId (Db.users profile)) (env w) = (Ok fresh, s1) ->
  co_update io (Db.email (Db.users profile)) fresh s1 = (Ok tt, s2) ->
  exists evs,
    issued (Part000.processProfile io None profile) w
    = ObtainFreshAccessToken (Db.eightRefreshToken (Db.users profile))
        (Db.eightUserId (Db.users profile))
      :: DbUpdateUser (Db.email (Db.users profile)) fresh :: evs
    /\ Forall (carries fresh) evs.
Proof.
  intros Hold Hr Hu.
  set (w2 := mkWorld s2
               ((trace w
                 ++ [ObtainFreshAccessToken (Db.eightRefreshToken (Db.users profile))
                       (Db.eightUserId (Db.users profile))])
                ++ [DbUpdateUser (Db.email (Db.users profile)) fresh])).
  destruct (Part000_afterRefresh_carries io None profile (co_clock io (env w)) fresh w2)
    as (evs & E & F).
  exists evs. split; [|exact F].
  apply issued_app.
  assert (R : Part000.processProfile io None profile w
              = Part000_afterRefresh io None profile (co_clock io (env w)) fresh w2).
  { rewrite Part000_processProfile_split. cbv zeta.
    unfold bind at 1. unfold Shared.nowOf, Shared.newDate.
    unfold bind at 1. cbn [testEnabled negb andb Shared.tokenOfRow eightExpiresAtPosix
      eightRefreshToken eightUserId].
    assert (G : (co_clock io (env w) >? Db.eightTokenExpiresAt (Db.users profile)) = true)
      by (rewrite Z.gtb_ltb; apply Z.ltb_lt; exact Hold).
    rewrite G. unfold bind at 1. unfold Shared.obtainFreshAccessToken, perform at 1.
    rewrite Hr. unfold bind at 1. unfold Shared.dbUpdateUser, perform at 1.
    cbn [env trace]. rewrite Hu. reflexivity. }
  rewrite R, E. unfold w2. cbn [trace]. rewrite <- !app_assoc. reflexivity.
Qed.

Lemma Part000_refresh_then_new_token_witness :
  exists evs,
    issued (Part000.processProfile Sim.io None expiredRow)
      (Sim.start Sim.off (Ok [expiredRow]) (Sim.at_ 100 21 5) [])
    = ObtainFreshAccessToken "refresh" "u1"
      :: DbUpdateUser "sleeper@example.org" (Sim.freshToken "refresh" "u1") :: evs
    /\ Forall (carries (Sim.freshToken "refresh" "u1")) evs.
Proof.
  refine (Part000_refresh_then_new_token Sim.io expiredRow
            (Sim.start Sim.off (Ok [expiredRow]) (Sim.at_ 100 21 5) [])
            (Sim.freshToken "refresh" "u1") _ _ _ _ _).
  - vm_compute. reflexivity.
  - reflexivity.
  - reflexivity.
Defined.

(** X16: outside test mode, when the token has expired and the refresh
    fails, the processing of the row ends with that error after the one
    refresh call; when the refresh succeeds and the write-back fails, it
    ends with that error after the refresh and the write-back.  In both
    cases the bed is not contacted. *)
Theorem Part000_refresh_failure_stops_the_row {Env : Type} (io : Collab Env)
    (profile : Db.ProfileRow) (w : World Env) :
  Db.eightTokenExpiresAt (Db.users profile) < co_clock io (env w) ->
  let refresh := ObtainFreshAccessToken (Db.eightRefreshToken (Db.users profile))
                   (Db.eightUserId (Db.users profile)) in
  (forall e s1,
      co_refresh io (Db.eightRefreshToken (Db.users profile))
        (Db.eightUserId (Db.users profile)) (env w) = (Throw e, s1) ->
      Part000.processProfile io None profile w
      = (Throw e, mkWorld s1 (trace w ++ [refresh])))
  /\ (forall fresh s1 e s2,
      co_refresh io (Db.eightRefreshToken (Db.users profile))
        (Db.eightUserId (Db.users profile)) (env w) = (Ok fresh, s1) ->
      co_update io (Db.email (Db.users profile)) fresh s1 = (Throw e, s2) ->
      Part000.processProfile io None profile w
      = (Throw e,
         mkWorld s2 ((trace w ++ [refresh])
                     ++ [DbUpdateUser (Db.email (Db.users profile)) fresh]))).
Proof.
  intros Hold. cbv zeta.
  assert (G : (co_clock io (env w) >? Db.eightTokenExpiresAt (Db.users profile)) = true)
    by (rewrite Z.gtb_ltb; apply Z.ltb_lt; exact Hold).
  split.
  - intros e s1 Hr. rewrite Part000_processProfile_split. cbv zeta.
    unfold bind at 1. unfold Shared.nowOf, Shared.newDate.
    unfold bind at 1. cbn [testEnabled negb andb Shared.tokenOfRow eightExpiresAtPosix
      eightRefreshToken eightUserId].
    rewrite G. unfold bind at 1. unfold Shared.obtainFreshAccessToken, perform at 1.
    rewrite Hr. reflexivity.
  - intros fresh s1 e s2 Hr Hu. rewrite Part000_processProfile_split. cbv zeta.
    unfold bind at 1. unfold Shared.nowOf, Shared.newDate.
    unfold bind at 1. cbn [testEnabled negb andb Shared.tokenOfRow eightExpiresAtPosix
      eightRefreshToken eightUserId].
    rewrite G. unfold bind at 1. unfold Shared.obtainFreshAccessToken, perform at 1.
    rewrite Hr. unfold bind at 1. unfold Shared.dbUpdateUser, perform at 1.
    cbn [env trace]. rewrite Hu. reflexivity.
Qed.

Lemma Part000_refresh_failure_stops_the_row_witness :
  let w := Sim.start Sim.off (Ok [expiredRow]) (Sim.at_ 100 21 5) [] in
  Part000.processProfile ioAuthDown None expiredRow w
  = (Throw (External "auth"),
     mkWorld (env w) (trace w ++ [ObtainFreshAccessToken "refresh" "u1"]))
  /\ Part000.processProfile ioDbReadOnly None expiredRow w
     = (Throw (External "db"),
        mkWorld (env w)
          ((trace w ++ [ObtainFreshAccessToken "refresh" "u1"])
           ++ [DbUpdateUser "sleeper@example.org" (Sim.freshToken "refresh" "u1")])).
Proof.
  cbv zeta. split.
  - refine (proj1 (Part000_refresh_failure_stops_the_row ioAuthDown expiredRow
                     (Sim.start Sim.off (Ok [expiredRow]) (Sim.at_ 100 21 5) []) _)
              (External "auth") _ _).
    + vm_compute. reflexivity.
    + reflexivity.
  - refine (proj2 (Part000_refresh_failure_stops_the_row ioDbReadOnly expiredRow
                     (Sim.start Sim.off (Ok [expiredRow]) (Sim.at_ 100 21 5) []) _)
              (Sim.freshToken "refresh" "u1") _ (External "db") _ _ _).
    + vm_compute. reflexivity.
    + reflexivity.
    + reflexivity.
Defined.

(** ** Malformed profiles *)

Lemma rejects_bind_l {Env A B} (m : M Env A) (k : A -> M Env B) :
  rejects m -> rejects (bind m k).
Proof.
  intros H w. unfold bind. specialize (H w).
  destruct (m w) as [[a|e] w']; [discriminate | reflexivity].
Qed.

Lemma rejects_bind_r {Env A B} (m : M Env A) (k : A -> M Env B) :
  (forall a, rejects (k a)) -> rejects (bind m k).
Proof.
  intros H w. unfold bind.
  destruct (m w) as [[a|e] w']; [apply H | reflexivity].
Qed.

Lemma emits_bind_throw {Env A B} (P : Event -> Prop) (e : Err) (k : A -> M Env B) :
  emits P (bind (lift (Throw e)) k).
Proof. intros w. exists []. rewrite app_nil_r. split; [reflexivity | constructor]. Qed.

(** A clock string without a colon fails every copy that validates, and
    the route. *)
Lemma createSleepCycle_malformed (tz baseDate : Z) (bedTimeStr wakeupTimeStr : string) :
  noColon bedTimeStr \/ noColon wakeupTimeStr ->
  (exists e, Part000.createSleepCycle tz baseDate bedTimeStr wakeupTimeStr = Throw e)
  /\ (exists e, Part001.createSleepCycle tz baseDate bedTimeStr wakeupTimeStr = Throw e)
  /\ (exists e, Route.createSleepCycle tz baseDate bedTimeStr wakeupTimeStr = Throw e).
Proof.
  assert (R : forall s, noColon s ->
                Route.createDateWithTime tz baseDate s = Throw (InvalidTimeString s)).
  { intros s H. unfold Route.createDateWithTime. rewrite (split_no_colon s H).
    cbn [map nth_error]. destruct (Js.Number s); reflexivity. }
  intros [H|H].
  - destruct (createDateWithTime_no_colon tz baseDate bedTimeStr H) as [E0 E1].
    unfold Part000.createSleepCycle, Part001.createSleepCycle, Route.createSleepCycle.
    rewrite E0, E1, (R _ H). cbn [andThen]. repeat split; eexists; reflexivity.
  - destruct (createDateWithTime_no_colon tz baseDate wakeupTimeStr H) as [E0 E1].
    unfold Part000.createSleepCycle, Part001.createSleepCycle, Route.createSleepCycle.
    rewrite E0, E1, (R _ H).
    destruct (Part000.createDateWithTime tz baseDate bedTimeStr),
      (Part001.createDateWithTime tz baseDate bedTimeStr),
      (Route.createDateWithTime tz baseDate bedTimeStr);
      cbn [andThen]; repeat split; eexists; reflexivity.
Qed.

(** X17: a row whose bedTime or wakeupTime string has no colon is never
    acted on.  In the first and second sibling copies and in the route,
    in and out of test mode, its processing rejects and contacts the bed
    with no call at all -- no status read, no power-on, no set-level, no
    power-off. *)
Theorem malformed_row_never_reaches_the_bed {Env : Type} (io : Collab Env)
    (testMode : option TestMode) (profile : Db.ProfileRow) (w : World Env) :
  noColon (Db.bedTime (Db.userTemperatureProfiles profile))
  \/ noColon (Db.wakeupTime (Db.userTemperatureProfiles profile)) ->
  (isOk (fst (Part000.processProfile io testMode profile w)) = false
   /\ Forall (fun ev => isDeviceCall ev = false)
        (issued (Part000.processProfile io testMode profile) w))
  /\ (isOk (fst (Part001.processProfile io testMode profile w)) = false
      /\ issued (Part001.processProfile io testMode profile) w = [])
  /\ (isOk (fst (Route.processProfile io testMode profile w)) = false
      /\ issued (Route.processProfile io testMode profile) w = []).
Proof.
  intros Hbad.
  assert (T : forall A (e : Err), @rejects Env A (lift (Throw e)))
    by (intros A e w0; reflexivity).
  split; [|split].
  - split.
    + revert w. change (rejects (Part000.processProfile io testMode profile)).
      unfold Part000.processProfile, Shared.userLocal.
      apply rejects_bind_r. intros now. apply rejects_bind_r. intros token.
      apply rejects_bind_r. intros userNow.
      destruct (createSleepCycle_malformed (co_zone io) userNow _ _ Hbad) as ([e E] & _).
      rewrite E. apply rejects_bind_l. apply T.
    + apply emits_issued.
      unfold Part000.processProfile, Shared.userLocal.
      apply emits_bind; [apply emits_nowOf|]. intros now.
      apply emits_bind.
      { apply emits_if; [|apply emits_ret].
        unfold Shared.obtainFreshAccessToken, Shared.dbUpdateUser.
        emits_walk; reflexivity. }
      intros token. apply emits_bind; [apply emits_lift|]. intros userNow.
      destruct (createSleepCycle_malformed (co_zone io) userNow _ _ Hbad) as ([e E] & _).
      rewrite E. apply emits_bind_throw.
  - assert (N : emits (fun _ => False) (Part001.processProfile io testMode profile)).
    { unfold Part001.processProfile, Shared.userLocal.
      apply emits_bind; [apply emits_nowOf|]. intros now.
      apply emits_bind; [apply emits_lift|]. intros userNow.
      destruct (createSleepCycle_malformed (co_zone io) userNow _ _ Hbad)
        as (_ & [e E] & _).
      rewrite E. apply emits_bind_throw. }
    split.
    + revert w. change (rejects (Part001.processProfile io testMode profile)).
      unfold Part001.processProfile, Shared.userLocal.
      apply rejects_bind_r. intros now. apply rejects_bind_r. intros userNow.
      destruct (createSleepCycle_malformed (co_zone io) userNow _ _ Hbad)
        as (_ & [e E] & _).
      rewrite E. apply rejects_bind_l. apply T.
    + pose proof (emits_issued _ _ w N) as F.
      destruct (issued _ w) as [|ev evs]; [reflexivity|]. inversion F as [|? ? X _].
      destruct X.
  - assert (N : emits (fun _ => False) (Route.processProfile io testMode profile)).
    { unfold Route.processProfile, Shared.userLocal.
      apply emits_bind; [apply emits_nowOf|]. intros now.
      apply emits_bind; [apply emits_lift|]. intros userNow.
      destruct (createSleepCycle_malformed (co_zone io) userNow _ _ Hbad)
        as (_ & _ & [e E]).
      rewrite E. apply emits_bind_throw. }
    split.
    + revert w. change (rejects (Route.processProfile io testMode profile)).
      unfold Route.processProfile, Shared.userLocal.
      apply rejects_bind_r. intros now. apply rejects_bind_r. intros userNow.
      destruct (createSleepCycle_malformed (co_zone io) userNow _ _ Hbad)
        as (_ & _ & [e E]).
      rewrite E. apply rejects_bind_l. apply T.
    + pose proof (emits_issued _ _ w N) as F.
      destruct (issued _ w) as [|ev evs]; [reflexivity|]. inversion F as [|? ? X _].
      destruct X.
Qed.

Lemma malformed_row_never_reaches_the_bed_witness :
  let profile := Sim.profileOf "late" "06:00" in
  let w := Sim.start Sim.off (Ok [profile]) (Sim.at_ 100 21 5) [] in
  (isOk (fst (Part000.processProfile Sim.io None profile w)) = false
   /\ Forall (fun ev => isDeviceCall ev = false)
        (issued (Part000.processProfile Sim.io None profile) w))
  /\ (isOk (fst (Part001.processProfile Sim.io None profile w)) = false
      /\ issued (Part001.processProfile Sim.io None profile) w = [])
  /\ (isOk (fst (Route.processProfile Sim.io None profile w)) = false
      /\ issued (Route.processProfile Sim.io None profile) w = []).
Proof.
  cbv zeta.
  refine (malformed_row_never_reaches_the_bed Sim.io None (Sim.profileOf "late" "06:00")
            (Sim.start Sim.off (Ok [Sim.profileOf "late" "06:00"]) (Sim.at_ 100 21 5) [])
            _).
  left. intros c Hc. vm_compute in Hc.
  repeat (destruct Hc as [<-|Hc]; [discriminate|]). destruct Hc.
Defined.

(** ** What the actuation step sends for a target *)

(** A retried collaborator call followed by anything has the call among
    its events. *)
Lemma retried_call_is_issued {Env A B} (P : Event -> Prop) (f : Event -> bool)
    (ev : Event) (h : Env -> result A * Env) (k : A -> M Env B) (w : World Env) :
  f ev = true ->
  (forall a, emits P (k a)) ->
  existsb f (issued (bind (Shared.retryApiCall (perform ev h)) k) w) = true.
Proof.
  intros Hf Hk.
  destruct (retryApiCall_perform_trace ev h w) as [rest E].
  assert (X : exists more,
             trace (snd (bind (Shared.retryApiCall (perform ev h)) k w))
             = trace w ++ ev :: more).
  { unfold bind.
    destruct (Shared.retryApiCall (perform ev h) w) as [[a|e] w1]; cbn [snd] in *.
    - destruct (Hk a w1) as (evs & E1 & _). exists (rest ++ evs).
      rewrite E1, E, <- app_assoc. reflexivity.
    - exists rest. exact E. }
  destruct X as [more X]. rewrite (issued_app _ w _ X). cbn [existsb]. rewrite Hf.
  reflexivity.
Qed.

Section Commands.
Context {Env : Type} (io : Collab Env).
Variables (testMode : option TestMode) (token : Token) (userId : string).
Variable userTemp : Db.TemperatureProfileRow.
Variables (userNow targetLevel : Z) (heatingStatus : HeatingStatus).
Hypothesis Hlive : testEnabled testMode = false.

Lemma converge_emits :
  emits (convergesTo userId targetLevel heatingStatus)
    (when (negb (isHeating heatingStatus))
       (when (negb (testEnabled testMode))
          (Shared.retryApiCall (Shared.turnOnSide io token userId))) ;;
     when (negb (heatingLevel heatingStatus =? targetLevel))
       (when (negb (testEnabled testMode))
          (Shared.retryApiCall (Shared.setHeatingLevel io token userId targetLevel)))).
Proof.
  apply emits_bind.
  - destruct (isHeating heatingStatus) eqn:H; cbn [negb]; [apply emits_ret|].
    unfold Shared.turnOnSide. emits_walk; cbn; tauto.
  - intros _. destruct (Z.eqb_spec (heatingLevel heatingStatus) targetLevel) as [E|N];
      cbn [negb]; [apply emits_ret|].
    unfold Shared.setHeatingLevel. emits_walk; cbn; tauto.
Qed.

Lemma converge_issues (w : World Env) :
  let evs :=
    issued
      (when (negb (isHeating heatingStatus))
         (when (negb (testEnabled testMode))
            (Shared.retryApiCall (Shared.turnOnSide io token userId))) ;;
       when (negb (heatingLevel heatingStatus =? targetLevel))
         (when (negb (testEnabled testMode))
            (Shared.retryApiCall (Shared.setHeatingLevel io token userId targetLevel)))) w in
  existsb isTurnOn evs = negb (isHeating heatingStatus)
  /\ (isHeating heatingStatus = true ->
      existsb isSetLevel evs = negb (heatingLevel heatingStatus =? targetLevel)).
Proof.
  cbv zeta. rewrite Hlive. cbn [negb]. split.
  - destruct (isHeating heatingStatus) eqn:H; cbn [negb when].
    + pose proof (emits_issued _ _ w converge_emits) as F.
      rewrite Hlive, H in F. cbn [negb when] in F.
      induction F as [|ev evs Hev _ IH]; [reflexivity|].
      cbn [existsb]. rewrite IH, orb_false_r.
      destruct ev; try reflexivity. cbn in Hev. rewrite H in Hev.
      destruct Hev as [_ Hev]. discriminate.
    + unfold Shared.turnOnSide.
      apply (retried_call_is_issued (fun _ => True)); [reflexivity|].
      intros _. unfold Shared.setHeatingLevel.
      emits_walk; exact I.
  - intros H. rewrite H. cbn [negb when].
    destruct (Z.eqb_spec (heatingLevel heatingStatus) targetLevel) as [E|N]; cbn [negb when].
    + rewrite issued_nil by reflexivity. reflexivity.
    + unfold Shared.setHeatingLevel.
      pose proof (retried_call_is_issued (fun _ => True) isSetLevel
                    (SetHeatingLevel token userId targetLevel)
                    (co_setLevel io token userId targetLevel)
                    (fun u : unit => ret u) w eq_refl
                    (fun a => emits_ret (fun _ => True) a)) as X.
      unfold issued in *. unfold bind in X. unfold bind at 1, ret at 1.
      destruct (Shared.retryApiCall
                  (perform (SetHeatingLevel token userId targetLevel)
                     (co_setLevel io token userId targetLevel)) w) as [[u|e] w1];
        exact X.
Qed.

(** X18: outside test mode, for a non-null target, the actuation step
    of the first and of the second sibling copy sends a power-on exactly
    when the bed is not heating, and sends nothing but power-ons,
    set-levels and back-off waits; every set-level carries the target,
    goes to the row's user id and is sent only when the level read back
    differs from the target; when the bed is already heating, a set-level
    is sent exactly when the level differs. *)
Theorem actuate_sends_only_what_differs :
  (forall c stage w,
      Part000.target userTemp c userNow = Some (targetLevel, stage) ->
      let evs := issued (Part000.actuate io testMode token userId userTemp c userNow
                           heatingStatus) w in
      Forall (convergesTo userId targetLevel heatingStatus) evs
      /\ existsb isTurnOn evs = negb (isHeating heatingStatus)
      /\ (isHeating heatingStatus = true ->
          existsb isSetLevel evs = negb (heatingLevel heatingStatus =? targetLevel)))
  /\ (forall c stage w,
      Part001.target userTemp c userNow = Some (targetLevel, stage) ->
      let evs := issued (Part001.actuate io testMode token userId userTemp c userNow
                           heatingStatus) w in
      Forall (convergesTo userId targetLevel heatingStatus) evs
      /\ existsb isTurnOn evs = negb (isHeating heatingStatus)
      /\ (isHeating heatingStatus = true ->
          existsb isSetLevel evs = negb (heatingLevel heatingStatus =? targetLevel))).
Proof.
  split; intros c stage w Ht; cbv zeta.
  - unfold Part000.actuate. rewrite Ht.
    split; [apply emits_issued; apply converge_emits|]. apply converge_issues.
  - unfold Part001.actuate. rewrite Ht.
    split; [apply emits_issued; apply converge_emits|]. apply converge_issues.
Qed.
End Commands.

Lemma actuate_sends_only_what_differs_witness :
  let userTemp := Db.userTemperatureProfiles Sim.nightly in
  let now := Sim.at_ 100 21 5 in
  let w := Sim.start Sim.off (Ok [Sim.nightly]) now [] in
  let c0 := {| Shared.preHeatingTime := Sim.at_ 100 21 0;
               Shared.bedTime := Sim.at_ 100 22 0;
               Shared.midStageTime := Sim.at_ 100 23 0;
               Shared.finalStageTime := Sim.at_ 101 4 0;
               Shared.warmingTime := Sim.at_ 101 5 30;
               Shared.wakeupTime := Sim.at_ 101 6 0 |} in
  let evs := issued (Part000.actuate Sim.io None Sim.token "u1" userTemp c0 now Sim.off) w in
  Forall (convergesTo "u1" (-10) Sim.off) evs
  /\ existsb isTurnOn evs = negb (isHeating Sim.off)
  /\ (isHeating Sim.off = true ->
      existsb isSetLevel evs = negb (heatingLevel Sim.off =? -10)).
Proof.
  cbv zeta.
  refine (proj1 (actuate_sends_only_what_differs Sim.io None Sim.token "u1"
                   (Db.userTemperatureProfiles Sim.nightly) (Sim.at_ 100 21 5) (-10)
                   Sim.off eq_refl) _ PreHeating _ _).
  vm_compute. reflexivity.
Defined.

(** X19: the first sibling copy acts on boundaries only.  When the
    instant is more than 15 minutes away from every boundary of the
    normalised cycle, and either it is not after wake-up or the bed is not
    heating, the actuation step sends nothing, in any mode and whatever
    the state of the bed -- a bed found off in the middle of a stage is not
    powered on again before the next boundary. *)
Theorem Part000_acts_near_boundaries_only {Env : Type} (io : Collab Env)
    (testMode : option TestMode) (token : Token) (userId : string)
    (userTemp : Db.TemperatureProfileRow) (c : Shared.SleepCycle) (userNow : Z)
    (heatingStatus : HeatingStatus) (w : World Env) :
  awayFromBoundaries c userNow ->
  userNow <= Shared.wakeupTime c \/ isHeating heatingStatus = false ->
  Part000.target userTemp c userNow = None
  /\ Part000.actuate io testMode token userId userTemp c userNow heatingStatus w
     = (Ok tt, w).
Proof.
  unfold awayFromBoundaries, Js.msPerMinute. intros Haway Hcase.
  assert (F : forall b, 15 * 60000 < Z.abs (userNow - b) ->
                Shared.isWithinTimeRange userNow b 15 = false).
  { intros b Hb. unfold Shared.isWithinTimeRange. apply Z.leb_gt. lia. }
  inversion Haway as [|? ? H1 T1]; subst. inversion T1 as [|? ? H2 T2]; subst.
  inversion T2 as [|? ? H3 T3]; subst. inversion T3 as [|? ? H4 T4]; subst.
  inversion T4 as [|? ? H5 T5]; subst. inversion T5 as [|? ? H6 T6]; subst.
  assert (N : Part000.target userTemp c userNow = None).
  { unfold Part000.target.
    rewrite (F _ H1), (F _ H2), (F _ H3), (F _ H4), (F _ H5), (F _ H6). reflexivity. }
  split; [exact N|].
  unfold Part000.actuate. rewrite N.
  destruct Hcase as [Hbefore|Hoff].
  - assert (G : (userNow >? Shared.wakeupTime c) = false)
      by (rewrite Z.gtb_ltb; apply Z.ltb_ge; exact Hbefore).
    rewrite G, andb_false_r. reflexivity.
  - rewrite Hoff. reflexivity.
Qed.

Lemma Part000_acts_near_boundaries_only_witness :
  let c := {| Shared.preHeatingTime := Sim.at_ 99 21 0;
              Shared.bedTime := Sim.at_ 99 22 0;
              Shared.midStageTime := Sim.at_ 99 23 0;
              Shared.finalStageTime := Sim.at_ 100 4 0;
              Shared.warmingTime := Sim.at_ 100 5 30;
              Shared.wakeupTime := Sim.at_ 100 6 0 |} in
  let w := Sim.start Sim.off (Ok [Sim.nightly]) (Sim.at_ 100 2 0) [] in
  Part000.target (Db.userTemperatureProfiles Sim.nightly) c (Sim.at_ 100 2 0) = None
  /\ Part000.actuate Sim.io None Sim.token "u1" (Db.userTemperatureProfiles Sim.nightly)
       c (Sim.at_ 100 2 0) Sim.off w = (Ok tt, w).
Proof.
  cbv zeta.
  refine (Part000_acts_near_boundaries_only Sim.io None Sim.token "u1"
            (Db.userTemperatureProfiles Sim.nightly) _ (Sim.at_ 100 2 0) Sim.off _ _ _).
  - unfold awayFromBoundaries. repeat constructor; vm_compute; reflexivity.
  - left. vm_compute. congruence.
Defined.

(** ** The loop and the endpoint *)

Lemma Part002_forEachProfile_resolves {Env : Type} (io : Collab Env)
    (testMode : option TestMode) (profiles : list Db.ProfileRow) (w : World Env) :
  fst (Part002.forEachProfile io testMode profiles w) = Ok tt.
Proof.
  revert w. induction profiles as [|p ps IH]; intros w; [reflexivity|].
  rewrite Part002_forEachProfile_cons. apply IH.
Qed.

Section Loop.
Context {Env : Type} (io : Collab Env).
Variable testMode : option TestMode.

(** X20: in each of the four copies the loop over the rows never
    rejects, whatever the rows throw, and processing a list of rows is
    processing any first part of it and then the rest from the world the
    first part left: a row that fails changes nothing for the rows after
    it beyond what it did to the world. *)
Theorem forEachProfile_app (before after : list Db.ProfileRow) (w : World Env) :
  (Part000.forEachProfile io testMode (before ++ after) w
   = Part000.forEachProfile io testMode after
       (snd (Part000.forEachProfile io testMode before w))
   /\ fst (Part000.forEachProfile io testMode (before ++ after) w) = Ok tt)
  /\ (Route.forEachProfile io testMode (before ++ after) w
      = Route.forEachProfile io testMode after
          (snd (Route.forEachProfile io testMode before w))
      /\ fst (Route.forEachProfile io testMode (before ++ after) w) = Ok tt)
  /\ (Part001.forEachProfile io testMode (before ++ after) w
      = Part001.forEachProfile io testMode after
          (snd (Part001.forEachProfile io testMode before w))
      /\ fst (Part001.forEachProfile io testMode (before ++ after) w) = Ok tt)
  /\ (Part002.forEachProfile io testMode (before ++ after) w
      = Part002.forEachProfile io testMode after
          (snd (Part002.forEachProfile io testMode before w))
      /\ fst (Part002.forEachProfile io testMode (before ++ after) w) = Ok tt).
Proof.
  assert (R0 : forall ps v, fst (Part000.forEachProfile io testMode ps v) = Ok tt)
    by (intros ps; induction ps as [|p ps IH]; intros v;
        [reflexivity | rewrite Part000_forEachProfile_cons; apply IH]).
  assert (R1 : forall ps v, fst (Route.forEachProfile io testMode ps v) = Ok tt)
    by (intros ps; induction ps as [|p ps IH]; intros v;
        [reflexivity | rewrite Route_forEachProfile_cons; apply IH]).
  assert (R2 : forall ps v, fst (Part001.forEachProfile io testMode ps v) = Ok tt)
    by (intros ps; induction ps as [|p ps IH]; intros v;
        [reflexivity | rewrite Part001_forEachProfile_cons; apply IH]).
  assert (R3 : forall ps v, fst (Part002.forEachProfile io testMode ps v) = Ok tt)
    by (intros ps; induction ps as [|p ps IH]; intros v;
        [reflexivity | rewrite Part002_forEachProfile_cons; apply IH]).
  repeat split; try apply R0; try apply R1; try apply R2; try apply R3;
    revert w; induction before as [|p ps IH]; intros w; try reflexivity;
    rewrite <- app_comm_cons.
  - rewrite !Part000_forEachProfile_cons. apply IH.
  - rewrite !Route_forEachProfile_cons. apply IH.
  - rewrite !Part001_forEachProfile_cons. apply IH.
  - rewrite !Part002_forEachProfile_cons. apply IH.
Qed.

End Loop.

(** X21: the endpoint of the third sibling copy.  Without the right
    authorization it answers 401 and calls no collaborator.  With it, it
    answers success when the fetch of the profiles succeeds, whatever the
    rows throw; and when the fetch fails, the handler itself rejects with
    the error of the fetch, there being no try around the run in this
    copy, so that no response is produced. *)
Theorem Part002_GET_outcomes {Env : Type} (io : Collab Env)
    (testTimeParam : option Z) (w : World Env) :
  Part002.GET io false testTimeParam w = (Ok Unauthorized401, w)
  /\ fst (Part002.GET io true testTimeParam w)
     = match fst (co_select io (env w)) with
       | Ok _ => Ok SuccessJson
       | Throw e => Throw e
       end.
Proof.
  split; [reflexivity|].
  assert (A : forall tm,
             fst (bind (Part002.adjustTemperature io tm) (fun _ => ret SuccessJson) w)
             = match fst (co_select io (env w)) with
               | Ok _ => Ok SuccessJson
               | Throw e => Throw e
               end).
  { intros tm. unfold Part002.adjustTemperature, bind, Shared.dbSelectProfiles, perform.
    destruct (co_select io (env w)) as [[ps|e] s]; cbn [fst]; [|reflexivity].
    pose proof (Part002_forEachProfile_resolves io tm ps
                  (mkWorld s (trace w ++ [DbSelectProfiles]))) as H.
    destruct (Part002.forEachProfile io tm ps _) as [[u|e] w1]; cbn [fst] in *;
      [reflexivity | discriminate]. }
  unfold Part002.GET. cbn [negb]. destruct testTimeParam; apply A.
Qed.

(** X22: the endpoint of the first sibling copy never rejects.
    Without the right authorization it answers 401 and calls no
    collaborator; with it, it answers success exactly when the fetch of
    the profiles succeeds -- whatever the rows throw -- and 500 when the
    fetch fails. *)
Theorem Part000_GET_outcomes {Env : Type} (io : Collab Env)
    (testTimeParam : option Z) (w : World Env) :
  Part000.GET io false testTimeParam w = (Ok Unauthorized401, w)
  /\ fst (Part000.GET io true testTimeParam w)
     = match fst (co_select io (env w)) with
       | Ok _ => Ok SuccessJson
       | Throw _ => Ok InternalServerError500
       end.
Proof.
  split; [reflexivity|].
  assert (A : forall tm,
             fst (tryCatch (bind (Part000.adjustTemperature io tm) (fun _ => ret SuccessJson))
                    (fun _ => ret InternalServerError500) w)
             = match fst (co_select io (env w)) with
               | Ok _ => Ok SuccessJson
               | Throw _ => Ok InternalServerError500
               end).
  { intros tm. pose proof (Part000_adjustTemperature_result io tm w) as H.
    unfold tryCatch, bind, ret.
    destruct (Part000.adjustTemperature io tm w) as [[u|e] w1]; cbn [fst] in *;
      destruct (fst (co_select io (env w))); try discriminate; reflexivity. }
  unfold Part000.GET. cbn [negb]. destruct testTimeParam; apply A.
Qed.

(** X23: the cycle depends on the reference instant through its local
    calendar date only.  Two instants of the same local day give the same
    outcome of [createSleepCycle] -- the same boundaries or the same
    error --, for any strings, in each of the four copies. *)
Theorem createSleepCycle_depends_on_the_date_only (tz base1 base2 : Z)
    (bedTimeStr wakeupTimeStr : string) :
  Js.Day (Js.LocalTime tz base1) = Js.Day (Js.LocalTime tz base2) ->
  Part000.createSleepCycle tz base1 bedTimeStr wakeupTimeStr
  = Part000.createSleepCycle tz base2 bedTimeStr wakeupTimeStr
  /\ Route.createSleepCycle tz base1 bedTimeStr wakeupTimeStr
     = Route.createSleepCycle tz base2 bedTimeStr wakeupTimeStr
  /\ Part001.createSleepCycle tz base1 bedTimeStr wakeupTimeStr
     = Part001.createSleepCycle tz base2 bedTimeStr wakeupTimeStr
  /\ Part002.createSleepCycle tz base1 bedTimeStr wakeupTimeStr
     = Part002.createSleepCycle tz base2 bedTimeStr wakeupTimeStr.
Proof.
  intros H.
  assert (S : forall h m, Js.setHours4 tz base1 h m 0 0 = Js.setHours4 tz base2 h m 0 0)
    by (intros h m; unfold Js.setHours4; rewrite H; reflexivity).
  assert (D0 : forall s, Part000.createDateWithTime tz base1 s
                         = Part000.createDateWithTime tz base2 s).
  { intros s. unfold Part000.createDateWithTime.
    destruct (nth_error _ 0) as [[|h]|]; try reflexivity.
    destruct (nth_error _ 1) as [[|m]|]; try reflexivity. rewrite S. reflexivity. }
  assert (D1 : forall s, Route.createDateWithTime tz base1 s
                         = Route.createDateWithTime tz base2 s).
  { intros s. unfold Route.createDateWithTime.
    destruct (nth_error _ 0) as [[|h]|]; try reflexivity.
    destruct (nth_error _ 1) as [[|m]|]; try reflexivity. rewrite S. reflexivity. }
  assert (D2 : forall s, Part001.createDateWithTime tz base1 s
                         = Part001.createDateWithTime tz base2 s).
  { intros s. unfold Part001.createDateWithTime.
    destruct (nth_error _ 0) as [[|h]|]; try reflexivity.
    destruct (nth_error _ 1) as [[|m]|]; try reflexivity. rewrite S. reflexivity. }
  assert (D3 : forall s, Part002.createDateWithTime tz base1 s
                         = Part002.createDateWithTime tz base2 s).
  { intros s. unfold Part002.createDateWithTime.
    destruct (Part002.orZero (nth_error _ 0)) as [|h]; try reflexivity.
    destruct (Part002.orZero (nth_error _ 1)) as [|m]; try reflexivity.
    rewrite S. reflexivity. }
  unfold Part000.createSleepCycle, Route.createSleepCycle, Part001.createSleepCycle,
    Part002.createSleepCycle.
  rewrite ?D0, ?D1, ?D2, ?D3. repeat split; reflexivity.
Qed.

Lemma createSleepCycle_depends_on_the_date_only_witness :
  Part000.createSleepCycle 0 (Sim.at_ 100 2 0) "22:00" "06:00"
  = Part000.createSleepCycle 0 (Sim.at_ 100 21 5) "22:00" "06:00"
  /\ Route.createSleepCycle 0 (Sim.at_ 100 2 0) "22:00" "06:00"
     = Route.createSleepCycle 0 (Sim.at_ 100 21 5) "22:00" "06:00"
  /\ Part001.createSleepCycle 0 (Sim.at_ 100 2 0) "22:00" "06:00"
     = Part001.createSleepCycle 0 (Sim.at_ 100 21 5) "22:00" "06:00"
  /\ Part002.createSleepCycle 0 (Sim.at_ 100 2 0) "22:00" "06:00"
     = Part002.createSleepCycle 0 (Sim.at_ 100 21 5) "22:00" "06:00".
Proof.
  refine (createSleepCycle_depends_on_the_date_only 0 (Sim.at_ 100 2 0) (Sim.at_ 100 21 5)
            "22:00" "06:00" _).
  vm_compute. reflexivity.
Defined.

Lemma retryApiCallN_outcome_witness :
  let w := Sim.start Sim.off (Ok []) 0 [true] in
  let call := Shared.turnOnSide Sim.io Sim.token "u1" in
  (exists w', Shared.retryApiCallN call 1 w = call w')
  /\ Shared.retryApiCallN call 0 w = (Throw RetryFailed, w).
Proof.
  cbv zeta. split.
  - apply (proj1 (retryApiCallN_outcome (Shared.turnOnSide Sim.io Sim.token "u1") 1
                    (Sim.start Sim.off (Ok []) 0 [true]))). lia.
  - apply (proj2 (retryApiCallN_outcome (Shared.turnOnSide Sim.io Sim.token "u1") 0
                    (Sim.start Sim.off (Ok []) 0 [true]))). lia.
Defined.

(** ** A power-on that fails *)

(** X24: the two commands of the actuation step are sent in order and
    the second depends on the first.  Outside test mode, with a non-null
    target and the bed not heating, when the retried power-on rejects, the
    actuation step of the first and of the second sibling copy rejects
    with the same error in the world the power-on left: no set-level is
    attempted.  The third sibling copy does the same for any state of the
    bed. *)
Theorem failed_power_on_skips_set_level {Env : Type} (io : Collab Env)
    (testMode : option TestMode) (token : Token) (userId : string)
    (userTemp : Db.TemperatureProfileRow) (userNow targetLevel : Z)
    (heatingStatus : HeatingStatus) (w w1 : World Env) (e : Err) :
  testEnabled testMode = false ->
  isHeating heatingStatus = false ->
  Shared.retryApiCall (Shared.turnOnSide io token userId) w = (Throw e, w1) ->
  (forall c stage,
      Part000.target userTemp c userNow = Some (targetLevel, stage) ->
      Part000.actuate io testMode token userId userTemp c userNow heatingStatus w
      = (Throw e, w1))
  /\ (forall c stage,
      Part001.target userTemp c userNow = Some (targetLevel, stage) ->
      Part001.actuate io testMode token userId userTemp c userNow heatingStatus w
      = (Throw e, w1))
  /\ (forall c,
      Part002.target userTemp c userNow = Some targetLevel ->
      Part002.actuate io testMode token userId userTemp c userNow w = (Throw e, w1)).
Proof.
  intros Hlive Hoff Hfail. repeat split.
  - intros c stage Ht. unfold Part000.actuate. rewrite Ht, Hlive, Hoff.
    cbn [negb when]. unfold bind at 1. rewrite Hfail. reflexivity.
  - intros c stage Ht. unfold Part001.actuate. rewrite Ht, Hlive, Hoff.
    cbn [negb when]. unfold bind at 1. rewrite Hfail. reflexivity.
  - intros c Ht. unfold Part002.actuate. rewrite Ht, Hlive.
    cbn [negb when]. unfold bind at 1. rewrite Hfail. reflexivity.
Qed.

Lemma failed_power_on_skips_set_level_witness :
  let now := Sim.at_ 100 21 5 in
  let userTemp := Db.userTemperatureProfiles Sim.nightly in
  let w := Sim.start Sim.off (Ok [Sim.nightly]) now [true; true; true] in
  let c0 := {| Shared.preHeatingTime := Sim.at_ 100 21 0;
               Shared.bedTime := Sim.at_ 100 22 0;
               Shared.midStageTime := Sim.at_ 100 23 0;
               Shared.finalStageTime := Sim.at_ 101 4 0;
               Shared.warmingTime := Sim.at_ 101 5 30;
               Shared.wakeupTime := Sim.at_ 101 6 0 |} in
  exists w1,
    Part000.actuate Sim.io None Sim.token "u1" userTemp c0 now Sim.off w
    = (Throw (External "turnOn"), w1)
    /\ existsb isSetLevel (trace w1) = false.
Proof.
  cbv zeta. eexists. split.
  - refine (proj1 (failed_power_on_skips_set_level Sim.io None Sim.token "u1"
                     (Db.userTemperatureProfiles Sim.nightly) (Sim.at_ 100 21 5) (-10)
                     Sim.off _ _ (External "turnOn") eq_refl eq_refl _) _ PreHeating _).
    + vm_compute. reflexivity.
    + vm_compute. reflexivity.
  - vm_compute. reflexivity.
Defined.

Lemma near_false (userNow b : Z) :
  15 * 60000 < Z.abs (userNow - b) -> Shared.isWithinTimeRange userNow b 15 = false.
Proof. intros H. unfold Shared.isWithinTimeRange. apply Z.leb_gt. lia. Qed.

Lemma near_true (userNow b : Z) :
  Z.abs (userNow - b) <= 15 * 60000 -> Shared.isWithinTimeRange userNow b 15 = true.
Proof. intros H. unfold Shared.isWithinTimeRange. apply Z.leb_le. lia. Qed.

(** ** Around wake-up *)

(** X25: the first sibling copy around wake-up, on a cycle with
    ordered boundaries whose warming boundary is 30 minutes before
    wake-up.  From 45 to 15 minutes before wake-up the target is the
    warming level 2.  From then until 15 minutes after wake-up only the
    wake-up boundary is near and the last branch of the chain applies:
    the target falls back to finalSleepLevel under the name of the final
    stage, although the stage detected is warming before wake-up and
    outside the cycle after it. *)
Theorem Part000_target_around_wake_up (userTemp : Db.TemperatureProfileRow)
    (c : Shared.SleepCycle) (userNow : Z) :
  ascending c ->
  Shared.warmingTime c = Shared.wakeupTime c - 30 * Js.msPerMinute ->
  (Shared.wakeupTime c - 45 * Js.msPerMinute <= userNow
     <= Shared.wakeupTime c - 15 * Js.msPerMinute ->
   Part000.target userTemp c userNow = Some (2, Warming))
  /\ (Shared.wakeupTime c - 15 * Js.msPerMinute < userNow
        <= Shared.wakeupTime c + 15 * Js.msPerMinute ->
      Part000.target userTemp c userNow = Some (Db.finalSleepLevel userTemp, Final)
      /\ Part000.currentSleepStage c userNow
         = if userNow <? Shared.wakeupTime c then Warming else OutsideSleepCycle).
Proof.
  unfold ascending, Js.msPerMinute. intros (A1 & A2 & A3 & A4 & A5) W. split.
  - intros H. unfold Part000.target.
    rewrite (near_true userNow (Shared.warmingTime c)) by lia.
    rewrite !orb_true_r. reflexivity.
  - intros H. split.
    + unfold Part000.target.
      rewrite (near_false userNow (Shared.warmingTime c)) by lia.
      rewrite (near_false userNow (Shared.preHeatingTime c)) by lia.
      rewrite (near_false userNow (Shared.bedTime c)) by lia.
      rewrite (near_false userNow (Shared.midStageTime c)) by lia.
      rewrite (near_false userNow (Shared.finalStageTime c)) by lia.
      rewrite (near_true userNow (Shared.wakeupTime c)) by lia.
      reflexivity.
    + unfold Part000.currentSleepStage. split_tests; try reflexivity; lia.
Qed.

Lemma Part000_target_around_wake_up_witness :
  let userTemp := Db.userTemperatureProfiles Sim.nightly in
  let c := {| Shared.preHeatingTime := Sim.at_ 99 21 0;
              Shared.bedTime := Sim.at_ 99 22 0;
              Shared.midStageTime := Sim.at_ 99 23 0;
              Shared.finalStageTime := Sim.at_ 100 4 0;
              Shared.warmingTime := Sim.at_ 100 5 30;
              Shared.wakeupTime := Sim.at_ 100 6 0 |} in
  Part000.target userTemp c (Sim.at_ 100 5 50) = Some (5, Final)
  /\ Part000.currentSleepStage c (Sim.at_ 100 5 50) = Warming.
Proof.
  cbv zeta.
  refine (proj2 (Part000_target_around_wake_up (Db.userTemperatureProfiles Sim.nightly)
                   _ (Sim.at_ 100 5 50) _ _) _).
  - unfold ascending. vm_compute. repeat split; congruence.
  - vm_compute. reflexivity.
  - vm_compute. split; [reflexivity | congruence].
Defined.

(** X26: the route around wake-up, on a cycle with ordered
    boundaries whose warming boundary is 30 minutes before wake-up.  From
    45 minutes before wake-up up to wake-up the target is the spike level
    10.  From wake-up until 15 minutes after it the proximity gate is still
    open while no window holds the instant: the stage is outside the cycle
    and the target is the default the route starts from, midStageSleepLevel. *)
Theorem Route_target_around_wake_up (userTemp : Db.TemperatureProfileRow)
    (c : Shared.SleepCycle) (userNow : Z) :
  ascending c ->
  Shared.warmingTime c = Shared.wakeupTime c - 30 * Js.msPerMinute ->
  (Shared.wakeupTime c - 45 * Js.msPerMinute <= userNow < Shared.wakeupTime c ->
   Route.target userTemp c userNow = Some (10, Warming))
  /\ (Shared.wakeupTime c <= userNow <= Shared.wakeupTime c + 15 * Js.msPerMinute ->
      Route.currentSleepStage c userNow = OutsideSleepCycle
      /\ Route.target userTemp c userNow
         = Some (Db.midStageSleepLevel userTemp, OutsideSleepCycle)).
Proof.
  unfold ascending, Js.msPerMinute. intros (A1 & A2 & A3 & A4 & A5) W. split.
  - intros H. unfold Route.target, Route.nearSomeBoundary.
    destruct (Z.le_gt_cases userNow (Shared.wakeupTime c - 15 * 60000)) as [L|G].
    + rewrite (near_true userNow (Shared.warmingTime c)) by lia. reflexivity.
    + rewrite (near_true userNow (Shared.wakeupTime c)) by lia.
      rewrite !orb_true_r. cbn [orb].
      assert (S : Route.currentSleepStage c userNow = Warming).
      { unfold Route.currentSleepStage. split_tests; try reflexivity; lia. }
      rewrite S, !orb_true_r. reflexivity.
  - intros H.
    assert (S : Route.currentSleepStage c userNow = OutsideSleepCycle).
    { unfold Route.currentSleepStage. split_tests; try reflexivity; lia. }
    split; [exact S|].
    unfold Route.target, Route.nearSomeBoundary. rewrite S.
    rewrite (near_false userNow (Shared.warmingTime c)) by lia.
    rewrite (near_true userNow (Shared.wakeupTime c)) by lia.
    reflexivity.
Qed.

Lemma Route_target_around_wake_up_witness :
  let userTemp := Db.userTemperatureProfiles Sim.nightly in
  let c := {| Shared.preHeatingTime := Sim.at_ 99 21 0;
              Shared.bedTime := Sim.at_ 99 22 0;
              Shared.midStageTime := Sim.at_ 99 23 0;
              Shared.finalStageTime := Sim.at_ 100 4 0;
              Shared.warmingTime := Sim.at_ 100 5 30;
              Shared.wakeupTime := Sim.at_ 100 6 0 |} in
  Route.currentSleepStage c (Sim.at_ 100 6 10) = OutsideSleepCycle
  /\ Route.target userTemp c (Sim.at_ 100 6 10) = Some (-20, OutsideSleepCycle).
Proof.
  cbv zeta.
  refine (proj2 (Route_target_around_wake_up (Db.userTemperatureProfiles Sim.nightly)
                   _ (Sim.at_ 100 6 10) _ _) _).
  - unfold ascending. vm_compute. repeat split; congruence.
  - vm_compute. reflexivity.
  - vm_compute. split; congruence.
Defined.

Section RouteWrites.
Context {Env : Type} (io : Collab Env).
Variables (testMode : option TestMode) (token : Token) (userId : string).
Variable userTemp : Db.TemperatureProfileRow.
Variables (c : Shared.SleepCycle) (userNow : Z).

Lemma perform_trace {A} (ev : Event) (h : Env -> result A * Env) (w : World Env) :
  trace (snd (perform ev h w)) = trace w ++ [ev].
Proof. unfold perform. destruct (h (env w)). reflexivity. Qed.

Lemma Route_writes_after_read (status : HeatingStatus) (level : Z) (w : World Env) :
  exists writes,
    trace (snd ((when (negb (isHeating status)) (Shared.turnOnSide io token userId) ;;
                 when (negb (heatingLevel status =? level))
                   (Shared.setHeatingLevel io token userId level)) w))
    = trace w ++ writes
    /\ singleAttempts token userId writes.
Proof.
  unfold singleAttempts, Shared.turnOnSide, Shared.setHeatingLevel, bind.
  destruct (isHeating status); cbn [negb when].
  - unfold ret at 1.
    destruct (heatingLevel status =? level); cbn [negb when].
    + exists []. rewrite app_nil_r. split; [reflexivity | tauto].
    + exists [SetHeatingLevel token userId level]. rewrite perform_trace.
      split; [reflexivity | eauto 6].
  - pose proof (perform_trace (TurnOnSide token userId) (co_turnOn io token userId) w) as E1.
    destruct (perform (TurnOnSide token userId) (co_turnOn io token userId) w)
      as [[u|e] w1]; cbn [snd] in E1 |- *.
    + destruct (heatingLevel status =? level); cbn [negb when].
      * exists [TurnOnSide token userId]. split; [exact E1 | tauto].
      * exists [TurnOnSide token userId; SetHeatingLevel token userId level].
        rewrite perform_trace, E1, <- app_assoc. split; [reflexivity | eauto 8].
    + exists [TurnOnSide token userId]. split; [exact E1 | tauto].
Qed.

(** X27: in the route every device write of a row is a single
    attempt.  The events of the actuation step are status reads with the
    row's token and back-off waits, followed by at most one power-on and
    at most one set-level in that order, or by one power-off, or by
    nothing: no write is repeated and no wait follows a write, in any mode
    and whatever the collaborators answer. *)
Theorem Route_writes_are_single_attempts (w : World Env) :
  exists reads writes,
    issued (Route.actuate io testMode token userId userTemp c userNow) w = reads ++ writes
    /\ Forall (isReadOrWait token) reads
    /\ singleAttempts token userId writes.
Proof.
  unfold Route.actuate.
  destruct (Route.target userTemp c userNow) as [[level stage]|].
  - destruct (testEnabled testMode); cbn [negb when].
    + exists [], []. rewrite issued_nil by reflexivity.
      split; [reflexivity | split; [constructor | left; reflexivity]].
    + assert (R : emits (isReadOrWait token)
                    (Shared.retryApiCall (Shared.getCurrentHeatingStatus io token)
                     : M Env HeatingStatus)).
      { unfold Shared.getCurrentHeatingStatus.
        apply emits_retryApiCall; [cbn; tauto | cbn; tauto |].
        apply emits_perform. reflexivity. }
      destruct (R w) as (reads & E & F).
      unfold bind at 1.
      destruct (Shared.retryApiCall (Shared.getCurrentHeatingStatus io token) w)
        as [[status|e] w1] eqn:Q; cbn [snd] in E.
      * destruct (Route_writes_after_read status level w1) as (writes & E1 & S1).
        exists reads, writes. split; [|split; assumption].
        unfold issued. cbv beta. rewrite Q, E1, E, <- app_assoc.
        rewrite skipn_app, skipn_all, Nat.sub_diag. reflexivity.
      * exists reads, []. split; [|split; [exact F | left; reflexivity]].
        unfold issued. cbv beta. rewrite Q. cbn [snd]. rewrite E.
        rewrite skipn_app, skipn_all, Nat.sub_diag, app_nil_r. reflexivity.
  - exists []. cbn [app].
    destruct ((userNow >? Shared.wakeupTime c)
              && negb (Shared.isWithinTimeRange userNow (Shared.wakeupTime c) 15));
      cbn [when].
    + destruct (testEnabled testMode); cbn [negb when].
      * exists []. rewrite issued_nil by reflexivity.
        split; [reflexivity | split; [constructor | left; reflexivity]].
      * exists [TurnOffSide token userId]. split; [|split; [constructor | right; left; reflexivity]].
        apply issued_app. apply perform_trace.
    + exists []. rewrite issued_nil by reflexivity.
      split; [reflexivity | split; [constructor | left; reflexivity]].
Qed.

(** X28: the route powers off without looking at the bed.  Outside
    test mode, when the instant is after wake-up and more than 15 minutes
    away from every boundary, the target is null and the actuation step
    is exactly one power-off for the row's user id -- no status read
    before it, no retry after it --, and it resolves or rejects as that
    call does. *)
Theorem Route_power_off_every_run_after_wake_up (w : World Env) :
  awayFromBoundaries c userNow ->
  Shared.wakeupTime c < userNow ->
  testEnabled testMode = false ->
  Route.target userTemp c userNow = None
  /\ issued (Route.actuate io testMode token userId userTemp c userNow) w
     = [TurnOffSide token userId]
  /\ fst (Route.actuate io testMode token userId userTemp c userNow w)
     = fst (co_turnOff io token userId (env w)).
Proof.
  unfold awayFromBoundaries, Js.msPerMinute. intros Haway Hafter Hlive.
  inversion Haway as [|? ? H1 T1]; subst. inversion T1 as [|? ? H2 T2]; subst.
  inversion T2 as [|? ? H3 T3]; subst. inversion T3 as [|? ? H4 T4]; subst.
  inversion T4 as [|? ? H5 T5]; subst. inversion T5 as [|? ? H6 T6]; subst.
  assert (N : Route.target userTemp c userNow = None).
  { unfold Route.target, Route.nearSomeBoundary.
    rewrite (near_false _ _ H1), (near_false _ _ H2), (near_false _ _ H3),
      (near_false _ _ H4), (near_false _ _ H5), (near_false _ _ H6). reflexivity. }
  split; [exact N|].
  unfold Route.actuate. rewrite N, Hlive, (near_false _ _ H6).
  assert (G : (userNow >? Shared.wakeupTime c) = true)
    by (rewrite Z.gtb_ltb; apply Z.ltb_lt; exact Hafter).
  rewrite G. cbn [andb negb when]. split.
  - apply issued_app. apply perform_trace.
  - unfold Shared.turnOffSide, perform.
    destruct (co_turnOff io token userId (env w)). reflexivity.
Qed.
End RouteWrites.

Lemma Route_power_off_every_run_after_wake_up_witness :
  let userTemp := Db.userTemperatureProfiles Sim.nightly in
  let now := Sim.at_ 100 12 0 in
  let c := {| Shared.preHeatingTime := Sim.at_ 100 21 0;
              Shared.bedTime := Sim.at_ 100 22 0;
              Shared.midStageTime := Sim.at_ 100 23 0;
              Shared.finalStageTime := Sim.at_ 100 4 0;
              Shared.warmingTime := Sim.at_ 100 5 30;
              Shared.wakeupTime := Sim.at_ 100 6 0 |} in
  let w := Sim.start Sim.off (Ok [Sim.nightly]) now [] in
  Route.target userTemp c now = None
  /\ issued (Route.actuate Sim.io None Sim.token "u1" userTemp c now) w
     = [TurnOffSide Sim.token "u1"]
  /\ fst (Route.actuate Sim.io None Sim.token "u1" userTemp c now w)
     = fst (co_turnOff Sim.io Sim.token "u1" (env w)).
Proof.
  cbv zeta.
  refine (Route_power_off_every_run_after_wake_up Sim.io None Sim.token "u1"
            (Db.userTemperatureProfiles Sim.nightly) _ (Sim.at_ 100 12 0) _ _ _ _).
  - unfold awayFromBoundaries. repeat constructor; vm_compute; reflexivity.
  - vm_compute. reflexivity.
  - reflexivity.
Defined.

(** X29: the endpoints of the second sibling copy and of the route.
    Without the right authorization they answer 401 and call no
    collaborator.  With it they answer success in every world, whatever
    the fetch and the rows do: the run never rejects, so the handler of
    the second sibling copy that answers 500 is never entered. *)
Theorem Part001_and_Route_GET_outcomes {Env : Type} (io : Collab Env)
    (testTimeParam : option Z) (w : World Env) :
  (Part001.GET io false testTimeParam w = (Ok Unauthorized401, w)
   /\ fst (Part001.GET io true testTimeParam w) = Ok SuccessJson)
  /\ (Route.GET io false testTimeParam w = (Ok Unauthorized401, w)
      /\ fst (Route.GET io true testTimeParam w) = Ok SuccessJson).
Proof.
  destruct (Part001_GET_always_succeeds io testTimeParam w) as [H1 H2].
  repeat split; assumption || reflexivity.
Qed.

Section Unreadable.
Context {Env : Type} (io : Collab Env).
Variables (testMode : option TestMode) (profile : Db.ProfileRow).

Lemma Part002_unreadable_cycle (tz baseDate : Z) (bedTimeStr wakeupTimeStr : string) :
  Part002.createDateWithTime tz baseDate wakeupTimeStr = None ->
  Part002.createSleepCycle tz baseDate bedTimeStr wakeupTimeStr
  = {| Part002.preHeatingTime :=
         option_map (fun d => d - 3 * Js.msPerHour)
           (Part002.createDateWithTime tz baseDate bedTimeStr);
       Part002.bedTime := Part002.createDateWithTime tz baseDate bedTimeStr;
       Part002.midStageTime :=
         option_map (fun t => t + 60 * 60 * 1000)
           (Part002.createDateWithTime tz baseDate bedTimeStr);
       Part002.finalStageTime := None;
       Part002.wakeupTime := None |}.
Proof.
  intros H. unfold Part002.createSleepCycle. rewrite H. cbn [Part002.leDates option_map].
  destruct (Part002.createDateWithTime tz baseDate bedTimeStr) as [b|];
    cbn [option_map]; [|reflexivity].
  rewrite setHours1_shift. reflexivity.
Qed.

(** X30: the third sibling copy does not reject a row whose wake-up
    string is not numeric; it builds a cycle without final stage and
    without wake-up.  For such a row the target is initialSleepLevel from
    three hours before bedtime to one hour after it and null at any other
    instant, and the processing of the row never sends a power-off, in any
    mode: a bed powered on around bedtime is left on. *)
Theorem Part002_unreadable_wake_up_never_powers_off :
  wakeUpUnreadable profile ->
  let userTemp := Db.userTemperatureProfiles profile in
  (forall tz userNow,
      Part002.target userTemp
        (Part002.createSleepCycle tz userNow (Db.bedTime userTemp) (Db.wakeupTime userTemp))
        userNow
      = match Part002.createDateWithTime tz userNow (Db.bedTime userTemp) with
        | Some bedTime =>
            if (bedTime - 3 * Js.msPerHour <=? userNow) && (userNow <? bedTime + Js.msPerHour)
            then Some (Db.initialSleepLevel userTemp)
            else None
        | None => None
        end)
  /\ emits (fun ev => isTurnOff ev = false) (Part002.processProfile io testMode profile).
Proof.
  intros U. cbv zeta. split.
  - intros tz userNow. rewrite (Part002_unreadable_cycle _ _ _ _ (U tz userNow)).
    unfold Part002.target. cbn [Part002.preHeatingTime Part002.bedTime Part002.midStageTime
      Part002.finalStageTime Part002.wakeupTime].
    destruct (Part002.createDateWithTime tz userNow _) as [b|]; cbn [option_map]; [|reflexivity].
    unfold Part002.geDate, Part002.ltDate, Js.msPerHour.
    rewrite !andb_false_r. split_tests; try reflexivity; lia.
  - unfold Part002.processProfile, Shared.userLocal.
    apply emits_bind; [apply emits_nowOf|]. intros now.
    apply emits_bind; [apply emits_lift|]. intros userNow.
    apply emits_bind.
    { apply emits_if; [|apply emits_ret].
      unfold Shared.obtainFreshAccessToken, Shared.dbUpdateUser.
      emits_walk; reflexivity. }
    intros token. unfold Part002.actuate.
    rewrite (Part002_unreadable_cycle _ _ _ _ (U (co_zone io) userNow)).
    destruct (Part002.target _ _ _) as [level|].
    + unfold Shared.turnOnSide, Shared.setHeatingLevel. emits_walk; reflexivity.
    + cbn [Part002.wakeupTime Part002.gtDate when]. apply emits_ret.
Qed.
End Unreadable.

Lemma Part002_unreadable_wake_up_never_powers_off_witness :
  let profile := Sim.profileOf "22:00" "six" in
  let userTemp := Db.userTemperatureProfiles profile in
  (forall tz userNow,
      Part002.target userTemp
        (Part002.createSleepCycle tz userNow (Db.bedTime userTemp) (Db.wakeupTime userTemp))
        userNow
      = match Part002.createDateWithTime tz userNow (Db.bedTime userTemp) with
        | Some bedTime =>
            if (bedTime - 3 * Js.msPerHour <=? userNow) && (userNow <? bedTime + Js.msPerHour)
            then Some (Db.initialSleepLevel userTemp)
            else None
        | None => None
        end)
  /\ emits (fun ev => isTurnOff ev = false)
       (Part002.processProfile Sim.io None profile).
Proof.
  cbv zeta.
  refine (Part002_unreadable_wake_up_never_powers_off Sim.io None
            (Sim.profileOf "22:00" "six") _).
  intros tz baseDate. reflexivity.
Defined.
